(** * sleap: video backends, form builder and augmentation batching

  A shallow embedding of [sleap/io/video.py], [sleap/gui/formbuilder.py]
  and [sleap/nn/augmentation.py], and the properties of the specification
  checked against it.

  Python [str] values are lists of characters; the characters are bytes,
  so the model covers ASCII file names and field names.  Calls into the
  operating system and into h5py, numpy's loader, OpenCV and imgstore are
  answered by a [world] record; every such call is also written to a
  trace, so that the order and the number of the calls a function makes
  can be stated. *)

From stdpp Require Import gmap strings list fin_maps.
From Stdlib Require Import ZArith QArith Qround Ascii.
From Stdlib Require String SpecFloat.

Local Open Scope Z_scope.
Local Open Scope list_scope.

(** ** Python strings *)

Module PyStr.

Abbreviation pystr := (list ascii).

Definition str (s : string) : pystr := String.list_ascii_of_string s.

(** [s.startswith(pre)] *)
Definition startswith (s pre : pystr) : bool :=
  bool_decide (take (length pre) s = pre).

(** [s.endswith(suf)]: the last [len(suf)] characters of [s] are [suf]. *)
Definition endswith (s suf : pystr) : bool :=
  bool_decide (length suf ≤ length s)%nat
  && bool_decide (drop (length s - length suf) s = suf).

(** [s.endswith((a, b))] with a tuple of two suffixes. *)
Definition endswith2 (s a b : pystr) : bool := endswith s a || endswith s b.

(** [sub in s] *)
Fixpoint contains (sub s : pystr) : bool :=
  startswith s sub
  || match s with
     | [] => false
     | _ :: s' => contains sub s'
     end.

Definition lower_char (c : ascii) : ascii :=
  let n := nat_of_ascii c in
  if bool_decide (65 ≤ n ≤ 90)%nat then ascii_of_nat (n + 32) else c.

(** [s.lower()] on ASCII text. *)
Definition lower (s : pystr) : pystr := map lower_char s.

(** [s.rfind(c)]: the highest index of [c] in [s], or [-1]. *)
Fixpoint rfind_from (c : ascii) (s : pystr) (i acc : Z) : Z :=
  match s with
  | [] => acc
  | x :: s' => rfind_from c s' (i + 1) (if decide (x = c) then i else acc)
  end.

Definition rfind (c : ascii) (s : pystr) : Z := rfind_from c s 0 (-1).

(** [s.split(c)] for a single character [c]. *)
Fixpoint split_char (c : ascii) (s : pystr) : list pystr :=
  match s with
  | [] => [[]]
  | x :: s' =>
      if decide (x = c) then [] :: split_char c s'
      else match split_char c s' with
           | piece :: pieces => (x :: piece) :: pieces
           | [] => [[x]]
           end
  end.

(** [s.lstrip(c)] and [s.rstrip(c)] for a single character [c]. *)
Fixpoint lstrip (c : ascii) (s : pystr) : pystr :=
  match s with
  | x :: s' => if decide (x = c) then lstrip c s' else s
  | [] => []
  end.

Definition rstrip (c : ascii) (s : pystr) : pystr :=
  reverse (lstrip c (reverse s)).

End PyStr.

(** ** Python exceptions and results *)

Module Py.

(** The exception classes the three modules can raise.  [LibraryError]
    stands for an exception raised inside an external library whose class
    the source does not determine. *)
Inductive exn :=
| FileNotFoundError
| ValueError
| TypeError
| KeyError
| IndexError
| AttributeError
| ZeroDivisionError
| UnboundLocalError
| NameError
| OverflowError
| LibraryError.

Global Instance exn_eq_dec : EqDecision exn.
Proof. solve_decision. Defined.

Inductive result (A : Type) :=
| Ok (a : A)
| Raise (e : exn).
Global Arguments Ok {A} a.
Global Arguments Raise {A} e.

Definition rbind {A B} (r : result A) (k : A → result B) : result B :=
  match r with
  | Ok a => k a
  | Raise e => Raise e
  end.

Definition rmap {A B} (f : A → B) (r : result A) : result B :=
  rbind r (λ a, Ok (f a)).

(** [l[i]] on a Python sequence: negative indices count from the end. *)
Definition seq_getitem {A} (l : list A) (i : Z) : result A :=
  let n := Z.of_nat (length l) in
  if bool_decide (- n ≤ i < n)
  then match l !! Z.to_nat (if bool_decide (i < 0) then i + n else i) with
       | Some x => Ok x
       | None => Raise IndexError
       end
  else Raise IndexError.

(** A [slice] object; a component that is [None] is left out. *)
Record pyslice := PySlice {
  slice_start : option Z;
  slice_stop : option Z;
  slice_step : option Z
}.

(** One bound of [slice.indices]: a negative bound counts from the end,
    and the bound is brought between [lower] and [upper]. *)
Definition slice_bound (bound : option Z) (size lower upper dflt : Z) : Z :=
  match bound with
  | None => dflt
  | Some b =>
      if bool_decide (b < 0)
      then if bool_decide (b + size < lower) then lower else b + size
      else if bool_decide (upper < b) then upper else b
  end.

(** [s.indices(size)] *)
Definition slice_indices (s : pyslice) (size : Z) : result (Z * Z * Z) :=
  let step := default 1 (slice_step s) in
  if bool_decide (step = 0) then Raise ValueError
  else
    let step_is_negative := bool_decide (step < 0) in
    let lower := if step_is_negative then -1 else 0 in
    let upper := if step_is_negative then size + -1 else size in
    let start :=
      slice_bound (slice_start s) size lower upper
        (if step_is_negative then upper else lower) in
    let stop :=
      slice_bound (slice_stop s) size lower upper
        (if step_is_negative then lower else upper) in
    Ok (start, stop, step).

(** [list(range(start, stop, step))] *)
Definition py_range (start stop step : Z) : result (list Z) :=
  if bool_decide (step = 0) then Raise ValueError
  else
    let '(lo, hi, stride) :=
      if bool_decide (0 < step) then (start, stop, step)
      else (stop, start, - step) in
    let n := if bool_decide (hi ≤ lo) then 0 else (hi - lo - 1) / stride + 1 in
    Ok (map (λ i, start + Z.of_nat i * step) (seq 0 (Z.to_nat n))).

End Py.

Export Py.
Export PyStr.

Notation "'let?' x ':=' r 'in' k" := (rbind r (λ x, k))
(at level 10, x pattern, r at level 100, k at level 200, only parsing).

(** ** numpy arrays *)

Module Np.

(** An n-dimensional array: its shape and its elements in row-major
    order.  Pixel values are rationals: the values of the integer dtypes
    and the finite values of the floating dtypes.  Arithmetic on the
    elements is done in the element type of the array, which the
    operations below take as a [dtype]. *)
Record ndarray := NdArray { shape : list nat; data : list Q }.

(** The element types of image data: bytes, and the three binary
    floating-point formats of IEEE 754. *)
Inductive dtype := UInt8 | Float16 | Float32 | Float64.

Global Instance dtype_eq_dec : EqDecision dtype.
Proof. solve_decision. Defined.

(** The precision and the exponent bound of a floating dtype. *)
Definition float_format (t : dtype) : option (Z * Z) :=
  match t with
  | UInt8 => None
  | Float16 => Some (11, 16)
  | Float32 => Some (24, 128)
  | Float64 => Some (53, 1024)
  end.

Definition size_of (s : list nat) : nat := foldr Nat.mul 1%nat s.

Definition ndim (a : ndarray) : nat := length (shape a).

(** [a.shape[i]] *)
Definition shape_at (a : ndarray) (i : nat) : result nat :=
  match shape a !! i with
  | Some d => Ok d
  | None => Raise IndexError
  end.

(** [a[idx]] with an integer index on the first axis. *)
Definition getitem (a : ndarray) (idx : Z) : result ndarray :=
  match shape a with
  | [] => Raise IndexError
  | n :: rest =>
      if bool_decide (- Z.of_nat n ≤ idx < Z.of_nat n)
      then
        let i := Z.to_nat (if bool_decide (idx < 0) then idx + Z.of_nat n else idx) in
        Ok (NdArray rest (take (size_of rest) (drop (i * size_of rest) (data a))))
      else Raise IndexError
  end.

Definition flat_at (a : ndarray) (i : nat) : Q := default 0%Q (data a !! i).

(** [np.transpose(a, (2, 1, 0))]: element [(k, j, i)] of the result is
    element [(i, j, k)] of the three-dimensional [a]. *)
Definition transpose_210 (a : ndarray) : result ndarray :=
  match shape a with
  | [d0; d1; d2] =>
      Ok (NdArray [d2; d1; d0]
            (k ← seq 0 d2; j ← seq 0 d1; i ← seq 0 d0;
             [flat_at a (i * d1 * d2 + j * d2 + k)]))
  | _ => Raise ValueError
  end.

(** The rows of the last axis: [chunks c l] cuts [l] into pieces of
    length [c]. *)
Fixpoint chunks_fuel (fuel c : nat) (l : list Q) : list (list Q) :=
  match fuel with
  | O => []
  | S fuel' =>
      match l with
      | [] => []
      | _ => take c l :: chunks_fuel fuel' c (drop c l)
      end
  end.

Definition chunks (c : nat) (l : list Q) : list (list Q) :=
  chunks_fuel (length l) c l.

(** [a[..., k]] *)
Definition ellipsis_getitem (a : ndarray) (k : Z) : result ndarray :=
  match last (shape a) with
  | None => Raise IndexError
  | Some c =>
      if bool_decide (- Z.of_nat c ≤ k < Z.of_nat c)
      then
        let i := Z.to_nat (if bool_decide (k < 0) then k + Z.of_nat c else k) in
        Ok (NdArray (take (length (shape a) - 1) (shape a))
              (omap (λ row, row !! i) (chunks c (data a))))
      else Raise IndexError
  end.

(** [a[..., None]] *)
Definition ellipsis_newaxis (a : ndarray) : ndarray :=
  NdArray (shape a ++ [1%nat]) (data a).

(** [a[..., ::-1]] *)
Definition ellipsis_reversed (a : ndarray) : result ndarray :=
  match last (shape a) with
  | None => Raise IndexError
  | Some c => Ok (NdArray (shape a) (concat (map reverse (chunks c (data a)))))
  end.

(** [a[:, :, None]] *)
Definition newaxis_2 (a : ndarray) : result ndarray :=
  if bool_decide (2 ≤ ndim a)%nat
  then Ok (NdArray (take 2 (shape a) ++ 1%nat :: drop 2 (shape a)) (data a))
  else Raise IndexError.

Definition Qmax2 (a b : Q) : Q := if Qle_bool a b then b else a.

(** [np.max(a)]; raises [ValueError] on an array without elements. *)
Definition amax (a : ndarray) : result Q :=
  match data a with
  | [] => Raise ValueError
  | x :: l => Ok (foldl Qmax2 x l)
  end.

(** Conversion of a value to [int] truncates towards zero. *)
Definition Qtruncate (q : Q) : Z := Z.quot (Qnum q) (Zpos (Qden q)).

(** The number of the format with precision [prec] and exponent bound
    [emax] that is nearest to [q], the even one of two that are equally
    near: [q] itself when the format has it.  The quotient is cut after
    more bits than the format keeps; the last bit records whether
    anything was cut off. *)
Definition float_of_Q (prec emax : Z) (q : Q) : SpecFloat.spec_float :=
  let d := Zpos (Qden q) in
  let k := prec + Z.log2_up d in
  let n := Z.abs (Qnum q) * 2 ^ k in
  let sticky := if bool_decide (n mod d = 0) then 0 else 1 in
  SpecFloat.binary_normalize prec emax
    (Z.sgn (Qnum q) * (2 * (n / d) + sticky)) (- k - 1) false.

(** [x.astype(int)] on one floating-point element: the fraction is cut
    off.  What does not fit 64 bits, an infinity among it, becomes the
    least 64-bit integer, which is what the conversion instructions of
    x86-64 and of AArch64 give for a negative number. *)
Definition float_astype_int (x : SpecFloat.spec_float) : Z :=
  match x with
  | SpecFloat.S754_zero _ => 0
  | SpecFloat.S754_finite s m e =>
      let magnitude :=
        if bool_decide (0 ≤ e) then Zpos m * 2 ^ e else Zpos m / 2 ^ (- e) in
      let z := if s then - magnitude else magnitude in
      if bool_decide (- 2 ^ 63 ≤ z < 2 ^ 63) then z else - 2 ^ 63
  | _ => - 2 ^ 63
  end.

(** One element of [(a * 255).astype(int)] for an array of dtype [t].  A
    floating array is multiplied in its own format, so the product is
    rounded before its fraction is cut off; a byte array stays a byte
    array, so the product is taken modulo 256. *)
Definition times_255_as_int (t : dtype) (q : Q) : Z :=
  match float_format t with
  | Some (prec, emax) =>
      float_astype_int
        (SpecFloat.SFmul prec emax (float_of_Q prec emax q)
           (float_of_Q prec emax 255))
  | None => (Qtruncate q * 255) mod 256
  end.

(** [(a * 255).astype(int)] for an array of dtype [t]. *)
Definition times_255_astype_int (t : dtype) (a : ndarray) : ndarray :=
  NdArray (shape a) (map (λ q, inject_Z (times_255_as_int t q)) (data a)).

(** [np.alltrue(a == b)] for two arrays of one shape. *)
Definition all_equal (a b : ndarray) : bool :=
  forallb (λ p, Qeq_bool p.1 p.2) (zip (data a) (data b)).

(** What [np.stack] makes of the frames of a video: an array of numbers,
    or, where a frame is [None], an array of objects. *)
Inductive stacked :=
| Stacked (a : ndarray)
| StackedObjects (items : list (option Q)).

(** The shape of [np.asanyarray(f)]; [None] becomes an array without
    axes. *)
Definition asanyarray_shape (f : option ndarray) : list nat :=
  match f with
  | Some a => shape a
  | None => []
  end.

(** The frames, when none of them is [None]. *)
Fixpoint all_arrays (frames : list (option ndarray)) : option (list ndarray) :=
  match frames with
  | [] => Some []
  | Some a :: frames' => cons a <$> all_arrays frames'
  | None :: _ => None
  end.

(** [np.stack(arrays, axis=0)] *)
Definition stack (arrays : list (option ndarray)) : result stacked :=
  match arrays with
  | [] => Raise ValueError
  | first :: rest =>
      if forallb (λ f, bool_decide (asanyarray_shape f = asanyarray_shape first)) rest
      then
        match all_arrays arrays with
        | Some numeric =>
            Ok (Stacked (NdArray (length arrays :: asanyarray_shape first)
                           (concat (map data numeric))))
        | None =>
            Ok (StackedObjects
                  (map (λ f : option ndarray, a ← f; head (data a)) arrays))
        end
      else Raise ValueError
  end.

End Np.

(** ** [os.path] on POSIX *)

Module PosixPath.

Definition sep : ascii := "/"%char.
Definition dot : pystr := str ".".
Definition dotdot : pystr := str "..".

(** [os.path.basename(p)]: [i = p.rfind('/') + 1; return p[i:]] *)
Definition basename (p : pystr) : pystr :=
  let i := Z.to_nat (rfind sep p + 1) in
  drop i p.

(** [os.path.split(p)] *)
Definition split (p : pystr) : pystr * pystr :=
  let i := Z.to_nat (rfind sep p + 1) in
  let head := take i p in
  let tail := drop i p in
  let head :=
    if bool_decide (head ≠ []) && bool_decide (head ≠ replicate (length head) sep)
    then rstrip sep head
    else head in
  (head, tail).

(** [os.path.isabs(p)] *)
Definition isabs (p : pystr) : bool := startswith p [sep].

(** [os.path.join(a, b)] *)
Definition join (a b : pystr) : pystr :=
  if startswith b [sep] then b
  else if bool_decide (a = []) || endswith a [sep] then a ++ b
  else a ++ sep :: b.

(** [p.split('/')] *)
Definition split_sep (p : pystr) : list pystr := split_char sep p.

(** ['/'.join(comps)] *)
Fixpoint join_sep (comps : list pystr) : pystr :=
  match comps with
  | [] => []
  | [comp] => comp
  | comp :: comps' => comp ++ sep :: join_sep comps'
  end.

(** One turn of the loop of [normpath] over the components. *)
Definition normpath_step (initial_slashes : nat) (new_comps : list pystr)
    (comp : pystr) : list pystr :=
  if bool_decide (comp = []) || bool_decide (comp = dot) then new_comps
  else if bool_decide (comp ≠ dotdot)
          || (bool_decide (initial_slashes = 0%nat) && bool_decide (new_comps = []))
          || (bool_decide (new_comps ≠ []) && bool_decide (last new_comps = Some dotdot))
  then new_comps ++ [comp]
  else if bool_decide (new_comps ≠ [])
  then take (length new_comps - 1) new_comps
  else new_comps.

(** [os.path.normpath(path)] *)
Definition normpath (path : pystr) : pystr :=
  if bool_decide (path = []) then dot
  else
    let initial_slashes : nat :=
      if startswith path [sep]
      then if startswith path [sep; sep] && negb (startswith path [sep; sep; sep])
           then 2%nat else 1%nat
      else 0%nat in
    let comps := split_sep path in
    let new_comps := foldl (normpath_step initial_slashes) [] comps in
    let path := join_sep new_comps in
    let path := replicate initial_slashes sep ++ path in
    if bool_decide (path = []) then dot else path.


End PosixPath.

(** ** External resources and traced calls *)

Module Ext.
Import Np PosixPath.

(** An open HDF5 file: its name and its datasets by name, each with its
    contents and its element type.  The groups of a file are not part of
    the model. *)
Record h5file := H5File {
  h5_filename : pystr;
  h5_datasets : list (pystr * (ndarray * dtype))
}.

(** An [h5.Dataset]: the file it lives in, its name, its contents and its
    element type. *)
Record h5dataset := H5Dataset {
  ds_file : h5file;
  ds_name : pystr;
  ds_array : ndarray;
  ds_dtype : dtype
}.

(** The components of an HDF5 name: what stands between its slashes.
    Several slashes count as one, and a component [.] stays in the group
    it is met in. *)
Definition h5_components (name : pystr) : list pystr :=
  filter (λ c, c ≠ [] ∧ c ≠ str ".") (split_char "/" name).

(** The absolute name of the object that the components lead to. *)
Definition h5_absolute (comps : list pystr) : pystr := sep :: join_sep comps.

(** [file[name]]: a name is followed from the root group, whether it
    starts with a slash or not, and the dataset it leads to reports its
    absolute name.  h5py refuses the empty name with [ValueError] and a
    name that leads to nothing with [KeyError].  A name that leads to a
    group, as [/] does, is answered here like a name that leads to
    nothing. *)
Definition h5_getitem (f : h5file) (name : pystr) : result h5dataset :=
  if bool_decide (name = []) then Raise ValueError
  else
    match list_find (λ kv, h5_components kv.1 = h5_components name)
            (h5_datasets f) with
    | Some (_, (_, (a, t))) =>
        Ok (H5Dataset f (h5_absolute (h5_components name)) a t)
    | None => Raise KeyError
    end.

(** A [cv2.VideoCapture]: the decoded frames and the position of the next
    frame to read.  A capture that could not be opened has no frames. *)
Record capture := Capture {
  cap_frames : list ndarray;
  cap_pos : Z
}.

(** [reader.set(cv2.CAP_PROP_POS_FRAMES, idx)]: the reader is moved to
    the frame [idx]; to the first frame for a negative [idx], and behind
    the last frame for an [idx] past the end. *)
Definition cap_set_pos (r : capture) (idx : Z) : capture :=
  Capture (cap_frames r)
    (Z.max 0 (Z.min idx (Z.of_nat (length (cap_frames r))))).

(** [reader.read()]: [(ret, frame)] and the advanced reader.  No reader
    stands at a negative position; one that did would count as standing
    at the first frame. *)
Definition cap_read (r : capture) : capture * (bool * option ndarray) :=
  match cap_frames r !! Z.to_nat (cap_pos r) with
  | Some f => (Capture (cap_frames r) (Z.max 0 (cap_pos r) + 1), (true, Some f))
  | None => (r, (false, None))
  end.

(** An imgstore: the stored images with their original frame numbers, and
    the position of the next image. *)
Record imgstore := ImgStore {
  store_images : list (Z * ndarray);
  store_pos : nat
}.

Definition store_frame_count (s : imgstore) : nat := length (store_images s).

(** [store.get_next_image()] *)
Definition store_get_next_image (s : imgstore)
  : result (imgstore * (ndarray * Z)) :=
  match store_images s !! store_pos s with
  | Some (n, img) => Ok (ImgStore (store_images s) (S (store_pos s)), (img, n))
  | None => Raise LibraryError
  end.

(** [store.get_image(frame_number)] *)
Definition store_get_image_by_number (s : imgstore) (frame_number : Z)
  : result (imgstore * (ndarray * Z)) :=
  match list_find (λ kv, kv.1 = frame_number) (store_images s) with
  | Some (i, (n, img)) => Ok (ImgStore (store_images s) (S i), (img, n))
  | None => Raise LibraryError
  end.

(** [store.get_image(frame_number=None, frame_index=i)] *)
Definition store_get_image_by_index (s : imgstore) (frame_index : Z)
  : result (imgstore * (ndarray * Z)) :=
  if bool_decide (0 ≤ frame_index)
  then match store_images s !! Z.to_nat frame_index with
       | Some (n, img) => Ok (ImgStore (store_images s) (S (Z.to_nat frame_index)), (img, n))
       | None => Raise LibraryError
       end
  else Raise LibraryError.

(** What the operating system and the libraries answer. [None] from
    [h5_File] and [np_load] is an [OSError]; [None] from
    [imgstore_new_for_filename] is an exception of imgstore. *)
Record world := World {
  os_path_exists : pystr → bool;
  os_path_isfile : pystr → bool;
  os_path_isdir : pystr → bool;
  os_getcwd : pystr;
  h5_File : pystr → option h5file;
  np_load : pystr → option ndarray;
  cv2_VideoCapture : pystr → list ndarray;
  imgstore_new_for_filename : pystr → option imgstore
}.

(** The calls that leave the program. *)
Inductive call :=
| CallExists (p : pystr)
| CallIsfile (p : pystr)
| CallIsdir (p : pystr)
| CallGetcwd
| CallH5File (p : pystr)
| CallNpLoad (p : pystr)
| CallVideoCapture (p : pystr)
| CallImgstoreOpen (p : pystr).

(** A computation reads the world, records its calls and returns or
    raises. *)
Record IO (A : Type) : Type := MkIO { run : world → list call * result A }.
Global Arguments MkIO {A} run.
Global Arguments run {A} _ w.

Definition io_ret {A} (a : A) : IO A := MkIO (λ _, ([], Ok a)).

Definition io_bind {A B} (m : IO A) (k : A → IO B) : IO B :=
  MkIO (λ w, match run m w with
             | (t, Ok a) => let '(t', r) := run (k a) w in (t ++ t', r)
             | (t, Raise e) => (t, Raise e)
             end).

Definition io_raise {A} (e : exn) : IO A := MkIO (λ _, ([], Raise e)).

Definition io_lift {A} (r : result A) : IO A := MkIO (λ _, ([], r)).

Definition io_call {A} (c : call) (answer : world → A) : IO A :=
  MkIO (λ w, ([c], Ok (answer w))).

Global Instance IO_ret : MRet IO := @io_ret.
Global Instance IO_bind : MBind IO := λ A B k m, io_bind m k.

Definition trace {A} (m : IO A) (w : world) : list call := (run m w).1.
Definition outcome {A} (m : IO A) (w : world) : result A := (run m w).2.

Definition exists_ (p : pystr) : IO bool :=
  io_call (CallExists p) (λ w, os_path_exists w p).
Definition isfile (p : pystr) : IO bool :=
  io_call (CallIsfile p) (λ w, os_path_isfile w p).
Definition isdir (p : pystr) : IO bool :=
  io_call (CallIsdir p) (λ w, os_path_isdir w p).
Definition getcwd : IO pystr :=
  io_call CallGetcwd os_getcwd.

End Ext.


(** ** [sleap/io/video.py] *)

Module VideoIO.
Import Np Ext PosixPath.

(** The Python values that reach the [filename] and [dataset] arguments. *)
Inductive pyval :=
| VStr (s : pystr)
| VNone
| VH5File (f : h5file)
| VH5Dataset (d : h5dataset)
| VArray (a : ndarray)
| VInt (z : Z)
| VBool (b : bool).

(** [type(v) is str] *)
Definition type_is_str (v : pyval) : bool :=
  match v with VStr _ => true | _ => false end.

Definition metadata_yaml : pystr := str "metadata.yaml".
Definition channels_first : pystr := str "channels_first".
Definition channels_last : pystr := str "channels_last".

(** The contract of a backend with the [Video] class: four properties and
    the frame fetch.  A fetch may move the position of a reader or open a
    store, so it returns the backend with the frame; a fetch that returns
    Python's [None] returns no array. *)
Class Backend (B : Type) := {
  frames : B → result nat;
  channels : B → result nat;
  width : B → result nat;
  height : B → result nat;
  get_frame : B → Z → IO (B * option ndarray)
}.

(** *** HDF5Video *)

Record HDF5Video := MkHDF5Video {
  hdf5_filename : pyval;
  hdf5_dataset : pyval;
  hdf5_input_format : pystr;
  hdf5_convert_range : bool;
  hdf5_file_h5 : option h5file;
  hdf5_dataset_h5 : option h5dataset;
  hdf5_channel_idx : nat;
  hdf5_width_idx : nat;
  hdf5_height_idx : nat
}.

(** The validator of [input_format]; it returns the channel, width and
    height axes. *)
Definition HDF5Video_check (value : pystr) : result (nat * nat * nat) :=
  if negb (bool_decide (value ∈ [channels_first; channels_last]))
  then Raise ValueError
  else if bool_decide (value = channels_first)
  then Ok (1, 2, 3)%nat
  else Ok (3, 2, 1)%nat.

(** [HDF5Video(filename, dataset, input_format, convert_range)]: the
    generated [__init__] stores the attributes, runs the validator and
    then [__attrs_post_init__]. *)
Definition HDF5Video_new (filename dataset : pyval) (input_format : pystr)
    (convert_range : bool) : IO HDF5Video :=
  '(channel_idx, width_idx, height_idx) ← io_lift (HDF5Video_check input_format);
  '(file_h5, filename) ←
    match filename with
    | VH5File f => io_ret (Some f, VStr (h5_filename f))
    | VStr p =>
        r ← io_call (CallH5File p) (λ w, h5_File w p);
        match r with
        | Some f => io_ret (Some f, filename)
        | None => io_raise FileNotFoundError
        end
    | _ => io_ret (None, filename)
    end;
  '(dataset_h5, file_h5, dataset) ←
    match dataset with
    | VH5Dataset d => io_ret (Some d, Some (ds_file d), VStr (ds_name d))
    | VStr name =>
        match file_h5 with
        | Some f => d ← io_lift (h5_getitem f name); io_ret (Some d, file_h5, dataset)
        | None => io_raise TypeError
        end
    | _ => io_ret (None, file_h5, dataset)
    end;
  io_ret (MkHDF5Video filename dataset input_format convert_range
            file_h5 dataset_h5 channel_idx width_idx height_idx).

Definition HDF5Video_dataset_shape (v : HDF5Video) (i : nat) : result nat :=
  match hdf5_dataset_h5 v with
  | Some d => shape_at (ds_array d) i
  | None => Raise AttributeError
  end.

Definition HDF5Video_frames (v : HDF5Video) := HDF5Video_dataset_shape v 0.
Definition HDF5Video_channels (v : HDF5Video) :=
  HDF5Video_dataset_shape v (hdf5_channel_idx v).
Definition HDF5Video_width (v : HDF5Video) :=
  HDF5Video_dataset_shape v (hdf5_width_idx v).
Definition HDF5Video_height (v : HDF5Video) :=
  HDF5Video_dataset_shape v (hdf5_height_idx v).

(** The [dtype] property. *)
Definition HDF5Video_dtype (v : HDF5Video) : result dtype :=
  match hdf5_dataset_h5 v with
  | Some d => Ok (ds_dtype d)
  | None => Raise AttributeError
  end.

(** [get_frame(idx)]; the frame that was read has the element type of the
    dataset, and in this type it is multiplied. *)
Definition HDF5Video_get_frame (v : HDF5Video) (idx : Z) : result ndarray :=
  let? frame :=
    match hdf5_dataset_h5 v with
    | Some d => getitem (ds_array d) idx
    | None => Raise TypeError
    end in
  let? frame :=
    if bool_decide (hdf5_input_format v = channels_first)
    then transpose_210 frame
    else Ok frame in
  let? frame :=
    if hdf5_convert_range v
    then let? m := amax frame in
         if Qle_bool m 1
         then let? t := HDF5Video_dtype v in Ok (times_255_astype_int t frame)
         else Ok frame
    else Ok frame in
  Ok frame.

Global Instance HDF5Video_backend : Backend HDF5Video := {|
  frames := HDF5Video_frames;
  channels := HDF5Video_channels;
  width := HDF5Video_width;
  height := HDF5Video_height;
  get_frame v idx := io_lift (rmap (λ f, (v, Some f)) (HDF5Video_get_frame v idx))
|}.

(** *** MediaVideo *)

Record MediaVideo := MkMediaVideo {
  media_filename : pystr;
  media_grayscale : bool;
  media_bgr : bool;
  media_detect_grayscale : bool;
  media_reader : capture;
  media_test_frame : option ndarray
}.

(** Subscripting what [reader.read()] returned; [None] is not
    subscriptable. *)
Definition subscript (frame : option ndarray) (f : ndarray → result ndarray)
  : result (option ndarray) :=
  match frame with
  | Some a => rmap Some (f a)
  | None => Raise TypeError
  end.

Definition MediaVideo_get_frame (v : MediaVideo) (idx : Z)
    (grayscale : option bool) : result (MediaVideo * option ndarray) :=
  let grayscale := default (media_grayscale v) grayscale in
  let reader :=
    if bool_decide (cap_pos (media_reader v) ≠ idx)
    then cap_set_pos (media_reader v) idx
    else media_reader v in
  let '(reader, (ret, frame)) := cap_read reader in
  let? frame :=
    if grayscale
    then subscript frame (λ a, rmap ellipsis_newaxis (ellipsis_getitem a 0))
    else Ok frame in
  let? frame :=
    if media_bgr v
    then subscript frame ellipsis_reversed
    else Ok frame in
  Ok (MkMediaVideo (media_filename v) (media_grayscale v) (media_bgr v)
        (media_detect_grayscale v) reader (media_test_frame v),
      frame).

(** [MediaVideo(filename, grayscale, bgr)]; [grayscale = None] stands for
    the argument left out, which switches the detection on. *)
Definition MediaVideo_new (filename : pyval) (grayscale : option bool)
    (bgr : bool) : IO MediaVideo :=
  match filename with
  | VStr p =>
      let detect := bool_decide (grayscale = None) in
      found ← isfile p;
      if negb (found : bool) then io_raise FileNotFoundError
      else
        decoded ← io_call (CallVideoCapture p) (λ w, cv2_VideoCapture w p);
        let v := MkMediaVideo p (default false grayscale) bgr detect
                   (Capture decoded 0) None in
        '(v, test_frame) ← io_lift (MediaVideo_get_frame v 0 (Some false));
        if detect
        then
          first ← io_lift (subscript test_frame (λ a, ellipsis_getitem a 0));
          last_ ← io_lift (subscript test_frame (λ a, ellipsis_getitem a (-1)));
          let gray :=
            match first, last_ with
            | Some a, Some b => all_equal a b
            | _, _ => false
            end in
          io_ret (MkMediaVideo p gray bgr detect (media_reader v) test_frame)
        else
          io_ret (MkMediaVideo p (media_grayscale v) bgr detect (media_reader v)
                    test_frame)
  | _ => io_raise TypeError
  end.

Definition MediaVideo_test_shape (v : MediaVideo) (i : nat) : result nat :=
  match media_test_frame v with
  | Some a => shape_at a i
  | None => Raise AttributeError
  end.

Definition MediaVideo_frames (v : MediaVideo) : result nat :=
  Ok (length (cap_frames (media_reader v))).
Definition MediaVideo_channels (v : MediaVideo) : result nat :=
  if media_grayscale v then Ok 1%nat else MediaVideo_test_shape v 2.
Definition MediaVideo_width (v : MediaVideo) := MediaVideo_test_shape v 1.
Definition MediaVideo_height (v : MediaVideo) := MediaVideo_test_shape v 0.

Global Instance MediaVideo_backend : Backend MediaVideo := {|
  frames := MediaVideo_frames;
  channels := MediaVideo_channels;
  width := MediaVideo_width;
  height := MediaVideo_height;
  get_frame v idx := io_lift (MediaVideo_get_frame v idx None)
|}.

(** *** NumpyVideo *)

Record NumpyVideo := MkNumpyVideo {
  numpy_filename : pyval;
  numpy_frame_idx : nat;
  numpy_width_idx : nat;
  numpy_height_idx : nat;
  numpy_channel_idx : nat;
  numpy_data : option ndarray
}.

Definition NumpyVideo_new (filename : pyval) : IO NumpyVideo :=
  let frame_idx := 0%nat in
  let width_idx := 1%nat in
  let height_idx := 2%nat in
  let channel_idx := 3%nat in
  '(data, filename) ←
    match filename with
    | VArray a => io_ret (Some a, VStr (str "Raw Video Data"))
    | VStr p =>
        r ← io_call (CallNpLoad p) (λ w, np_load w p);
        match r with
        | Some a => io_ret (Some a, filename)
        | None => io_raise FileNotFoundError
        end
    | _ => io_ret (None, filename)
    end;
  io_ret (MkNumpyVideo filename frame_idx width_idx height_idx channel_idx data).

Definition NumpyVideo_data_shape (v : NumpyVideo) (i : nat) : result nat :=
  match numpy_data v with
  | Some a => shape_at a i
  | None => Raise AttributeError
  end.

Definition NumpyVideo_frames (v : NumpyVideo) :=
  NumpyVideo_data_shape v (numpy_frame_idx v).
Definition NumpyVideo_channels (v : NumpyVideo) :=
  NumpyVideo_data_shape v (numpy_channel_idx v).
Definition NumpyVideo_width (v : NumpyVideo) :=
  NumpyVideo_data_shape v (numpy_width_idx v).
Definition NumpyVideo_height (v : NumpyVideo) :=
  NumpyVideo_data_shape v (numpy_height_idx v).

Definition NumpyVideo_get_frame (v : NumpyVideo) (idx : Z) : result ndarray :=
  match numpy_data v with
  | Some a => getitem a idx
  | None => Raise TypeError
  end.

Global Instance NumpyVideo_backend : Backend NumpyVideo := {|
  frames := NumpyVideo_frames;
  channels := NumpyVideo_channels;
  width := NumpyVideo_width;
  height := NumpyVideo_height;
  get_frame v idx := io_lift (rmap (λ f, (v, Some f)) (NumpyVideo_get_frame v idx))
|}.

(** *** ImgStoreVideo *)

Record ImgStoreVideo := MkImgStoreVideo {
  imgstore_filename : pystr;
  imgstore_index_by_original : bool;
  imgstore_store : option imgstore;
  imgstore_img : option ndarray
}.

(** [os.path.abspath(path)]; the working directory is asked for only when
    the path is relative. *)
Definition os_path_abspath (path : pystr) : IO pystr :=
  if isabs path then mret (normpath path)
  else cwd ← getcwd; mret (normpath (join cwd path)).

(** [self.open()] *)
Definition ImgStoreVideo_open (v : ImgStoreVideo) : IO ImgStoreVideo :=
  match imgstore_store v with
  | Some _ => mret v
  | None =>
      r ← io_call (CallImgstoreOpen (imgstore_filename v))
            (λ w, imgstore_new_for_filename w (imgstore_filename v));
      match r with
      | Some s =>
          '(s, (img, _)) ← io_lift (store_get_next_image s);
          mret (MkImgStoreVideo (imgstore_filename v)
                  (imgstore_index_by_original v) (Some s) (Some img))
      | None => io_raise LibraryError
      end
  end.

(** [ImgStoreVideo(filename, index_by_original)] *)
Definition ImgStoreVideo_new (filename : pyval) (index_by_original : bool)
  : IO ImgStoreVideo :=
  match filename with
  | VStr filename =>
      let filename :=
        if negb (contains metadata_yaml filename)
        then join filename metadata_yaml
        else filename in
      filename ← os_path_abspath filename;
      ImgStoreVideo_open (MkImgStoreVideo filename index_by_original None None)
  | _ => io_raise TypeError
  end.

Definition ImgStoreVideo_frames (v : ImgStoreVideo) : result nat :=
  match imgstore_store v with
  | Some s => Ok (store_frame_count s)
  | None => Raise AttributeError
  end.

Definition ImgStoreVideo_img_shape (v : ImgStoreVideo) (i : nat) : result nat :=
  match imgstore_img v with
  | Some a => shape_at a i
  | None => Raise AttributeError
  end.

Definition ImgStoreVideo_channels (v : ImgStoreVideo) : result nat :=
  match imgstore_img v with
  | Some a => if bool_decide (ndim a < 3)%nat then Ok 1%nat else shape_at a 2
  | None => Raise AttributeError
  end.
Definition ImgStoreVideo_width (v : ImgStoreVideo) := ImgStoreVideo_img_shape v 1.
Definition ImgStoreVideo_height (v : ImgStoreVideo) := ImgStoreVideo_img_shape v 0.

Definition ImgStoreVideo_get_frame (v : ImgStoreVideo) (frame_number : Z)
  : IO (ImgStoreVideo * option ndarray) :=
  v ← ImgStoreVideo_open v;
  match imgstore_store v with
  | Some s =>
      '(s, (img, _)) ← io_lift
        (if imgstore_index_by_original v
         then store_get_image_by_number s frame_number
         else store_get_image_by_index s frame_number);
      img ← io_lift (if bool_decide (ndim (img : ndarray) = 2%nat)
                   then newaxis_2 img else Ok img);
      mret (MkImgStoreVideo (imgstore_filename v) (imgstore_index_by_original v)
              (Some s) (imgstore_img v),
            Some img)
  | None => io_raise AttributeError
  end.

Global Instance ImgStoreVideo_backend : Backend ImgStoreVideo := {|
  frames := ImgStoreVideo_frames;
  channels := ImgStoreVideo_channels;
  width := ImgStoreVideo_width;
  height := ImgStoreVideo_height;
  get_frame := ImgStoreVideo_get_frame
|}.

(** *** Video *)

Inductive backend :=
| BHDF5 (v : HDF5Video)
| BNumpy (v : NumpyVideo)
| BMedia (v : MediaVideo)
| BImgStore (v : ImgStoreVideo).

Record Video := MkVideo { video_backend : backend }.

(** [Video.__getattr__] hands the attribute to the backend. *)
Definition getattr {R} (v : Video)
    (attribute : ∀ B, Backend B → B → R) : R :=
  match video_backend v with
  | BHDF5 b => attribute _ _ b
  | BNumpy b => attribute _ _ b
  | BMedia b => attribute _ _ b
  | BImgStore b => attribute _ _ b
  end.

Definition Video_frames (v : Video) : result nat := getattr v (@frames).
Definition Video_channels (v : Video) : result nat := getattr v (@channels).
Definition Video_width (v : Video) : result nat := getattr v (@width).
Definition Video_height (v : Video) : result nat := getattr v (@height).

Definition Video_num_frames (v : Video) : result nat := Video_frames v.

(** [Video.shape] *)
Definition Video_shape (v : Video) : result (nat * nat * nat * nat) :=
  let? f := Video_frames v in
  let? h := Video_height v in
  let? w := Video_width v in
  let? c := Video_channels v in
  Ok (f, h, w, c).

(** [Video.get_frame(idx)] *)
Definition Video_get_frame (v : Video) (idx : Z) : IO (Video * option ndarray) :=
  match video_backend v with
  | BHDF5 b => '(b, f) ← get_frame b idx; mret (MkVideo (BHDF5 b), f)
  | BNumpy b => '(b, f) ← get_frame b idx; mret (MkVideo (BNumpy b), f)
  | BMedia b => '(b, f) ← get_frame b idx; mret (MkVideo (BMedia b), f)
  | BImgStore b => '(b, f) ← get_frame b idx; mret (MkVideo (BImgStore b), f)
  end.

(** [Video.fixup_path(path)]; the last branch is the first test of the
    source, [type(path) is not str]. *)
Definition fixup_path (path : pyval) : IO pyval :=
  match path with
  | VStr p =>
      found ← exists_ p;
      if (found : bool) then mret (VStr p)
      else
        found ← exists_ (basename p);
        if (found : bool) then mret (VStr (basename p))
        else if endswith p metadata_yaml
        then
          let img_store_dir := basename (split p).1 in
          found ← exists_ img_store_dir;
          if (found : bool) then mret (VStr img_store_dir)
          else io_raise FileNotFoundError
        else io_raise FileNotFoundError
  | _ => mret path
  end.

(** [Video.from_hdf5], [Video.from_numpy] and [Video.from_media] *)
Definition from_hdf5 (dataset filename : pyval) (input_format : pystr)
    (convert_range : bool) : IO Video :=
  filename ← fixup_path filename;
  b ← HDF5Video_new filename dataset input_format convert_range;
  mret (MkVideo (BHDF5 b)).

Definition from_numpy (filename : pyval) : IO Video :=
  filename ← fixup_path filename;
  b ← NumpyVideo_new filename;
  mret (MkVideo (BNumpy b)).

Definition from_media (filename : pyval) (grayscale : option bool) (bgr : bool)
  : IO Video :=
  filename ← fixup_path filename;
  b ← MediaVideo_new filename grayscale bgr;
  mret (MkVideo (BMedia b)).

(** [Video.from_filename(filename)], called with the file name alone, so
    that every backend is built with its default arguments. *)
Definition from_filename (filename : pyval) : IO Video :=
  filename ← fixup_path filename;
  match filename with
  | VStr name =>
      if endswith2 (lower name) (str "h5") (str "hdf5")
      then b ← HDF5Video_new filename VNone channels_last true;
           mret (MkVideo (BHDF5 b))
      else if endswith name (str "npy")
      then b ← NumpyVideo_new filename; mret (MkVideo (BNumpy b))
      else if endswith2 (lower name) (str "mp4") (str "avi")
      then b ← MediaVideo_new filename None true; mret (MkVideo (BMedia b))
      else
        is_dir ← isdir name;
        if (is_dir : bool) || contains metadata_yaml name
        then b ← ImgStoreVideo_new filename true; mret (MkVideo (BImgStore b))
        else io_raise ValueError
  | _ => io_raise AttributeError
  end.

(** *** Comparing, closing and subscripting *)

(** [MediaVideo.matches(other)] *)
Definition MediaVideo_matches (v other : MediaVideo) : bool :=
  bool_decide (media_filename v = media_filename other)
  && bool_decide (media_grayscale v = media_grayscale other)
  && bool_decide (media_bgr v = media_bgr other).

(** [ImgStoreVideo.matches(other)] *)
Definition ImgStoreVideo_matches (v other : ImgStoreVideo) : bool :=
  bool_decide (imgstore_filename v = imgstore_filename other)
  && bool_decide (imgstore_index_by_original v = imgstore_index_by_original other).

(** [ImgStoreVideo.close()]: the store is let go, the first image is
    kept. *)
Definition ImgStoreVideo_close (v : ImgStoreVideo) : ImgStoreVideo :=
  match imgstore_store v with
  | Some _ =>
      MkImgStoreVideo (imgstore_filename v) (imgstore_index_by_original v)
        None (imgstore_img v)
  | None => v
  end.

(** [Video.__len__] *)
Definition Video_len (v : Video) : result nat := Video_frames v.

(** What [get_frames] is given: one index, or indices to iterate over. *)
Inductive indices :=
| Scalar (idx : Z)
| Iterable (idxs : list Z).

(** [[self.get_frame(idx) for idx in idxs]] *)
Fixpoint fetch_frames (v : Video) (idxs : list Z)
  : IO (Video * list (option ndarray)) :=
  match idxs with
  | [] => mret (v, [])
  | idx :: idxs' =>
      '(v, f) ← Video_get_frame v idx;
      '(v, fs) ← fetch_frames v idxs';
      mret (v, f :: fs)
  end.

(** [Video.get_frames(idxs)] *)
Definition Video_get_frames (v : Video) (idxs : indices) : IO (Video * stacked) :=
  let idxs :=
    match idxs with
    | Scalar idx => [idx]
    | Iterable idxs => idxs
    end in
  '(v, fs) ← fetch_frames v idxs;
  stacked ← io_lift (stack fs);
  mret (v, stacked).

(** The subscript of [Video.__getitem__]: a slice, or what [get_frames]
    takes. *)
Inductive subscript_key :=
| KeySlice (s : pyslice)
| KeyIndices (idxs : indices).

(** [Video.__getitem__(idxs)] *)
Definition Video_getitem (v : Video) (idxs : subscript_key)
  : IO (Video * stacked) :=
  match idxs with
  | KeySlice s =>
      num_frames ← io_lift (Video_num_frames v);
      '(start, stop, step) ← io_lift (slice_indices s (Z.of_nat num_frames));
      idxs ← io_lift (py_range start stop step);
      Video_get_frames v (Iterable idxs)
  | KeyIndices idxs => Video_get_frames v idxs
  end.

(** [if key in x: x[key] = Video.fixup_path(x[key])] *)
Definition repair_key (key : pystr) (x : gmap pystr pyval)
  : IO (gmap pystr pyval) :=
  match x !! key with
  | Some path => path ← fixup_path path; mret (<[key := path]> x)
  | None => mret x
  end.

(** [fixup_video(x, cl)], the hook that [Video.cattr()] registers for
    every backend class: the paths under [filename] and under [file] are
    repaired, and the class is called with the dictionary. *)
Definition fixup_video {R : Type} (x : gmap pystr pyval)
    (cl : gmap pystr pyval → IO R) : IO R :=
  x ← repair_key (str "filename") x;
  x ← repair_key (str "file") x;
  cl x.

End VideoIO.

(** ** [sleap/gui/formbuilder.py] *)

Module FormBuilder.

(** The values of a form field. *)
Inductive value :=
| FDouble (q : Q)
| FInt (z : Z)
| FBool (b : bool)
| FStr (s : pystr)
| FNone.

(** One entry of [items_to_create]; [options] may be absent. *)
Record item := Item {
  item_name : pystr;
  item_label : pystr;
  item_type : pystr;
  item_default : value;
  item_options : option pystr
}.

(** The Qt widgets the form uses, with the part of their state the form
    reads and writes.  A fresh [QSpinBox] has the range 0 to 99, a fresh
    [QDoubleSpinBox] the range 0.00 to 99.99 and two decimals, a
    [QLineEdit] holds at most 32767 characters. *)
Inductive widget :=
| QLabel (text : pystr)
| QPushButton (text : pystr)
| QDoubleSpinBox (minimum maximum : Q) (decimals : nat) (val : Q)
| QSpinBox (minimum maximum val : Z)
| QCheckBox (checked : bool)
| QComboBox (items : list pystr) (current_index : Z)
| QLineEdit (text : pystr) (enabled : bool).

Record qwidget := QWidget { objectName : pystr; kind : widget }.

Definition new_QDoubleSpinBox : widget := QDoubleSpinBox 0 (9999 # 100) 2 0.
Definition new_QSpinBox : widget := QSpinBox 0 99 0.
Definition new_QCheckBox : widget := QCheckBox false.
Definition new_QComboBox : widget := QComboBox [] (-1).
Definition new_QLineEdit : widget := QLineEdit [] true.

Definition Qbound (lo hi q : Q) : Q :=
  if Qle_bool q lo then lo else if Qle_bool hi q then hi else q.

(** Rounding to [decimals] places, halves away from zero. *)
Definition Qround (decimals : nat) (q : Q) : Q :=
  let scale := (10 ^ Z.of_nat decimals)%Z in
  let scaled := (q * inject_Z scale)%Q in
  let n := if Qle_bool 0 scaled
           then Qfloor (scaled + (1 # 2))
           else Qceiling (scaled - (1 # 2)) in
  Qred (n # Z.to_pos scale).

(** *** Python values passed to Qt

    PySide2 converts the arguments of a call to the C++ types of the
    method and raises [TypeError] for a value it cannot convert. *)

(** The ranges of a C [int] and of a C [long]. *)
Definition INT_MIN : Z := -2147483648.
Definition INT_MAX : Z := 2147483647.
Definition LONG_MIN : Z := -9223372036854775808.
Definition LONG_MAX : Z := 9223372036854775807.

(** A Python integer read as a C [long]. *)
Definition as_long (z : Z) : result Z :=
  if bool_decide (LONG_MIN ≤ z ≤ LONG_MAX) then Ok z else Raise OverflowError.

(** An argument of type [int]: a number is taken, a float without its
    fraction; a number outside of the range of [int] raises
    [OverflowError]. *)
Definition as_int (v : value) : result Z :=
  match v with
  | FInt z =>
      if bool_decide (INT_MIN ≤ z ≤ INT_MAX) then Ok z else Raise OverflowError
  | FBool b => Ok (Z.b2z b)
  | FDouble q =>
      if Qle_bool (inject_Z INT_MIN) q && Qle_bool q (inject_Z INT_MAX)
      then Ok (Np.Qtruncate q)
      else Raise OverflowError
  | _ => Raise TypeError
  end.

(** An argument of type [double]: a number is taken, an integer through a
    C [long]. *)
Definition as_double (v : value) : result Q :=
  match v with
  | FDouble q => Ok q
  | FInt z => let? z := as_long z in Ok (inject_Z z)
  | FBool b => Ok (inject_Z (Z.b2z b))
  | _ => Raise TypeError
  end.

(** An argument of type [bool]: a number is taken and read as a C [long],
    a float without its fraction (as Python up to 3.9 reads it); what is
    not zero is true. *)
Definition as_bool (v : value) : result bool :=
  let? z := match v with
            | FBool b => Ok (Z.b2z b)
            | FInt z => as_long z
            | FDouble q => as_long (Np.Qtruncate q)
            | _ => Raise TypeError
            end in
  Ok (negb (bool_decide (z = 0))).

(** An argument of type [QString]: a [str] is taken, and [None] as the
    empty string. *)
Definition as_QString (v : value) : result pystr :=
  match v with
  | FStr s => Ok s
  | FNone => Ok []
  | _ => Raise TypeError
  end.

(** [field.setValue(v)]: the value is rounded to the decimals of the box
    and kept inside its range. *)
Definition setValue (w : widget) (v : value) : result widget :=
  match w with
  | QDoubleSpinBox lo hi decimals _ =>
      let? q := as_double v in
      Ok (QDoubleSpinBox lo hi decimals (Qbound lo hi (Qround decimals q)))
  | QSpinBox lo hi _ =>
      let? z := as_int v in
      Ok (QSpinBox lo hi (Z.max lo (Z.min hi z)))
  | _ => Raise AttributeError
  end.

(** [field.setRange(lo, hi)] on a [QSpinBox]. *)
Definition setRange (w : widget) (lo hi : value) : result widget :=
  match w with
  | QSpinBox _ _ z =>
      let? lo := as_int lo in
      let? hi := as_int hi in
      let hi := Z.max lo hi in
      Ok (QSpinBox lo hi (Z.max lo (Z.min hi z)))
  | _ => Raise AttributeError
  end.

Definition setChecked (w : widget) (v : value) : result widget :=
  match w with
  | QCheckBox _ => let? b := as_bool v in Ok (QCheckBox b)
  | _ => Raise AttributeError
  end.

(** [field.addItem(opt)]: the first item of a box becomes the current
    one. *)
Definition addItem (w : widget) (opt : pystr) : result widget :=
  match w with
  | QComboBox items idx =>
      Ok (QComboBox (items ++ [opt]) (if bool_decide (items = []) then 0 else idx))
  | _ => Raise AttributeError
  end.

Definition setCurrentIndex (w : widget) (idx : nat) : result widget :=
  match w with
  | QComboBox items cur =>
      if bool_decide (idx < length items)%nat
      then Ok (QComboBox items (Z.of_nat idx))
      else Ok (QComboBox items (-1))
  | _ => Raise AttributeError
  end.

Definition setText (w : widget) (v : value) : result widget :=
  match w with
  | QLineEdit _ enabled =>
      let? s := as_QString v in
      Ok (QLineEdit (if bool_decide (Z.of_nat (length s) ≤ 32767) then s
                     else take (Z.to_nat 32767) s) enabled)
  | _ => Raise AttributeError
  end.

Definition setDisabled (w : widget) (disabled : bool) : result widget :=
  match w with
  | QLineEdit text _ => Ok (QLineEdit text (negb disabled))
  | _ => Ok w
  end.

(** [item["default"] > 99] *)
Definition default_gt_99 (v : value) : result bool :=
  match v with
  | FInt z => Ok (bool_decide (99 < z))
  | FBool b => Ok false
  | FDouble q => Ok (negb (Qle_bool q 99))
  | _ => Raise TypeError
  end.

(** The product of two Python floats: the IEEE 754 product of 64 bits.
    An infinite product is given as the power of two that follows the
    largest number of the format. *)
Definition float_mul (a b : Q) : Q :=
  match SpecFloat.SFmul 53 1024 (Np.float_of_Q 53 1024 a)
          (Np.float_of_Q 53 1024 b) with
  | SpecFloat.S754_finite s m e =>
      let magnitude := (inject_Z (Zpos m) * 2 ^ e)%Q in
      if s then (- magnitude)%Q else magnitude
  | SpecFloat.S754_infinity s =>
      if s then (- 2 ^ 1024)%Q else (2 ^ 1024)%Q
  | _ => 0%Q
  end.

(** [item["default"] * 10] *)
Definition default_times_10 (v : value) : result value :=
  match v with
  | FInt z => Ok (FInt (z * 10))
  | FBool b => Ok (FInt (Z.b2z b * 10))
  | FDouble q => Ok (FDouble (float_mul q 10))
  | FStr s => Ok (FStr (concat (replicate 10 s)))
  | FNone => Raise TypeError
  end.

(** [l.index(x)] *)
Definition list_index (l : list pystr) (x : pystr) : option nat :=
  fst <$> list_find (λ y, y = x) l.

(** A form layout: its widgets in the order of [itemAt]. *)
Definition layout := list qwidget.

(** [self.addRow(label, field)]; a label widget is made for a text that
    is not empty. *)
Definition addRow (l : layout) (label : pystr) (field : qwidget) : layout :=
  l ++ (if bool_decide (label = []) then [] else [QWidget [] (QLabel label)])
    ++ [field].

(** [item["type"].split("_")[0]] *)
Definition type_prefix (t : pystr) : pystr :=
  default [] (head (split_char "_" t)).

(** The widget made for one item, before its name is set. *)
Definition build_field (it : item) : result widget :=
  if bool_decide (item_type it = str "double")
  then setValue new_QDoubleSpinBox (item_default it)
  else if bool_decide (item_type it = str "int")
  then
    let field := new_QSpinBox in
    let? big := default_gt_99 (item_default it) in
    let? field :=
      if big
      then let? hi := default_times_10 (item_default it) in
           setRange field (FInt 0) hi
      else Ok field in
    setValue field (item_default it)
  else if bool_decide (item_type it = str "bool")
  then setChecked new_QCheckBox (item_default it)
  else if bool_decide (item_type it = str "list")
  then
    match item_options it with
    | None => Raise KeyError
    | Some options =>
        let opts := split_char "," options in
        let? field := foldl (λ acc opt, let? f := acc in addItem f opt)
                        (Ok new_QComboBox) opts in
        match item_default it with
        | FStr d =>
            match list_index opts d with
            | Some idx => setCurrentIndex field idx
            | None => Ok field
            end
        | _ => Ok field
        end
    end
  else
    let? field := setText new_QLineEdit (item_default it) in
    if bool_decide (type_prefix (item_type it) = str "file")
    then setDisabled field true
    else Ok field.

(** One turn of the loop of [build_form]. *)
Definition build_row (l : layout) (it : item) : result layout :=
  let? field := build_field it in
  let field := QWidget (item_name it) field in
  let l := addRow l (item_label it ++ str ":") field in
  if bool_decide (type_prefix (item_type it) = str "file")
  then
    let file_button := QWidget [] (QPushButton (str "Select " ++ item_label it)) in
    Ok (addRow l [] file_button)
  else Ok l.

(** [build_form(items_to_create)] on a layout. *)
Definition build_form (l : layout) (items_to_create : list item) : result layout :=
  foldl (λ acc it, let? l := acc in build_row l it) (Ok l) items_to_create.

(** [FormBuilderLayout(items_to_create)] *)
Definition FormBuilderLayout (items_to_create : list item) : result layout :=
  build_form [] items_to_create.

(** [get_widget_value(widget)]: the first of [isChecked], [value],
    [currentText] and [text] that the widget has. *)
Definition get_widget_value (w : widget) : value :=
  match w with
  | QCheckBox checked => FBool checked
  | QPushButton _ => FBool false
  | QSpinBox _ _ z => FInt z
  | QDoubleSpinBox _ _ _ q => FDouble q
  | QComboBox items idx =>
      FStr (if bool_decide (0 ≤ idx) then default [] (items !! Z.to_nat idx) else [])
  | QLineEdit text _ => FStr text
  | QLabel text => FStr text
  end.

Definition is_label_or_button (w : widget) : bool :=
  match w with
  | QLabel _ | QPushButton _ => true
  | _ => false
  end.

(** [get_form_data()]: a later widget of the same name replaces an
    earlier one. *)
Definition get_form_data (l : layout) : gmap pystr value :=
  foldl (λ data w,
           if bool_decide (length (objectName w) ≠ 0%nat)
              && negb (is_label_or_button (kind w))
           then <[objectName w := get_widget_value (kind w)]> data
           else data)
        ∅ l.

End FormBuilder.

(** ** [sleap/nn/augmentation.py] *)

Module Augmentation.
Import Np.

(** *** numpy's splitting and shuffling *)

(** [l[a:b]] for [0 <= a <= b]. *)
Definition slice {A} (l : list A) (a b : nat) : list A := take (b - a) (drop a l).

(** The pieces of [l] between consecutive offsets: the first piece starts
    at [offset], and each piece has the next of the [sizes]. *)
Fixpoint slices {A} (l : list A) (offset : nat) (sizes : list nat) : list (list A) :=
  match sizes with
  | [] => []
  | size :: sizes' =>
      slice l offset (offset + size) :: slices l (offset + size) sizes'
  end.

(** [np.array_split(ary, sections)]: [extras] pieces of [each + 1]
    elements and then pieces of [each] elements, cut at the cumulative
    sums of these sizes. *)
Definition array_split {A} (ary : list A) (sections : Z) : result (list (list A)) :=
  if bool_decide (sections ≤ 0) then Raise ValueError
  else
    let nsections := Z.to_nat sections in
    let ntotal := length ary in
    let each := (ntotal / nsections)%nat in
    let extras := (ntotal mod nsections)%nat in
    let section_sizes :=
      replicate extras (each + 1)%nat ++ replicate (nsections - extras) each in
    Ok (slices ary 0 section_sizes).

(** [np.ceil(n / d)] for integers [n] and [d], as an integer. *)
Definition ceil_div (n d : Z) : result Z :=
  if bool_decide (d = 0) then Raise ZeroDivisionError
  else Ok (- ((- n) / d)).

(** The state of numpy's random generator: the draws it will make. *)
Definition rng := list nat.

(** A draw from [0 .. max]. *)
Definition random_interval (max : nat) (g : rng) : nat * rng :=
  match g with
  | [] => (0%nat, [])
  | d :: g' => ((d mod S max)%nat, g')
  end.

(** [x[i], x[j] = x[j], x[i]] *)
Definition swap {A} (x : list A) (i j : nat) : list A :=
  match x !! i, x !! j with
  | Some xi, Some xj => <[i := xj]> (<[j := xi]> x)
  | _, _ => x
  end.

(** The loop of [np.random.shuffle]:
    [for i in reversed(range(1, n)): j = random_interval(i); swap]. *)
Fixpoint shuffle_down {A} (i : nat) (x : list A) (g : rng) : list A * rng :=
  match i with
  | O => (x, g)
  | S i' =>
      let '(j, g) := random_interval i g in
      shuffle_down i' (swap x i j) g
  end.

Definition np_random_shuffle {A} (x : list A) (g : rng) : list A * rng :=
  shuffle_down (length x - 1) x g.

(** *** imgaug *)

Definition point : Type := Q * Q.

(** A [KeypointsOnImage]: the keypoints and the shape of the image. *)
Record KeypointsOnImage := KOI {
  keypoints : list point;
  koi_shape : list nat
}.

(** What [self.aug.to_deterministic()] returns: one fixed transformation
    of images and of keypoints. *)
Record deterministic := Deterministic {
  augment_images : list ndarray → list ndarray;
  augment_keypoints : list KeypointsOnImage → list KeypointsOnImage
}.

(** imgaug moves keypoints and neither adds nor drops any. *)
Definition keeps_keypoints (aug_det : deterministic) : Prop :=
  ∀ kois, map (λ k, length (keypoints k)) (augment_keypoints aug_det kois)
          = map (λ k, length (keypoints k)) kois.

(** imgaug returns one augmented image for every image. *)
Definition keeps_images (aug_det : deterministic) : Prop :=
  ∀ images, length (augment_images aug_det images) = length images.

(** *** Augmenter *)

(** The point arrays of one frame: one array of points per instance. *)
Definition frame_points : Type := list (list point).

(** What a batch carries beside the images. *)
Inductive target :=
| TImages (y : list ndarray)
| TPoints (split_points : list frame_points)
| TGenerated (y : list ndarray).

Record Augmenter := MkAugmenter {
  X : list ndarray;
  Y : option (list ndarray);
  points : option (list frame_points);
  datagen : option (list frame_points → list ndarray);
  output_names : option (list pystr);
  batch_size : Z;
  shuffle_initially : bool;
  batches : list (list nat)
}.

Definition with_batches (a : Augmenter) (b : list (list nat)) : Augmenter :=
  MkAugmenter (X a) (Y a) (points a) (datagen a) (output_names a)
    (batch_size a) (shuffle_initially a) b.

Definition num_samples (a : Augmenter) : nat := length (X a).

Definition num_outputs (a : Augmenter) : nat :=
  match output_names a with
  | None => 1%nat
  | Some names => length names
  end.

(** [shuffle(batches_only)] *)
Definition shuffle (a : Augmenter) (batches_only : bool) (g : rng)
  : result (Augmenter * rng) :=
  if batches_only
  then
    let '(b, g) := np_random_shuffle (batches a) g in
    Ok (with_batches a b, g)
  else
    let all_idx := seq 0 (num_samples a) in
    let '(all_idx, g) := np_random_shuffle all_idx g in
    let? sections := ceil_div (Z.of_nat (num_samples a)) (batch_size a) in
    let? b := array_split all_idx sections in
    Ok (with_batches a b, g).

(** The batching and the initial shuffling of [__attrs_post_init__]; the
    set-up of the affine augmentation that follows touches no batch. *)
Definition Augmenter_new (X : list ndarray) (Y : option (list ndarray))
    (points : option (list frame_points))
    (datagen : option (list frame_points → list ndarray))
    (output_names : option (list pystr)) (batch_size : Z)
    (shuffle_initially : bool) (g : rng) : result (Augmenter * rng) :=
  let a := MkAugmenter X Y points datagen output_names batch_size
             shuffle_initially [] in
  let all_idx := seq 0 (num_samples a) in
  let? sections := ceil_div (Z.of_nat (num_samples a)) batch_size in
  let? b := array_split all_idx sections in
  let a := with_batches a b in
  if shuffle_initially then shuffle a false g else Ok (a, g).

(** [__len__] *)
Definition len (a : Augmenter) : nat := length (batches a).

(** [[l[i] for i in idx]] *)
Fixpoint take_indices {A} (l : list A) (idx : list nat) : result (list A) :=
  match idx with
  | [] => Ok []
  | i :: idx' =>
      match l !! i with
      | Some x => let? rest := take_indices l idx' in Ok (x :: rest)
      | None => Raise IndexError
      end
  end.

(** The loop that cuts the combined point array of a frame back into one
    array per instance. *)
Fixpoint split_frame (frame : list point) (offset : nat) (counts : list nat)
  : frame_points :=
  match counts with
  | [] => []
  | point_count :: counts' =>
      let inst_points := slice frame offset (offset + point_count) in
      inst_points :: split_frame frame (offset + point_count) counts'
  end.

(** The loop over [enumerate(aug_points_in_frames)]. *)
Fixpoint split_frames (i : nat) (aug_points_in_frames : list (list point))
    (points_per_instance_per_frame : list (list nat)) : result (list frame_points) :=
  match aug_points_in_frames with
  | [] => Ok []
  | frame :: frames' =>
      match points_per_instance_per_frame !! i with
      | Some counts =>
          let frame_point_arrays := split_frame frame 0 counts in
          let? rest := split_frames (S i) frames' points_per_instance_per_frame in
          Ok (frame_point_arrays :: rest)
      | None => Raise IndexError
      end
  end.

(** The loop over [enumerate(frames_in_batch)] that combines the point
    arrays of each frame into one [KeypointsOnImage]. *)
Fixpoint koi_from (i : nat) (frames : list frame_points) (Xb : list ndarray)
  : result (list KeypointsOnImage) :=
  match frames with
  | [] => Ok []
  | frame :: frames' =>
      match Xb !! i with
      | Some img =>
          let koi :=
            if bool_decide (length frame ≠ 0%nat)
            then KOI (concat frame) (shape img)
            else KOI [] (shape img) in
          let? rest := koi_from (S i) frames' Xb in
          Ok (koi :: rest)
      | None => Raise IndexError
      end
  end.

Definition koi_in_frame (frames_in_batch : list frame_points)
    (Xb : list ndarray) : result (list KeypointsOnImage) :=
  koi_from 0 frames_in_batch Xb.

(** The branch of [__getitem__] that handles [points]: from the indices of
    the batch and the augmented images to [split_points]. *)
Definition getitem_points (aug_det : deterministic)
    (all_points : list frame_points) (idx : list nat) (Xb : list ndarray)
  : result (list frame_points) :=
  let? frames_in_batch := take_indices all_points idx in
  let points_per_instance_per_frame :=
    map (λ frame : frame_points, map (λ pa, length pa) frame) frames_in_batch in
  let? kois := koi_in_frame frames_in_batch Xb in
  let aug_per_frame := augment_keypoints aug_det kois in
  let aug_points_in_frames := map keypoints aug_per_frame in
  split_frames 0 aug_points_in_frames points_per_instance_per_frame.

(** [__getitem__(batch_idx)] with the augmentation [aug_det] drawn for
    this call.  With neither [Y] nor [points] the branch that is left does
    nothing and the local name [Y] stays unbound: the comprehension over
    the output names then raises [NameError] at its first name and gives
    the empty dictionary when there is no name, and without output names
    [return (X, Y)] raises [UnboundLocalError]. *)
Definition getitem (a : Augmenter) (aug_det : deterministic) (batch_idx : Z)
  : result (list ndarray * (target + list (pystr * target))) :=
  let? idx := seq_getitem (batches a) batch_idx in
  let? Xb := take_indices (X a) idx in
  let Xb := augment_images aug_det Xb in
  let? Yb :=
    match Y a, points a with
    | Some y, _ =>
        let? yb := take_indices y idx in
        Ok (Some (TImages (augment_images aug_det yb)))
    | None, Some pts =>
        let? split_points := getitem_points aug_det pts idx Xb in
        match datagen a with
        | Some gen => Ok (Some (TGenerated (gen split_points)))
        | None => Ok (Some (TPoints split_points))
        end
    | None, None => Ok None
    end in
  match output_names a, Yb with
  | Some names, Some Yb =>
      Ok (Xb, inr (map (λ output_name, (output_name, Yb)) names))
  | Some [], None => Ok (Xb, inr [])
  | Some (_ :: _), None => Raise NameError
  | None, Some Yb => Ok (Xb, inl Yb)
  | None, None => Raise UnboundLocalError
  end.

End Augmentation.

(** ** The statements of the specification *)

Module Claims.
Import Np Ext PosixPath VideoIO.

(** *** Path repair *)

(** The names [fixup_path] tries, in the order the specification gives:
    the path as given, its base name, and for a path that ends with
    [metadata.yaml] the name of the directory that holds it. *)
Definition resolution_strategies (path : pystr) : list pystr :=
  [path; basename path]
  ++ (if endswith path metadata_yaml then [basename (split path).1] else []).

(** The first name of a list that exists, with its position. *)
Definition first_existing (w : world) (names : list pystr) : option (nat * pystr) :=
  list_find (λ name, os_path_exists w name = true) names.

(** *** Backend dispatch *)

Inductive backend_class := ClassHDF5 | ClassNumpy | ClassMedia | ClassImgStore.

(** Building the backend of a class from a file name, as
    [from_filename] does. *)
Definition construct (c : backend_class) (name : pystr) : IO Video :=
  match c with
  | ClassHDF5 =>
      b ← HDF5Video_new (VStr name) VNone channels_last true;
      mret (MkVideo (BHDF5 b))
  | ClassNumpy =>
      b ← NumpyVideo_new (VStr name); mret (MkVideo (BNumpy b))
  | ClassMedia =>
      b ← MediaVideo_new (VStr name) None true; mret (MkVideo (BMedia b))
  | ClassImgStore =>
      b ← ImgStoreVideo_new (VStr name) true; mret (MkVideo (BImgStore b))
  end.

(** The dispatch in the words of the specification: on the file name as
    given, by its extension. *)
Definition dispatch_by_extension (w : world) (name : pystr) : result backend_class :=
  if endswith2 name (str ".h5") (str ".hdf5") then Ok ClassHDF5
  else if endswith name (str ".npy") then Ok ClassNumpy
  else if endswith2 name (str ".mp4") (str ".avi") then Ok ClassMedia
  else if os_path_isdir w name || contains metadata_yaml name then Ok ClassImgStore
  else Raise ValueError.

Definition from_filename_as_specified (w : world) (name : pystr) : Prop :=
  outcome (from_filename (VStr name)) w
  = match dispatch_by_extension w name with
    | Ok c => outcome (construct c name) w
    | Raise e => Raise e
    end.

(** The tests of the dispatch on a resolved name. *)
Definition is_hdf5_name (r : pystr) : bool :=
  endswith2 (lower r) (str "h5") (str "hdf5").
Definition is_numpy_name (r : pystr) : bool := endswith r (str "npy").
Definition is_media_name (r : pystr) : bool :=
  endswith2 (lower r) (str "mp4") (str "avi").
Definition is_imgstore_name (w : world) (r : pystr) : bool :=
  os_path_isdir w r || contains metadata_yaml r.

(** [from_filename] on [name] does what building a backend of class [c]
    from [r] does. *)
Definition builds (w : world) (name : pystr) (c : backend_class) (r : pystr) : Prop :=
  outcome (from_filename (VStr name)) w = outcome (construct c r) w.

(** *** Frame shapes and pixel ranges *)

(** The contract of the frame fetch: a frame has the shape
    height by width by channels, with the numbers the backend reports. *)
Definition frame_shape_as_specified {B} `{Backend B} (b : B) (w : world)
    (idx : Z) : Prop :=
  ∀ b' f, outcome (get_frame b idx) w = Ok (b', Some f) →
          ∃ h wd c, height b = Ok h ∧ width b = Ok wd ∧ channels b = Ok c
                    ∧ shape f = [h; wd; c].

(** The frame of an HDF5 video as it is fetched and laid out, before any
    conversion of its range. *)
Definition HDF5Video_fetched_frame (v : HDF5Video) (idx : Z) : result ndarray :=
  let? frame :=
    match hdf5_dataset_h5 v with
    | Some d => getitem (ds_array d) idx
    | None => Raise TypeError
    end in
  if bool_decide (hdf5_input_format v = channels_first)
  then transpose_210 frame
  else Ok frame.

Definition all_at_most_1 (frame : ndarray) : Prop :=
  Forall (λ q, (q <= 1)%Q) (data frame).

(** [out] is [frame] multiplied by 255 and cast to [int], for a frame
    of the element type [t]: [out] has the shape of [frame], and every
    value of it is the integer part of the product of the value of
    [frame] with 255.  For a floating type the product is the IEEE 754
    product in the format of the type, and an integer part outside of 64
    bits is the least 64-bit integer; for bytes the product is taken
    modulo 256. *)
Definition scaled_to_255 (t : dtype) (frame out : ndarray) : Prop :=
  shape out = shape frame
  ∧ data out
    = map (λ q, inject_Z
                  match t with
                  | Float16 =>
                      float_astype_int
                        (SpecFloat.SFmul 11 16 (float_of_Q 11 16 q)
                           (float_of_Q 11 16 255))
                  | Float32 =>
                      float_astype_int
                        (SpecFloat.SFmul 24 128 (float_of_Q 24 128 q)
                           (float_of_Q 24 128 255))
                  | Float64 =>
                      float_astype_int
                        (SpecFloat.SFmul 53 1024 (float_of_Q 53 1024 q)
                           (float_of_Q 53 1024 255))
                  | UInt8 => (Qtruncate q * 255) mod 256
                  end)
        (data frame).

(** The conversion in the words of the specification. *)
Definition converts_as_specified (v : HDF5Video) (idx : Z) : Prop :=
  ∀ frame, HDF5Video_fetched_frame v idx = Ok frame →
           hdf5_convert_range v = true →
           all_at_most_1 frame →
           ∃ t out, HDF5Video_dtype v = Ok t
                    ∧ HDF5Video_get_frame v idx = Ok out
                    ∧ scaled_to_255 t frame out.

(** Every value of [a] is a value of [b]: [a] holds no value that was
    computed from the values of [b]. *)
Definition values_from (a b : ndarray) : Prop :=
  ∀ q, q ∈ data a → q ∈ data b.

(** *** Construction failures *)

Definition valid_input_format (fmt : pystr) : Prop :=
  fmt = channels_first ∨ fmt = channels_last.

(** No library can read a file of this name. *)
Definition cannot_be_read (w : world) (p : pystr) : Prop :=
  h5_File w p = None ∧ np_load w p = None ∧ cv2_VideoCapture w p = [].

(** The failure on a file that cannot be read, in the words of the
    specification. *)
Definition unreadable_as_specified (w : world) (p : pystr) : Prop :=
  cannot_be_read w p →
  (∀ dataset fmt convert_range, valid_input_format fmt →
     outcome (HDF5Video_new (VStr p) dataset fmt convert_range) w
     = Raise FileNotFoundError)
  ∧ (∀ grayscale bgr,
       outcome (MediaVideo_new (VStr p) grayscale bgr) w = Raise FileNotFoundError)
  ∧ outcome (NumpyVideo_new (VStr p)) w = Raise FileNotFoundError.

(** *** The name of an image store *)



(** *** Batches and keypoints *)

(** [k] is [n / d] rounded up, for a positive [d]. *)
Definition is_ceil (n d k : Z) : Prop := d * (k - 1) < n ≤ d * k.

(** The batches are [ceil(num_samples / batch_size)] in number and hold
    every sample index once. *)
Definition batching_invariant (a : Augmentation.Augmenter) : Prop :=
  is_ceil (Z.of_nat (Augmentation.num_samples a)) (Augmentation.batch_size a)
    (Z.of_nat (length (Augmentation.batches a)))
  ∧ concat (Augmentation.batches a) ≡ₚ seq 0 (Augmentation.num_samples a)
  ∧ Augmentation.len a = length (Augmentation.batches a).

(** What holds of an augmenter beside the invariant: it has samples, and
    its batch size is positive. *)
Definition sound_sizes (a : Augmentation.Augmenter) : Prop :=
  0 < Augmentation.batch_size a ∧ 0 < Z.of_nat (Augmentation.num_samples a).

(** The augmenters that exist: a constructed one, and one on which
    [shuffle] was called. *)
Inductive reachable : Augmentation.Augmenter → Prop :=
| reach_new X Y points datagen output_names batch_size shuffle_initially g a g' :
    Augmentation.Augmenter_new X Y points datagen output_names batch_size
      shuffle_initially g = Ok (a, g') →
    reachable a
| reach_shuffle a batches_only g a' g' :
    reachable a →
    Augmentation.shuffle a batches_only g = Ok (a', g') →
    reachable a'.

(** The point arrays [frame_out] cut the combined array [aug_flat] as the
    point arrays [frame_in] were laid out. *)
Definition realigned (frame_in : Augmentation.frame_points)
    (aug_flat : list Augmentation.point)
    (frame_out : Augmentation.frame_points) : Prop :=
  length frame_out = length frame_in
  ∧ map length frame_out = map length frame_in
  ∧ concat frame_out = aug_flat.

(** *** Form defaults *)

Definition supported_type (t : pystr) : Prop :=
  t ∈ [str "double"; str "int"; str "bool"; str "list"; str "file_open";
       str "file_dir"; str "string"].

(** Field descriptors with supported types and distinct names that are
    not empty. *)
Definition well_formed_items (items : list FormBuilder.item) : Prop :=
  NoDup (map FormBuilder.item_name items)
  ∧ Forall (λ it, FormBuilder.item_name it ≠ []
                  ∧ supported_type (FormBuilder.item_type it)) items.

(** Reading the form back right after it was built gives every field its
    default. *)
Definition defaults_round_trip (items : list FormBuilder.item) : Prop :=
  ∃ l, FormBuilder.FormBuilderLayout items = Ok l
       ∧ ∀ it, it ∈ items →
               FormBuilder.get_form_data l !! FormBuilder.item_name it
               = Some (FormBuilder.item_default it).

(** A default that the widget made for its field can hold: a number with
    two decimals between 0 and 99.99, an integer that is not negative and
    whose tenfold is in the range of a C [int], a truth value, one of the
    options, or a text of at most 32767 characters. *)
Definition default_fits (it : FormBuilder.item) : Prop :=
  if bool_decide (FormBuilder.item_type it = str "double")
  then ∃ q, FormBuilder.item_default it = FormBuilder.FDouble q
            ∧ FormBuilder.Qbound 0 (9999 # 100) (FormBuilder.Qround 2 q) = q
  else if bool_decide (FormBuilder.item_type it = str "int")
  then ∃ z, FormBuilder.item_default it = FormBuilder.FInt z
            ∧ 0 ≤ z ≤ 214748364
  else if bool_decide (FormBuilder.item_type it = str "bool")
  then ∃ b, FormBuilder.item_default it = FormBuilder.FBool b
  else if bool_decide (FormBuilder.item_type it = str "list")
  then ∃ d options,
         FormBuilder.item_default it = FormBuilder.FStr d
         ∧ FormBuilder.item_options it = Some options
         ∧ d ∈ split_char "," options
  else ∃ s, FormBuilder.item_default it = FormBuilder.FStr s
            ∧ Z.of_nat (length s) ≤ 32767.

End Claims.

(** ** Sample inputs *)

Module Samples.
Import Np Ext PosixPath VideoIO.

(** A machine without files, working in [/home/user]. *)
Definition empty_world : world := {|
  os_path_exists _ := false;
  os_path_isfile _ := false;
  os_path_isdir _ := false;
  os_getcwd := str "/home/user";
  h5_File _ := None;
  np_load _ := None;
  cv2_VideoCapture _ := [];
  imgstore_new_for_filename _ := None
|}.

(** A video in an array of one frame; axis 1 has two entries and axis 2
    has three. *)
Definition clip_array : ndarray := NdArray [1; 2; 3; 1]%nat (replicate 6 0%Q).

Definition clip_video : NumpyVideo :=
  MkNumpyVideo (VStr (str "Raw Video Data")) 0 1 2 3 (Some clip_array).

(** An HDF5 dataset of one frame without pixels, and the video over it. *)
Definition blank_dataset : h5dataset :=
  H5Dataset
    (H5File (str "blank.h5") [(str "/box", (NdArray [1; 0; 0; 1]%nat [], UInt8))])
    (str "/box") (NdArray [1; 0; 0; 1]%nat []) UInt8.

Definition blank_video : HDF5Video :=
  MkHDF5Video (VStr (str "blank.h5")) (VStr (str "/box")) channels_last true
    (Some (ds_file blank_dataset)) (Some blank_dataset) 3 2 1.

(** An HDF5 dataset of one frame of two pixels in the range 0 to 1. *)
Definition unit_dataset : h5dataset :=
  H5Dataset
    (H5File (str "unit.h5")
       [(str "/box", (NdArray [1; 1; 2; 1]%nat [1 # 2; 1]%Q, Float64))])
    (str "/box") (NdArray [1; 1; 2; 1]%nat [1 # 2; 1]%Q) Float64.

Definition unit_video : HDF5Video :=
  MkHDF5Video (VStr (str "unit.h5")) (VStr (str "/box")) channels_last true
    (Some (ds_file unit_dataset)) (Some unit_dataset) 3 2 1.

(** The number 0.6 as a 64-bit floating-point number holds it: the
    nearest number of the format, which is a little less than 3/5. *)
Definition double_0_6 : Q := 5404319552844595 # 9007199254740992.

(** An HDF5 dataset of 64-bit floating-point numbers: one frame of three
    pixels in the range 0 to 1. *)
Definition shade_array : ndarray :=
  NdArray [1; 1; 3; 1]%nat [double_0_6; 1 # 2; 1]%Q.

Definition shade_dataset : h5dataset :=
  H5Dataset (H5File (str "shade.h5") [(str "/box", (shade_array, Float64))])
    (str "/box") shade_array Float64.

Definition shade_video : HDF5Video :=
  MkHDF5Video (VStr (str "shade.h5")) (VStr (str "/box")) channels_last true
    (Some (ds_file shade_dataset)) (Some shade_dataset) 3 2 1.

(** A dataset of bytes: one frame of the two pixels 0 and 1. *)
Definition mask_array : ndarray := NdArray [1; 1; 2; 1]%nat [0; 1]%Q.

Definition mask_dataset : h5dataset :=
  H5Dataset (H5File (str "mask.h5") [(str "/box", (mask_array, UInt8))])
    (str "/box") mask_array UInt8.

Definition mask_video : HDF5Video :=
  MkHDF5Video (VStr (str "mask.h5")) (VStr (str "/box")) channels_last true
    (Some (ds_file mask_dataset)) (Some mask_dataset) 3 2 1.

(** A machine with the file [locked.mp4], which exists and which no
    library can read. *)
Definition locked_world : world := {|
  os_path_exists p := bool_decide (p = str "locked.mp4");
  os_path_isfile p := bool_decide (p = str "locked.mp4");
  os_path_isdir _ := false;
  os_getcwd := str "/home/user";
  h5_File _ := None;
  np_load _ := None;
  cv2_VideoCapture _ := [];
  imgstore_new_for_filename _ := None
|}.

(** A store of one grey image of two by two pixels. *)
Definition small_store : imgstore :=
  ImgStore [(0, NdArray [2; 2]%nat [0; 0; 0; 0]%Q)] 0.

(** A machine whose working directory [/data] holds the store directory
    [session1], the array file [clip.npy] and the dataset file [box.h5]. *)
Definition lab_world : world := {|
  os_path_exists p :=
    bool_decide (p ∈ [str "session1"; str "clip.npy"; str "box.h5"]);
  os_path_isfile p := bool_decide (p ∈ [str "clip.npy"; str "box.h5"]);
  os_path_isdir p := bool_decide (p = str "session1");
  os_getcwd := str "/data";
  h5_File p :=
    if bool_decide (p = str "box.h5")
    then Some (H5File (str "box.h5")
                 [(str "/box", (NdArray [1; 1; 1; 1]%nat [1 # 2]%Q, Float64))])
    else None;
  np_load p :=
    if bool_decide (p = str "clip.npy")
    then Some clip_array
    else None;
  cv2_VideoCapture _ := [];
  imgstore_new_for_filename p :=
    if bool_decide (p = str "/data/session1/metadata.yaml")
    then Some small_store
    else None
|}.


(** Five images of one pixel, to be batched in pairs. *)
Definition five_images : list ndarray :=
  replicate 5 (NdArray [1; 1; 1]%nat [0%Q]).

(** Two frames: two instances of two and one points, and no instance. *)
Definition two_frames : list Augmentation.frame_points :=
  [[[(1, 1); (2, 2)]; [(3, 3)]]; []]%Q.

(** An augmentation that moves every keypoint one pixel to the right and
    leaves the images as they are. *)
Definition shift_right : Augmentation.deterministic := {|
  Augmentation.augment_images imgs := imgs;
  Augmentation.augment_keypoints kois :=
    map (λ k, Augmentation.KOI
                (map (λ p : Augmentation.point, (p.1 + 1, p.2)%Q)
                     (Augmentation.keypoints k))
                (Augmentation.koi_shape k)) kois
|}.

(** The augmenter over the five images, batch size 2, after the initial
    shuffle with the draws 3, 1, 4, 1 and a shuffle of its batches with
    the draw 5. *)
Definition shuffled_augmenter : Augmentation.Augmenter :=
  Augmentation.MkAugmenter five_images None None None None 2 true
    [[4; 1]; [0; 2]; [3]]%nat.

(** A form of two number fields whose defaults lie outside the ranges of
    fresh spin boxes. *)
Definition rate_and_offset : list FormBuilder.item :=
  [FormBuilder.Item (str "rate") (str "Rate") (str "double")
     (FormBuilder.FDouble 150) None;
   FormBuilder.Item (str "offset") (str "Offset") (str "int")
     (FormBuilder.FInt (-1)) None].

(** A form with one field of every supported type. *)
Definition one_of_each : list FormBuilder.item :=
  [FormBuilder.Item (str "sigma") (str "Sigma") (str "double")
     (FormBuilder.FDouble (5 # 2)) None;
   FormBuilder.Item (str "epochs") (str "Epochs") (str "int")
     (FormBuilder.FInt 500) None;
   FormBuilder.Item (str "shuffle") (str "Shuffle") (str "bool")
     (FormBuilder.FBool true) None;
   FormBuilder.Item (str "arch") (str "Architecture") (str "list")
     (FormBuilder.FStr (str "unet")) (Some (str "leap,unet,hourglass"));
   FormBuilder.Item (str "labels") (str "Labels") (str "file_open")
     (FormBuilder.FStr (str "labels.json")) None;
   FormBuilder.Item (str "out") (str "Output") (str "file_dir")
     (FormBuilder.FStr (str "models")) None;
   FormBuilder.Item (str "tag") (str "Tag") (str "string")
     (FormBuilder.FStr (str "run1")) None].

(** A video over an array of two frames of one pixel. *)
Definition pair_array : ndarray := NdArray [2; 1; 1; 1]%nat [3; 7]%Q.

Definition pair_video : Video :=
  MkVideo (BNumpy (MkNumpyVideo (VStr (str "Raw Video Data")) 0 1 2 3
                     (Some pair_array))).

(** An HDF5 dataset of one frame of two pixels, one of them above 1, and
    the video over it. *)
Definition bright_dataset : h5dataset :=
  H5Dataset
    (H5File (str "bright.h5")
       [(str "/box", (NdArray [1; 1; 2; 1]%nat [1 # 2; 200]%Q, Float64))])
    (str "/box") (NdArray [1; 1; 2; 1]%nat [1 # 2; 200]%Q) Float64.

Definition bright_video : HDF5Video :=
  MkHDF5Video (VStr (str "bright.h5")) (VStr (str "/box")) channels_last true
    (Some (ds_file bright_dataset)) (Some bright_dataset) 3 2 1.

(** A media video over two decoded frames of one pixel in three
    channels, read with the channels reversed. *)
Definition colour_frames : list ndarray :=
  [NdArray [1; 1; 3]%nat [1; 2; 3]%Q; NdArray [1; 1; 3]%nat [4; 5; 6]%Q].

Definition colour_video : MediaVideo :=
  MkMediaVideo (str "clip.mp4") false true false (Capture colour_frames 0)
    (Some (NdArray [1; 1; 3]%nat [3; 2; 1]%Q)).

(** The saved attributes of a video whose file was moved into the working
    directory of [lab_world]. *)
Definition saved_video : gmap pystr pyval :=
  {[ str "filename" := VStr (str "/mnt/rig2/clip.npy") ]}.

(** Two fields of one name. *)
Definition named_twice : list FormBuilder.item :=
  [FormBuilder.Item (str "epochs") (str "Epochs") (str "int")
     (FormBuilder.FInt 3) None;
   FormBuilder.Item (str "epochs") (str "Epochs again") (str "int")
     (FormBuilder.FInt 5) None].

(** A list field whose default is none of its options, and an int field
    with a default above 99. *)
Definition unlisted_default : FormBuilder.item :=
  FormBuilder.Item (str "arch") (str "Architecture") (str "list")
    (FormBuilder.FStr (str "resnet")) (Some (str "leap,unet")).

Definition many_epochs : FormBuilder.item :=
  FormBuilder.Item (str "epochs") (str "Epochs") (str "int")
    (FormBuilder.FInt 500) None.

(** The points of five frames: two instances of two and one points, no
    instance, one instance of one point, two instances of one and two
    points, and no instance. *)
Definition five_frames : list Augmentation.frame_points :=
  [[[(1, 1); (2, 2)]; [(3, 3)]];
   [];
   [[(4, 4)]];
   [[(5, 5)]; [(6, 6); (7, 7)]];
   []]%Q.

(** The augmenter over the five images with the points of their frames,
    batch size 2, not shuffled. *)
Definition pointed_augmenter : Augmentation.Augmenter :=
  Augmentation.MkAugmenter five_images None (Some five_frames) None None 2
    false [[0; 1]; [2; 3]; [4]]%nat.

(** The augmenter over the five images with five target images, batch
    size 2, not shuffled, with one output name. *)
Definition paired_augmenter : Augmentation.Augmenter :=
  Augmentation.MkAugmenter five_images (Some five_images) None None
    (Some [str "confmaps"]) 2 false [[0; 1]; [2; 3]; [4]]%nat.

End Samples.

(** * Properties *)

(** ** The library models on small inputs *)

Module Checks.
Import Np Ext PosixPath Augmentation.

Example basename_of_file : basename (str "/data/run/clip.mp4") = str "clip.mp4".
Proof. reflexivity. Qed.

Example basename_of_directory : basename (str "/data/run/") = [].
Proof. reflexivity. Qed.

Example split_of_metadata :
  split (str "/data/session1/metadata.yaml")
  = (str "/data/session1", str "metadata.yaml").
Proof. reflexivity. Qed.

Example split_at_root : split (str "/clip.mp4") = (str "/", str "clip.mp4").
Proof. reflexivity. Qed.

Example join_relative : join (str "session1") (str "metadata.yaml")
                        = str "session1/metadata.yaml".
Proof. reflexivity. Qed.

Example join_after_slash : join (str "session1/") (str "metadata.yaml")
                           = str "session1/metadata.yaml".
Proof. reflexivity. Qed.

Example join_absolute : join (str "/data") (str "/tmp/x") = str "/tmp/x".
Proof. reflexivity. Qed.

Example normpath_dots : normpath (str "/a/./b/../c//d/") = str "/a/c/d".
Proof. reflexivity. Qed.

Example normpath_two_slashes : normpath (str "//a/../../c") = str "//c".
Proof. reflexivity. Qed.

Example normpath_above : normpath (str "a/../../c") = str "../c".
Proof. reflexivity. Qed.

Example normpath_empty : normpath [] = str ".".
Proof. reflexivity. Qed.

Example lower_mixed : lower (str "Clip.MP4") = str "clip.mp4".
Proof. reflexivity. Qed.

Example split_options : split_char "," (str "leap,unet,,x")
                        = [str "leap"; str "unet"; []; str "x"].
Proof. reflexivity. Qed.

Example getitem_last :
  Np.getitem (NdArray [2; 1; 3]%nat [1; 2; 3; 4; 5; 6]%Q) (-1)
  = Ok (NdArray [1; 3]%nat [4; 5; 6]%Q).
Proof. reflexivity. Qed.

Example getitem_out_of_range :
  Np.getitem (NdArray [2; 1; 3]%nat [1; 2; 3; 4; 5; 6]%Q) 2 = Raise IndexError.
Proof. reflexivity. Qed.

Example transpose_210_small :
  transpose_210 (NdArray [2; 1; 3]%nat [1; 2; 3; 4; 5; 6]%Q)
  = Ok (NdArray [3; 1; 2]%nat [1; 4; 2; 5; 3; 6]%Q).
Proof. reflexivity. Qed.

Example first_channel :
  ellipsis_getitem (NdArray [1; 2; 3]%nat [1; 2; 3; 4; 5; 6]%Q) 0
  = Ok (NdArray [1; 2]%nat [1; 4]%Q).
Proof. reflexivity. Qed.

Example last_channel :
  ellipsis_getitem (NdArray [1; 2; 3]%nat [1; 2; 3; 4; 5; 6]%Q) (-1)
  = Ok (NdArray [1; 2]%nat [3; 6]%Q).
Proof. reflexivity. Qed.

Example channels_reversed :
  ellipsis_reversed (NdArray [1; 2; 3]%nat [1; 2; 3; 4; 5; 6]%Q)
  = Ok (NdArray [1; 2; 3]%nat [3; 2; 1; 6; 5; 4]%Q).
Proof. reflexivity. Qed.

Example amax_of_none : amax (NdArray [0; 0; 1]%nat []) = Raise ValueError.
Proof. reflexivity. Qed.

Example truncation_towards_zero :
  map Qtruncate [255 # 2; -(255 # 2); 0; 255]%Q = [127; -127; 0; 255].
Proof. reflexivity. Qed.

(** The number of 64 bits nearest to 3/5 lies below it, and that of 32
    bits above it. *)
Example nearest_to_three_fifths :
  float_of_Q 53 1024 (3 # 5)
  = SpecFloat.S754_finite false 5404319552844595 (-53)
  ∧ float_of_Q 24 128 (3 # 5) = SpecFloat.S754_finite false 10066330 (-24)
  ∧ float_of_Q 11 16 (3 # 5) = SpecFloat.S754_finite false 1229 (-11).
Proof. by vm_compute. Qed.

Example float_of_Q_keeps_what_the_format_has :
  float_of_Q 53 1024 Samples.double_0_6
  = SpecFloat.S754_finite false 5404319552844595 (-53)
  ∧ float_of_Q 53 1024 (1 # 2)
    = SpecFloat.S754_finite false 4503599627370496 (-53)
  ∧ float_of_Q 53 1024 0 = SpecFloat.S754_zero false.
Proof. by vm_compute. Qed.

(** The largest number of 16 bits is 65504; halfway to the next power of
    two the format overflows.  Its smallest number is [2 ^ -24]: the half
    of it goes to zero and anything above the half goes up. *)
Example float_of_Q_at_the_ends :
  float_of_Q 11 16 65519 = SpecFloat.S754_finite false 2047 5
  ∧ float_of_Q 11 16 65520 = SpecFloat.S754_infinity false
  ∧ float_of_Q 11 16 (1 # 33554432) = SpecFloat.S754_zero false
  ∧ float_of_Q 11 16 (1 # 33554431) = SpecFloat.S754_finite false 1 (-24)
  ∧ float_of_Q 11 16 (3 # 33554432) = SpecFloat.S754_finite false 2 (-24).
Proof. by vm_compute. Qed.

(** Times 255 in 64 bits: the product of the number nearest to 3/5 is
    rounded to 153, although the exact product is below 153. *)
Example times_255_in_64_bits :
  map (times_255_as_int Float64)
    [Samples.double_0_6; 1 # 2; 1; 0; -(1 # 2); -(1 # 300)]%Q
  = [153; 127; 255; 0; -127; 0]
  ∧ Qtruncate (Samples.double_0_6 * 255) = 152.
Proof. by vm_compute. Qed.

Example times_255_in_32_bits :
  map (times_255_as_int Float32)
    [10066330 # 16777216; 10066329 # 16777216; 1 # 2; 1]%Q
  = [153; 152; 127; 255].
Proof. by vm_compute. Qed.

Example times_255_of_bytes :
  map (times_255_as_int UInt8) [0; 1; 2; 255]%Q = [0; 255; 254; 1].
Proof. by vm_compute. Qed.

Example times_255_out_of_range :
  times_255_as_int Float64 (- (10 ^ 30))%Q = -9223372036854775808.
Proof. by vm_compute. Qed.

Example h5_components_of_names :
  map h5_components [str "box"; str "/box"; str "//grp/./box/"; str "/"; []]
  = [[str "box"]; [str "box"]; [str "grp"; str "box"]; []; []].
Proof. by vm_compute. Qed.

Example h5_getitem_by_either_name :
  h5_getitem (ds_file Samples.unit_dataset) (str "box") = Ok Samples.unit_dataset
  ∧ h5_getitem (ds_file Samples.unit_dataset) (str "/box") = Ok Samples.unit_dataset
  ∧ h5_getitem (ds_file Samples.unit_dataset) (str "lost") = Raise KeyError
  ∧ h5_getitem (ds_file Samples.unit_dataset) [] = Raise ValueError.
Proof. by vm_compute. Qed.

(** A reader that is moved before the first frame reads the first frame,
    and one that is moved past the end reads nothing. *)
Example cap_read_after_seek :
  cap_read (cap_set_pos (Capture Samples.colour_frames 1) (-3))
  = (Capture Samples.colour_frames 1, (true, Samples.colour_frames !! 0%nat))
  ∧ cap_read (cap_set_pos (Capture Samples.colour_frames 0) 7)
    = (Capture Samples.colour_frames 2, (false, None)).
Proof. by vm_compute. Qed.

Example arguments_of_Qt :
  map FormBuilder.as_int
    [FormBuilder.FDouble (5 # 2); FormBuilder.FDouble (-(5 # 2));
     FormBuilder.FInt 2147483647; FormBuilder.FInt 2147483648;
     FormBuilder.FBool true; FormBuilder.FNone]
  = [Ok 2; Ok (-2); Ok 2147483647; Raise OverflowError; Ok 1; Raise TypeError]
  ∧ map FormBuilder.as_bool
      [FormBuilder.FInt 0; FormBuilder.FInt 2; FormBuilder.FBool true;
       FormBuilder.FStr (str "yes"); FormBuilder.FNone]
    = [Ok false; Ok true; Ok true; Raise TypeError; Raise TypeError]
  ∧ map FormBuilder.as_QString
      [FormBuilder.FStr (str "run1"); FormBuilder.FNone; FormBuilder.FInt 1]
    = [Ok (str "run1"); Ok []; Raise TypeError].
Proof. by vm_compute. Qed.

(** A float default of an int field: the range is widened to the integer
    part of the tenfold, and the box holds the integer part. *)
Example int_field_with_float_default :
  FormBuilder.build_field
    (FormBuilder.Item (str "epochs") (str "Epochs") (str "int")
       (FormBuilder.FDouble (301 # 2)) None)
  = Ok (FormBuilder.QSpinBox 0 1505 150).
Proof. by vm_compute. Qed.

(** [__getitem__] on an augmenter with neither target images nor
    points. *)
Example getitem_without_targets :
  let a names :=
    MkAugmenter Samples.five_images None None None names 2 false
      [[0; 1]; [2; 3]; [4]]%nat in
  getitem (a None) Samples.shift_right 0 = Raise UnboundLocalError
  ∧ getitem (a (Some [str "confmaps"])) Samples.shift_right 0 = Raise NameError
  ∧ getitem (a (Some [])) Samples.shift_right 0
    = Ok (take 2 Samples.five_images, inr []).
Proof. by vm_compute. Qed.

Example array_split_uneven :
  array_split (seq 0 7) 3 = Ok [[0; 1; 2]; [3; 4]; [5; 6]]%nat.
Proof. reflexivity. Qed.

Example array_split_more_sections_than_elements :
  array_split (seq 0 2) 3 = Ok [[0]; [1]; []]%nat.
Proof. reflexivity. Qed.

Example array_split_no_section : array_split (seq 0 0) 0 = Raise ValueError.
Proof. reflexivity. Qed.

Example ceil_div_values :
  (ceil_div 7 3, ceil_div 6 3, ceil_div 0 3, ceil_div 5 0)
  = (Ok 3, Ok 2, Ok 0, Raise ZeroDivisionError).
Proof. reflexivity. Qed.

Example shuffle_five :
  np_random_shuffle (seq 0 5) [3; 1; 4; 1; 5]%nat
  = ([0; 2; 4; 1; 3]%nat, [5%nat]).
Proof. reflexivity. Qed.

End Checks.


(** ** Traced computations *)

Module IOFacts.
Import Ext.

Lemma run_ret {A} (a : A) (w : world) : run (mret a) w = ([], Ok a).
Proof. reflexivity. Qed.

Lemma run_bind {A B} (m : IO A) (k : A → IO B) (w : world) :
  run (m ≫= k) w
  = match run m w with
    | (t, Ok a) => (t ++ (run (k a) w).1, (run (k a) w).2)
    | (t, Raise e) => (t, Raise e)
    end.
Proof.
  unfold mbind, IO_bind, io_bind. simpl.
  destruct (run m w) as [t [a|e]]; [|reflexivity].
  destruct (run (k a) w); reflexivity.
Qed.

Lemma outcome_bind {A B} (m : IO A) (k : A → IO B) (w : world) :
  outcome (m ≫= k) w
  = match outcome m w with
    | Ok a => outcome (k a) w
    | Raise e => Raise e
    end.
Proof.
  unfold outcome. rewrite run_bind.
  destruct (run m w) as [t [a|e]]; reflexivity.
Qed.

Lemma run_call_bind {A B} (c : call) (answer : world → A) (k : A → IO B)
    (w : world) :
  run (io_call c answer ≫= k) w
  = (c :: (run (k (answer w)) w).1, (run (k (answer w)) w).2).
Proof. rewrite run_bind. reflexivity. Qed.

Lemma outcome_call {A} (c : call) (answer : world → A) (w : world) :
  outcome (io_call c answer) w = Ok (answer w).
Proof. reflexivity. Qed.

End IOFacts.

(** ** Path repair *)

Module PathRepair.
Import Np Ext PosixPath VideoIO Claims Samples IOFacts.

(** Asking whether a name exists, on both sides of a statement about
    [fixup_path]. *)
Ltac ask_exists w name :=
  rewrite run_call_bind; cbn [app list_find];
  destruct (os_path_exists w name) eqn:?;
  [rewrite decide_True by done; try reflexivity | rewrite decide_False by done].

(** The outcome of [fixup_path] on a string. *)
Lemma fixup_path_outcome (w : world) (path : pystr) :
  outcome (fixup_path (VStr path)) w
  = match first_existing w (resolution_strategies path) with
    | Some (_, found) => Ok (VStr found)
    | None => Raise FileNotFoundError
    end.
Proof.
  unfold outcome, first_existing, resolution_strategies, fixup_path, exists_.
  generalize (basename path) (basename (split path).1). intros b d.
  ask_exists w path. ask_exists w b.
  destruct (endswith path metadata_yaml); cbn [app list_find]; [|reflexivity].
  ask_exists w d. reflexivity.
Qed.

(** C3. For a string [path], [fixup_path] asks for the path as given, then
    for its base name, then (only for a path that ends with
    [metadata.yaml]) for the name of the parent directory, stops at the
    first that exists and returns it; when none exists it raises
    [FileNotFoundError]. *)
Theorem fixup_path_resolution_order (w : world) (path : pystr) :
  run (fixup_path (VStr path)) w
  = match first_existing w (resolution_strategies path) with
    | Some (i, found) =>
        (map CallExists (take (S i) (resolution_strategies path)),
         Ok (VStr found))
    | None =>
        (map CallExists (resolution_strategies path), Raise FileNotFoundError)
    end.
Proof.
  unfold first_existing, resolution_strategies, fixup_path, exists_.
  generalize (basename path) (basename (split path).1). intros b d.
  rewrite run_call_bind. cbn [app list_find].
  destruct (os_path_exists w path) eqn:E1.
  { rewrite decide_True by done. reflexivity. }
  rewrite decide_False by done.
  rewrite run_call_bind.
  destruct (os_path_exists w b) eqn:E2.
  { rewrite decide_True by done. reflexivity. }
  rewrite decide_False by done.
  destruct (endswith path metadata_yaml); cbn [app list_find]; [|reflexivity].
  rewrite run_call_bind.
  destruct (os_path_exists w d) eqn:E3.
  { rewrite decide_True by done. reflexivity. }
  rewrite decide_False by done.
  reflexivity.
Qed.

(** C8. An input that is no string comes back unchanged: no call leaves
    the program, and nothing is raised. *)
Theorem fixup_path_not_str (w : world) (path : pyval) :
  type_is_str path = false →
  run (fixup_path path) w = ([], Ok path).
Proof. destruct path; simpl; intros H; try discriminate; reflexivity. Qed.

Lemma fixup_path_not_str_witness :
  type_is_str (VArray (NdArray [1; 2; 3; 1]%nat (replicate 6 0%Q))) = false
  ∧ run (fixup_path (VArray (NdArray [1; 2; 3; 1]%nat (replicate 6 0%Q)))) lab_world
    = ([], Ok (VArray (NdArray [1; 2; 3; 1]%nat (replicate 6 0%Q)))).
Proof.
  split; [reflexivity|].
  apply (fixup_path_not_str lab_world
           (VArray (NdArray [1; 2; 3; 1]%nat (replicate 6 0%Q)))).
  reflexivity.
Defined.

End PathRepair.

(** ** Strings *)

Module StrFacts.

Lemma endswith_suffix (s suf : pystr) :
  endswith s suf = true ↔ suf `suffix_of` s.
Proof.
  unfold endswith.
  rewrite andb_true_iff, !bool_decide_eq_true. split.
  - intros [_ Hd]. exists (take (length s - length suf) s).
    rewrite <- Hd at 2. symmetry. apply take_drop.
  - intros [k ->]. rewrite length_app. split; [lia|].
    replace (length k + length suf - length suf)%nat with (length k) by lia.
    apply drop_app_length.
Qed.

Lemma endswith_false (s suf : pystr) :
  endswith s suf = false ↔ ¬ suf `suffix_of` s.
Proof.
  rewrite <- endswith_suffix. destruct (endswith s suf); split; done.
Qed.

Lemma lower_suffix (s suf : pystr) :
  suf `suffix_of` s → lower suf `suffix_of` lower s.
Proof. intros [k ->]. exists (lower k). unfold lower. apply map_app. Qed.

(** A string cannot end with two endings of which neither ends with the
    other. *)
Lemma endswith_exclusive (s a b : pystr) :
  endswith a b = false → endswith b a = false →
  endswith s a = true → endswith s b = false.
Proof.
  rewrite !endswith_false, endswith_suffix. intros Hab Hba Ha Hb.
  destruct (suffix_weak_total a b s Ha Hb); tauto.
Qed.


End StrFacts.

(** ** Backend dispatch *)

Module Dispatch.
Import Np Ext PosixPath VideoIO Claims Samples IOFacts StrFacts.

Lemma fixup_path_raises (w : world) (path : pyval) (e : exn) :
  outcome (fixup_path path) w = Raise e → e = FileNotFoundError.
Proof.
  destruct path as [p| | | | | |]; try discriminate.
  rewrite PathRepair.fixup_path_outcome.
  destruct (first_existing w (resolution_strategies p)) as [[i found]|];
    simpl; congruence.
Qed.

Lemma fixup_path_returns_str (w : world) (name : pystr) (v : pyval) :
  outcome (fixup_path (VStr name)) w = Ok v → ∃ r, v = VStr r.
Proof.
  rewrite PathRepair.fixup_path_outcome.
  destruct (first_existing w (resolution_strategies name)) as [[i found]|];
    simpl; [|discriminate].
  intros [= <-]. by exists found.
Qed.

Lemma fixup_path_existing (w : world) (name : pystr) :
  os_path_exists w name = true →
  outcome (fixup_path (VStr name)) w = Ok (VStr name).
Proof.
  intros H. rewrite PathRepair.fixup_path_outcome.
  unfold first_existing, resolution_strategies. cbn [app list_find].
  rewrite decide_True by done. reflexivity.
Qed.

(** The outcome of [from_filename] once the name is resolved. *)
Lemma from_filename_resolved (w : world) (name r : pystr) :
  outcome (fixup_path (VStr name)) w = Ok (VStr r) →
  outcome (from_filename (VStr name)) w
  = if is_hdf5_name r then outcome (construct ClassHDF5 r) w
    else if is_numpy_name r then outcome (construct ClassNumpy r) w
    else if is_media_name r then outcome (construct ClassMedia r) w
    else if is_imgstore_name w r then outcome (construct ClassImgStore r) w
    else Raise ValueError.
Proof.
  intros Hfix. unfold from_filename. rewrite outcome_bind, Hfix.
  unfold is_hdf5_name, is_numpy_name, is_media_name, is_imgstore_name.
  destruct (endswith2 (lower r) (str "h5") (str "hdf5")); [reflexivity|].
  destruct (endswith r (str "npy")); [reflexivity|].
  destruct (endswith2 (lower r) (str "mp4") (str "avi")); [reflexivity|].
  unfold isdir. rewrite outcome_bind, outcome_call.
  destruct (os_path_isdir w r || contains metadata_yaml r); reflexivity.
Qed.

(** C4, as the specification states it, fails: a name with none of the
    extensions that names nothing raises [FileNotFoundError], where the
    specification has [ValueError]. *)
Lemma from_filename_counterexample :
  ¬ from_filename_as_specified empty_world (str "notes.txt").
Proof. unfold from_filename_as_specified. vm_compute. discriminate. Qed.

(** C4, amended. [from_filename] resolves the name with [fixup_path]
    first and raises [FileNotFoundError] when that fails.  On the resolved
    name [r] the first test that holds decides: [r] in lower case ends
    with [h5] or [hdf5], an HDF5Video; [r] ends with [npy], a NumpyVideo;
    [r] in lower case ends with [mp4] or [avi], a MediaVideo; [r] is a
    directory or contains [metadata.yaml], an ImgStoreVideo; and when no
    test holds, [ValueError] is raised. *)
Theorem from_filename_dispatch (w : world) (name : pystr) :
  (∀ e, outcome (fixup_path (VStr name)) w = Raise e →
        e = FileNotFoundError
        ∧ outcome (from_filename (VStr name)) w = Raise FileNotFoundError)
  ∧ (∀ r, outcome (fixup_path (VStr name)) w = Ok (VStr r) →
       (is_hdf5_name r = true → builds w name ClassHDF5 r)
       ∧ (is_hdf5_name r = false → is_numpy_name r = true →
          builds w name ClassNumpy r)
       ∧ (is_hdf5_name r = false → is_numpy_name r = false →
          is_media_name r = true → builds w name ClassMedia r)
       ∧ (is_hdf5_name r = false → is_numpy_name r = false →
          is_media_name r = false → is_imgstore_name w r = true →
          builds w name ClassImgStore r)
       ∧ (is_hdf5_name r = false → is_numpy_name r = false →
          is_media_name r = false → is_imgstore_name w r = false →
          outcome (from_filename (VStr name)) w = Raise ValueError)).
Proof.
  split.
  - intros e He. pose proof (fixup_path_raises _ _ _ He) as ->.
    split; [reflexivity|].
    unfold from_filename. rewrite outcome_bind, He. reflexivity.
  - intros r Hr. unfold builds. rewrite (from_filename_resolved _ _ _ Hr).
    repeat split; intros; repeat (match goal with H : _ = _ |- _ => rewrite H end);
      reflexivity.
Qed.

Lemma from_filename_dispatch_witness :
  (is_hdf5_name (str "clip.npy") = false
   ∧ is_numpy_name (str "clip.npy") = true)
  ∧ builds lab_world (str "/mnt/rig2/clip.npy") ClassNumpy (str "clip.npy").
Proof.
  split; [split; reflexivity|].
  destruct (from_filename_dispatch lab_world (str "/mnt/rig2/clip.npy"))
    as [_ H].
  destruct (H (str "clip.npy")) as (_ & Hnumpy & _).
  - vm_compute. reflexivity.
  - apply Hnumpy; reflexivity.
Defined.

(** A name that exists as it is given and has one of the five dotted
    extensions gets the backend the specification names. *)
Lemma dotted_hdf5 (r : pystr) :
  endswith2 r (str ".h5") (str ".hdf5") = true → is_hdf5_name r = true.
Proof.
  unfold is_hdf5_name, endswith2. rewrite !orb_true_iff, !endswith_suffix.
  intros [H|H]; [left|right];
    apply (lower_suffix r) in H; (eapply suffix_cons_l; exact H).
Qed.

Lemma dotted_npy (r : pystr) :
  endswith r (str ".npy") = true →
  is_hdf5_name r = false ∧ is_numpy_name r = true.
Proof.
  intros H. split.
  - unfold is_hdf5_name, endswith2. apply orb_false_iff.
    apply endswith_suffix, lower_suffix, endswith_suffix in H.
    split; (eapply endswith_exclusive; [| |exact H]; reflexivity).
  - unfold is_numpy_name. apply endswith_suffix.
    apply endswith_suffix in H. eapply suffix_cons_l. exact H.
Qed.

Lemma dotted_media (r : pystr) :
  endswith2 r (str ".mp4") (str ".avi") = true →
  is_hdf5_name r = false ∧ is_numpy_name r = false ∧ is_media_name r = true.
Proof.
  unfold endswith2. rewrite orb_true_iff. intros H. split; [|split].
  - unfold is_hdf5_name, endswith2. apply orb_false_iff.
    destruct H as [H|H];
      apply endswith_suffix, lower_suffix, endswith_suffix in H;
      split; (eapply endswith_exclusive; [| |exact H]; reflexivity).
  - unfold is_numpy_name.
    destruct H as [H|H]; (eapply endswith_exclusive; [| |exact H]; reflexivity).
  - unfold is_media_name, endswith2. rewrite orb_true_iff, !endswith_suffix.
    destruct H as [H|H]; [left|right];
      apply endswith_suffix, lower_suffix in H; (eapply suffix_cons_l; exact H).
Qed.

Lemma from_filename_existing_extension (w : world) (name : pystr) :
  os_path_exists w name = true →
  (endswith2 name (str ".h5") (str ".hdf5") = true → builds w name ClassHDF5 name)
  ∧ (endswith name (str ".npy") = true → builds w name ClassNumpy name)
  ∧ (endswith2 name (str ".mp4") (str ".avi") = true → builds w name ClassMedia name).
Proof.
  intros Hex. pose proof (fixup_path_existing _ _ Hex) as Hfix.
  unfold builds. rewrite (from_filename_resolved _ _ _ Hfix).
  split; [|split]; intros H.
  - by rewrite (dotted_hdf5 _ H).
  - destruct (dotted_npy _ H) as [-> ->]. reflexivity.
  - destruct (dotted_media _ H) as (-> & -> & ->). reflexivity.
Qed.

End Dispatch.

(** ** Construction failures *)

Module Construction.
Import Np Ext PosixPath VideoIO Claims Samples IOFacts.

Lemma run_lift_bind {A B} (r : result A) (k : A → IO B) (w : world) :
  run (io_lift r ≫= k) w
  = match r with
    | Ok a => run (k a) w
    | Raise e => ([], Raise e)
    end.
Proof.
  rewrite run_bind. destruct r as [a|e]; simpl; [|reflexivity].
  by destruct (run (k a) w).
Qed.

Lemma HDF5Video_check_valid (fmt : pystr) :
  valid_input_format fmt →
  HDF5Video_check fmt
  = Ok (if bool_decide (fmt = channels_first) then (1, 2, 3)%nat else (3, 2, 1)%nat).
Proof. intros [-> | ->]; reflexivity. Qed.

Lemma HDF5Video_check_invalid (fmt : pystr) :
  ¬ valid_input_format fmt → HDF5Video_check fmt = Raise ValueError.
Proof.
  intros H. unfold HDF5Video_check.
  rewrite bool_decide_eq_false_2; [reflexivity|].
  rewrite !elem_of_cons, elem_of_nil. unfold valid_input_format in H. tauto.
Qed.

(** C5, as the specification states it, fails for MediaVideo: a file that
    exists and cannot be read passes the test of [os.path.isfile], the
    reader returns no frame, and reversing the channels of [None] raises
    [TypeError]. *)
Lemma unreadable_counterexample :
  ¬ unreadable_as_specified locked_world (str "locked.mp4").
Proof.
  intros H. destruct H as (_ & Hmedia & _); [by repeat split|].
  specialize (Hmedia None true). vm_compute in Hmedia. discriminate Hmedia.
Qed.

Example locked_video_raises_TypeError :
  run (MediaVideo_new (VStr (str "locked.mp4")) None true) locked_world
  = ([CallIsfile (str "locked.mp4"); CallVideoCapture (str "locked.mp4")],
     Raise TypeError).
Proof. reflexivity. Qed.


(** C5, amended.  Construction on invalid input fails at once and is not
    tried again.  HDF5Video with a valid [input_format] and NumpyVideo
    raise [FileNotFoundError] when the one attempt to open the file of a
    string name fails; MediaVideo raises it when the string names no
    regular file; HDF5Video with an [input_format] other than
    [channels_first] and [channels_last] raises [ValueError] before it
    reaches for any file. *)
Theorem construction_fails_immediately (w : world) (p : pystr) :
  (∀ dataset fmt convert_range,
     valid_input_format fmt → h5_File w p = None →
     run (HDF5Video_new (VStr p) dataset fmt convert_range) w
     = ([CallH5File p], Raise FileNotFoundError))
  ∧ (∀ grayscale bgr,
       os_path_isfile w p = false →
       run (MediaVideo_new (VStr p) grayscale bgr) w
       = ([CallIsfile p], Raise FileNotFoundError))
  ∧ (np_load w p = None →
     run (NumpyVideo_new (VStr p)) w = ([CallNpLoad p], Raise FileNotFoundError))
  ∧ (∀ filename dataset fmt convert_range,
       ¬ valid_input_format fmt →
       run (HDF5Video_new filename dataset fmt convert_range) w
       = ([], Raise ValueError)).
Proof.
  split; [|split; [|split]].
  - intros dataset fmt cr Hfmt Hh5. unfold HDF5Video_new.
    rewrite run_lift_bind, (HDF5Video_check_valid _ Hfmt).
    destruct (bool_decide (fmt = channels_first));
      rewrite run_bind, run_call_bind, Hh5; reflexivity.
  - intros grayscale bgr Hfile. unfold MediaVideo_new, isfile.
    rewrite run_call_bind, Hfile. reflexivity.
  - intros Hnp. unfold NumpyVideo_new.
    rewrite run_bind, run_call_bind, Hnp. reflexivity.
  - intros filename dataset fmt cr Hfmt. unfold HDF5Video_new.
    rewrite run_lift_bind, (HDF5Video_check_invalid _ Hfmt). reflexivity.
Qed.

Lemma construction_fails_immediately_witness :
  (valid_input_format channels_first
   ∧ h5_File lab_world (str "lost.h5") = None
   ∧ os_path_isfile lab_world (str "lost.h5") = false
   ∧ np_load lab_world (str "lost.h5") = None
   ∧ ¬ valid_input_format (str "channels_middle"))
  ∧ run (HDF5Video_new (VStr (str "lost.h5")) (VStr (str "/box"))
           channels_first true) lab_world
    = ([CallH5File (str "lost.h5")], Raise FileNotFoundError)
  ∧ run (MediaVideo_new (VStr (str "lost.h5")) None true) lab_world
    = ([CallIsfile (str "lost.h5")], Raise FileNotFoundError)
  ∧ run (NumpyVideo_new (VStr (str "lost.h5"))) lab_world
    = ([CallNpLoad (str "lost.h5")], Raise FileNotFoundError)
  ∧ run (HDF5Video_new (VStr (str "box.h5")) (VStr (str "/box"))
           (str "channels_middle") true) lab_world
    = ([], Raise ValueError).
Proof.
  assert (Hbad : ¬ valid_input_format (str "channels_middle"))
    by (intros [H|H]; discriminate H).
  split; [repeat split; [left; reflexivity | exact Hbad]|].
  destruct (construction_fails_immediately lab_world (str "lost.h5"))
    as (Hhdf5 & Hmedia & Hnumpy & Hfmt).
  split; [apply Hhdf5; [left|]; reflexivity|].
  split; [apply Hmedia; reflexivity|].
  split; [apply Hnumpy; reflexivity|].
  apply Hfmt. exact Hbad.
Defined.

End Construction.

(** ** Lists *)

Module ListFacts.

Lemma elem_of_concat {A} (x : A) (ls : list (list A)) :
  x ∈ concat ls ↔ ∃ l, l ∈ ls ∧ x ∈ l.
Proof.
  induction ls as [|l ls IH]; simpl.
  - split; [intros H; by apply elem_of_nil in H|].
    intros (l & H & _). by apply elem_of_nil in H.
  - rewrite elem_of_app, IH. split.
    + intros [H | (l' & H1 & H2)].
      * exists l. split; [apply list_elem_of_here | done].
      * exists l'. split; [by apply list_elem_of_further | done].
    + intros (l' & H1 & H2). apply elem_of_cons in H1 as [-> | H1]; [by left|].
      right. by exists l'.
Qed.

End ListFacts.

(** ** Arrays *)

Module NpFacts.
Import Np Claims ListFacts.

Lemma Qmax2_either (a b : Q) : Qmax2 a b = a ∨ Qmax2 a b = b.
Proof. unfold Qmax2. destruct (Qle_bool a b); auto. Qed.

Lemma foldl_Qmax2_elem (l : list Q) (x : Q) : foldl Qmax2 x l ∈ x :: l.
Proof.
  revert x. induction l as [|y l IH]; intros x; simpl.
  - apply list_elem_of_here.
  - specialize (IH (Qmax2 x y)). apply elem_of_cons in IH as [IH|IH].
    + rewrite IH. destruct (Qmax2_either x y) as [-> | ->].
      * apply list_elem_of_here.
      * apply list_elem_of_further, list_elem_of_here.
    + do 2 apply list_elem_of_further. exact IH.
Qed.

(** The largest value of a frame with values, all at most 1, is at most
    1. *)
Lemma amax_at_most_1 (frame : ndarray) :
  data frame ≠ [] → all_at_most_1 frame →
  ∃ m, amax frame = Ok m ∧ Qle_bool m 1 = true.
Proof.
  unfold amax, all_at_most_1. destruct (data frame) as [|x l]; [done|].
  intros _ Hall. eexists. split; [reflexivity|].
  apply Qle_bool_iff. rewrite Forall_forall in Hall. apply Hall.
  apply foldl_Qmax2_elem.
Qed.

Lemma chunks_fuel_values (fuel c : nat) (l row : list Q) (x : Q) :
  row ∈ chunks_fuel fuel c l → x ∈ row → x ∈ l.
Proof.
  revert l. induction fuel as [|fuel IH]; intros l; simpl.
  - intros H. by apply elem_of_nil in H.
  - destruct l as [|y l]; [intros H; by apply elem_of_nil in H|].
    intros H Hx. apply elem_of_cons in H as [-> | H].
    + by apply (subseteq_take c (y :: l)).
    + apply (subseteq_drop c (y :: l)). by apply IH.
Qed.

Lemma chunks_values (c : nat) (l row : list Q) (x : Q) :
  row ∈ chunks c l → x ∈ row → x ∈ l.
Proof. apply chunks_fuel_values. Qed.

Lemma getitem_values (a f : ndarray) (idx : Z) :
  getitem a idx = Ok f → values_from f a.
Proof.
  unfold getitem, values_from. destruct (shape a) as [|n rest]; [done|].
  case_bool_decide; [|done]. intros [= <-] q Hq. simpl in Hq.
  eapply subseteq_drop, subseteq_take. exact Hq.
Qed.

Lemma getitem_shape (a f : ndarray) (idx : Z) (n : nat) (rest : list nat) :
  shape a = n :: rest → getitem a idx = Ok f → shape f = rest.
Proof.
  unfold getitem. intros ->. case_bool_decide; [|done]. by intros [= <-].
Qed.

Lemma ellipsis_getitem_values (a b : ndarray) (k : Z) :
  ellipsis_getitem a k = Ok b → values_from b a.
Proof.
  unfold ellipsis_getitem, values_from. destruct (last (shape a)) as [c|]; [|done].
  case_bool_decide; [|done]. intros [= <-] q Hq. simpl in Hq.
  apply list_elem_of_omap in Hq as (row & Hrow & Hq).
  eapply chunks_values; [exact Hrow|].
  eapply list_elem_of_lookup_2. exact Hq.
Qed.

Lemma ellipsis_reversed_values (a b : ndarray) :
  ellipsis_reversed a = Ok b → values_from b a.
Proof.
  unfold ellipsis_reversed, values_from. destruct (last (shape a)) as [c|]; [|done].
  intros [= <-] q Hq. simpl in Hq.
  apply elem_of_concat in Hq as (row & Hrow & Hq).
  apply list_elem_of_fmap in Hrow as (row' & -> & Hrow).
  eapply chunks_values; [exact Hrow|]. by apply elem_of_reverse.
Qed.

Lemma newaxis_2_data (a b : ndarray) : newaxis_2 a = Ok b → data b = data a.
Proof. unfold newaxis_2. case_bool_decide; [|done]. by intros [= <-]. Qed.

Lemma ellipsis_getitem_shape (a b : ndarray) (k : Z) :
  ellipsis_getitem a k = Ok b →
  shape b = take (length (shape a) - 1) (shape a).
Proof.
  unfold ellipsis_getitem. destruct (last (shape a)); [|done].
  case_bool_decide; [|done]. by intros [= <-].
Qed.

Lemma ellipsis_reversed_shape (a b : ndarray) :
  ellipsis_reversed a = Ok b → shape b = shape a.
Proof.
  unfold ellipsis_reversed. destruct (last (shape a)); [|done]. by intros [= <-].
Qed.

Lemma newaxis_2_shape (a b : ndarray) (h wd : nat) :
  shape a = [h; wd] → newaxis_2 a = Ok b → shape b = [h; wd; 1%nat].
Proof.
  unfold newaxis_2. intros Hs. case_bool_decide; [|done].
  intros [= <-]. simpl. by rewrite Hs.
Qed.

End NpFacts.

(** ** Frame shapes and pixel ranges *)

Module Frames.
Import Np Ext PosixPath VideoIO Claims Samples IOFacts NpFacts.

(** The sample videos are what the constructors build. *)
Example clip_video_constructed :
  run (NumpyVideo_new (VArray clip_array)) empty_world = ([], Ok clip_video).
Proof. reflexivity. Qed.

Example blank_video_constructed :
  run (HDF5Video_new (VH5File (ds_file blank_dataset)) (VH5Dataset blank_dataset)
         channels_last true) empty_world
  = ([], Ok blank_video).
Proof. reflexivity. Qed.

Example unit_video_constructed :
  run (HDF5Video_new (VH5File (ds_file unit_dataset)) (VH5Dataset unit_dataset)
         channels_last true) empty_world
  = ([], Ok unit_video).
Proof. reflexivity. Qed.

Example shade_video_constructed :
  run (HDF5Video_new (VH5File (ds_file shade_dataset)) (VStr (str "/box"))
         channels_last true) empty_world
  = ([], Ok shade_video).
Proof. reflexivity. Qed.

Example mask_video_constructed :
  run (HDF5Video_new (VH5File (ds_file mask_dataset)) (VStr (str "/box"))
         channels_last true) empty_world
  = ([], Ok mask_video).
Proof. reflexivity. Qed.

(** A frame of bytes 0 and 1 becomes a frame of 0 and 255. *)
Example mask_video_converted :
  HDF5Video_get_frame mask_video 0 = Ok (NdArray [1; 2; 1]%nat [0; 255]%Q).
Proof. reflexivity. Qed.

(** *** Shapes *)

Lemma HDF5Video_get_frame_fetched (v : HDF5Video) (idx : Z) (f : ndarray) :
  HDF5Video_get_frame v idx = Ok f →
  ∃ frame, HDF5Video_fetched_frame v idx = Ok frame
           ∧ (f = frame ∨ ∃ t, f = times_255_astype_int t frame).
Proof.
  unfold HDF5Video_get_frame, HDF5Video_fetched_frame. intros H.
  destruct (match hdf5_dataset_h5 v with
            | Some d => getitem (ds_array d) idx
            | None => Raise TypeError
            end) as [raw|]; simpl in *; [|discriminate].
  destruct (if bool_decide (hdf5_input_format v = channels_first)
            then transpose_210 raw else Ok raw) as [frame|];
    simpl in *; [|discriminate].
  exists frame. split; [reflexivity|].
  destruct (hdf5_convert_range v); simpl in H.
  - destruct (amax frame) as [m|]; simpl in H; [|discriminate].
    destruct (Qle_bool m 1); [|injection H as <-; auto].
    destruct (HDF5Video_dtype v) as [t|]; simpl in H; [|discriminate].
    injection H as <-. eauto.
  - injection H as <-. auto.
Qed.

(** The axes an HDF5 video holds after construction. *)
Lemma HDF5Video_new_axes (w : world) (filename dataset : pyval) (fmt : pystr)
    (convert_range : bool) (v : HDF5Video) :
  outcome (HDF5Video_new filename dataset fmt convert_range) w = Ok v →
  hdf5_input_format v = fmt
  ∧ ((fmt = channels_first ∧ hdf5_channel_idx v = 1 ∧ hdf5_width_idx v = 2
      ∧ hdf5_height_idx v = 3)
     ∨ (fmt ≠ channels_first ∧ hdf5_channel_idx v = 3 ∧ hdf5_width_idx v = 2
        ∧ hdf5_height_idx v = 1))%nat.
Proof.
  unfold HDF5Video_new. rewrite outcome_bind.
  change (outcome (io_lift (HDF5Video_check fmt)) w) with (HDF5Video_check fmt).
  unfold HDF5Video_check.
  destruct (negb (bool_decide (fmt ∈ [channels_first; channels_last])));
    [discriminate|].
  case_bool_decide as Hfmt;
    (rewrite outcome_bind;
     match goal with |- context [outcome ?m w] => destruct (outcome m w) as [[file_h5 fn]|] end;
     [|discriminate];
     rewrite outcome_bind;
     match goal with |- context [outcome ?m w] => destruct (outcome m w) as [[[dataset_h5 fh] dn]|] end;
     [|discriminate]; intros [= <-]; simpl; split; [reflexivity|]; auto).
Qed.

(** An HDF5 video over a four-dimensional dataset keeps the contract, in
    both layouts. *)
Lemma HDF5Video_frame_shape (w w' : world) (filename dataset : pyval) (fmt : pystr)
    (convert_range : bool) (v : HDF5Video) (idx : Z) :
  outcome (HDF5Video_new filename dataset fmt convert_range) w = Ok v →
  (∀ d, hdf5_dataset_h5 v = Some d → ndim (ds_array d) = 4%nat) →
  frame_shape_as_specified v w' idx.
Proof.
  intros Hnew Hdim b' f Hget.
  apply HDF5Video_new_axes in Hnew as [Hfmt Haxes].
  change (outcome (get_frame v idx) w')
    with (rmap (λ f, (v, Some f)) (HDF5Video_get_frame v idx)) in Hget.
  destruct (HDF5Video_get_frame v idx) as [f'|] eqn:Hf; [|discriminate].
  injection Hget as <- <-.
  apply HDF5Video_get_frame_fetched in Hf as (frame & Hfetch & Hconv).
  assert (Hshape : shape f' = shape frame)
    by (destruct Hconv as [-> | [t ->]]; reflexivity).
  rewrite Hshape. clear Hshape Hconv.
  unfold HDF5Video_fetched_frame in Hfetch.
  simpl. unfold HDF5Video_height, HDF5Video_width, HDF5Video_channels,
    HDF5Video_dataset_shape.
  destruct (hdf5_dataset_h5 v) as [d|]; [|discriminate].
  specialize (Hdim d eq_refl). unfold ndim in Hdim.
  destruct (getitem (ds_array d) idx) as [raw|] eqn:Hraw; [|discriminate].
  simpl in Hfetch.
  destruct (shape (ds_array d)) as [|n [|d1 [|d2 [|d3 [|]]]]] eqn:Hs;
    try discriminate Hdim.
  pose proof (getitem_shape _ _ _ _ _ Hs Hraw) as Hrs.
  unfold shape_at. rewrite Hs.
  destruct Haxes as [(Hf & -> & -> & ->) | (Hf & -> & -> & ->)].
  - rewrite Hfmt, bool_decide_eq_true_2 in Hfetch by done.
    unfold transpose_210 in Hfetch. rewrite Hrs in Hfetch.
    injection Hfetch as <-. simpl. eauto 10.
  - rewrite Hfmt, bool_decide_eq_false_2 in Hfetch by done.
    injection Hfetch as <-. rewrite Hrs. simpl. eauto 10.
Qed.

(** A numpy video returns its frames as width by height by channels. *)
Lemma NumpyVideo_frame_shape (w : world) (filename : pyval) (v : NumpyVideo)
    (idx : Z) (f : ndarray) :
  outcome (NumpyVideo_new filename) w = Ok v →
  (∀ a, numpy_data v = Some a → ndim a = 4%nat) →
  NumpyVideo_get_frame v idx = Ok f →
  ∃ h wd c, height v = Ok h ∧ width v = Ok wd ∧ channels v = Ok c
            ∧ shape f = [wd; h; c].
Proof.
  unfold NumpyVideo_new. rewrite outcome_bind.
  match goal with |- context [outcome ?m w] => destruct (outcome m w) as [[a fn]|] end;
    [|discriminate].
  intros [= <-] Hdim. simpl in *.
  unfold NumpyVideo_get_frame, NumpyVideo_height, NumpyVideo_width,
    NumpyVideo_channels, NumpyVideo_data_shape. simpl.
  destruct a as [a|]; [|discriminate]. specialize (Hdim a eq_refl).
  unfold ndim in Hdim. intros Hget.
  destruct (shape a) as [|n [|d1 [|d2 [|d3 [|]]]]] eqn:Hs; try discriminate Hdim.
  rewrite (getitem_shape _ _ _ _ _ Hs Hget).
  unfold shape_at. rewrite Hs. simpl. eauto 10.
Qed.

(** C1, at the input where it fails.  The numpy video over an array of
    shape (1, 2, 3, 1) reports width 2 and height 3, and [Video.shape] is
    (1, 3, 2, 1); frame 0 comes back with the shape (2, 3, 1), which is
    width by height by channels and not height by width by channels. *)
Theorem NumpyVideo_frame_shape_transposed :
  outcome (NumpyVideo_new (VArray clip_array)) empty_world = Ok clip_video
  ∧ Video_shape (MkVideo (BNumpy clip_video)) = Ok (1, 3, 2, 1)%nat
  ∧ width clip_video = Ok 2%nat
  ∧ height clip_video = Ok 3%nat
  ∧ channels clip_video = Ok 1%nat
  ∧ outcome (get_frame clip_video 0) empty_world
    = Ok (clip_video, Some (NdArray [2; 3; 1]%nat (replicate 6 0%Q)))
  ∧ ¬ frame_shape_as_specified clip_video empty_world 0.
Proof.
  repeat split.
  intros H.
  destruct (H clip_video (NdArray [2; 3; 1]%nat (replicate 6 0%Q)) eq_refl)
    as (h & wd & c & Hh & Hw & Hc & Hs).
  injection Hh as <-. injection Hw as <-. discriminate Hs.
Qed.

(** *** Pixel ranges *)

(** C2, as the specification states it, fails on a frame without pixels:
    all of its values are at most 1, and [np.max] raises [ValueError]. *)
Lemma range_conversion_counterexample : ¬ converts_as_specified blank_video 0.
Proof.
  intros H.
  destruct (H (NdArray [0; 0; 1]%nat []) eq_refl eq_refl (Forall_nil_2 _))
    as (t & out & _ & Hout & _).
  discriminate Hout.
Qed.

(** What [get_frame] reads: the reader is moved to the index when it does
    not stand there, and reads the decoded frame of that index; a
    negative index reads the first frame. *)
Lemma seek_read (r : capture) (idx : Z) :
  ∃ r', cap_frames r' = cap_frames r
        ∧ cap_read (if bool_decide (cap_pos r ≠ idx)
                    then cap_set_pos r idx else r)
          = (r', match cap_frames r !! Z.to_nat idx with
                 | Some f => (true, Some f)
                 | None => (false, None)
                 end).
Proof.
  set (reader := if bool_decide (cap_pos r ≠ idx) then cap_set_pos r idx else r).
  assert (Hframes : cap_frames reader = cap_frames r).
  { unfold reader. by case_bool_decide. }
  assert (Hat : cap_frames reader !! Z.to_nat (cap_pos reader)
                = cap_frames r !! Z.to_nat idx).
  { unfold reader. case_bool_decide as Hne.
    - unfold cap_set_pos. cbn [cap_frames cap_pos].
      destruct (decide (idx ≤ Z.of_nat (length (cap_frames r)))) as [Hle | Hgt].
      + f_equal. lia.
      + rewrite !lookup_ge_None_2 by lia. reflexivity.
    - destruct (decide (cap_pos r = idx)) as [-> | Hpos]; [done|].
      by destruct Hne. }
  unfold cap_read. rewrite Hat.
  destruct (cap_frames r !! Z.to_nat idx); eexists; (split; [|reflexivity]);
    exact Hframes.
Qed.

(** What a fetch of a media video that returns a frame did: it read the
    decoded frame at the index, took its first channel when asked for
    grey, and reversed its channels when [bgr] is set. *)
Lemma MediaVideo_get_frame_inv (v v' : MediaVideo) (idx : Z)
    (grayscale : option bool) (f : ndarray) :
  MediaVideo_get_frame v idx grayscale = Ok (v', Some f) →
  ∃ decoded mid,
    cap_frames (media_reader v) !! Z.to_nat idx = Some decoded
    ∧ (if default (media_grayscale v) grayscale
       then ∃ c0, ellipsis_getitem decoded 0 = Ok c0 ∧ mid = ellipsis_newaxis c0
       else mid = decoded)
    ∧ (if media_bgr v then ellipsis_reversed mid = Ok f else f = mid)
    ∧ cap_frames (media_reader v') = cap_frames (media_reader v)
    ∧ media_grayscale v' = media_grayscale v
    ∧ media_bgr v' = media_bgr v
    ∧ media_test_frame v' = media_test_frame v.
Proof.
  unfold MediaVideo_get_frame.
  destruct (seek_read (media_reader v) idx) as (r' & Hframes & ->).
  assert (Hnone : ∀ r (g b : bool),
    (let? frame := if g
                   then subscript None
                          (λ a, rmap ellipsis_newaxis (ellipsis_getitem a 0))
                   else Ok None in
     let? frame := if b then subscript frame ellipsis_reversed else Ok frame in
     Ok (MkMediaVideo (media_filename v) (media_grayscale v) (media_bgr v)
           (media_detect_grayscale v) r (media_test_frame v), frame))
    ≠ Ok (v', Some f)).
  { intros r [] []; simpl; congruence. }
  destruct (cap_frames (media_reader v) !! Z.to_nat idx) as [decoded|];
    [|intros H; by apply Hnone in H].
  intros H.
  destruct (default (media_grayscale v) grayscale) eqn:Hgray; simpl in H.
  - destruct (ellipsis_getitem decoded 0) as [c0|] eqn:Hc0; simpl in H;
      [|discriminate].
    exists decoded, (ellipsis_newaxis c0). split; [reflexivity|].
    split; [by exists c0|].
    destruct (media_bgr v); simpl in H.
    + destruct (ellipsis_reversed (ellipsis_newaxis c0)) as [r|] eqn:Hr;
        simpl in H; [|discriminate].
      by injection H as <- <-.
    + by injection H as <- <-.
  - exists decoded, decoded. split; [reflexivity|]. split; [reflexivity|].
    destruct (media_bgr v); simpl in H.
    + destruct (ellipsis_reversed decoded) as [r|] eqn:Hr; simpl in H;
        [|discriminate].
      by injection H as <- <-.
    + by injection H as <- <-.
Qed.

Lemma MediaVideo_get_frame_values (v v' : MediaVideo) (idx : Z)
    (grayscale : option bool) (f : ndarray) :
  MediaVideo_get_frame v idx grayscale = Ok (v', Some f) →
  ∃ decoded, cap_frames (media_reader v) !! Z.to_nat idx = Some decoded
             ∧ values_from f decoded.
Proof.
  intros H.
  apply MediaVideo_get_frame_inv in H as (decoded & mid & Hdec & Hgray & Hbgr & _).
  exists decoded. split; [exact Hdec|].
  assert (Hmid : values_from mid decoded).
  { destruct (default (media_grayscale v) grayscale).
    - destruct Hgray as (c0 & Hc0 & ->). intros q Hq. simpl in Hq.
      by apply (ellipsis_getitem_values _ _ _ Hc0).
    - subst mid. by intros q Hq. }
  destruct (media_bgr v).
  - intros q Hq. by apply Hmid, (ellipsis_reversed_values _ _ Hbgr).
  - subst f. exact Hmid.
Qed.

Lemma store_get_image_by_number_stored (s s' : imgstore) (n num : Z)
    (img : ndarray) :
  store_get_image_by_number s n = Ok (s', (img, num)) →
  store_images s' = store_images s ∧ (num, img) ∈ store_images s.
Proof.
  unfold store_get_image_by_number.
  destruct (list_find _ (store_images s)) as [[i [k a]]|] eqn:Hfind; [|discriminate].
  intros [= <- <- <-]. split; [reflexivity|].
  apply list_find_Some in Hfind as (Hi & _).
  eapply list_elem_of_lookup_2. exact Hi.
Qed.

Lemma store_get_image_by_index_stored (s s' : imgstore) (i num : Z)
    (img : ndarray) :
  store_get_image_by_index s i = Ok (s', (img, num)) →
  store_images s' = store_images s ∧ (num, img) ∈ store_images s.
Proof.
  unfold store_get_image_by_index. case_bool_decide; [|discriminate].
  destruct (store_images s !! Z.to_nat i) as [[k a]|] eqn:Hi; [|discriminate].
  intros [= <- <- <-]. split; [reflexivity|].
  eapply list_elem_of_lookup_2. exact Hi.
Qed.

Lemma ImgStoreVideo_get_frame_values (w : world) (v v' : ImgStoreVideo)
    (frame_number : Z) (f : ndarray) :
  outcome (ImgStoreVideo_get_frame v frame_number) w = Ok (v', Some f) →
  ∃ s num img, imgstore_store v' = Some s ∧ (num, img) ∈ store_images s
               ∧ data f = data img.
Proof.
  unfold ImgStoreVideo_get_frame. rewrite outcome_bind.
  destruct (outcome (ImgStoreVideo_open v) w) as [v1|]; [|discriminate].
  destruct (imgstore_store v1) as [s|]; [|discriminate].
  rewrite outcome_bind.
  change (outcome (io_lift ?r) w) with r.
  destruct (if imgstore_index_by_original v1
            then store_get_image_by_number s frame_number
            else store_get_image_by_index s frame_number)
    as [[s' [img num]]|] eqn:Hget; [|discriminate].
  assert (Hstored : store_images s' = store_images s ∧ (num, img) ∈ store_images s).
  { destruct (imgstore_index_by_original v1).
    - by apply store_get_image_by_number_stored in Hget.
    - by apply store_get_image_by_index_stored in Hget. }
  destruct Hstored as [Himages Hin].
  rewrite outcome_bind. change (outcome (io_lift ?r) w) with r.
  destruct (if bool_decide (ndim img = 2%nat) then newaxis_2 img else Ok img)
    as [img'|] eqn:Himg; [|discriminate].
  intros [= <- <-]. exists s', num, img. simpl. rewrite Himages.
  repeat split; [exact Hin|].
  case_bool_decide; [by apply newaxis_2_data | by injection Himg as <-].
Qed.

(** *** The shapes of the other backends *)

Lemma MediaVideo_get_frame_shape (v v' : MediaVideo) (idx : Z)
    (grayscale : option bool) (f : ndarray) (h wd c : nat) :
  (∀ decoded, decoded ∈ cap_frames (media_reader v) → shape decoded = [h; wd; c]) →
  MediaVideo_get_frame v idx grayscale = Ok (v', Some f) →
  shape f = [h; wd; if default (media_grayscale v) grayscale then 1%nat else c].
Proof.
  intros Hsame H.
  apply MediaVideo_get_frame_inv in H as (decoded & mid & Hdec & Hgray & Hbgr & _).
  assert (Hd : shape decoded = [h; wd; c])
    by (eapply Hsame, list_elem_of_lookup_2; exact Hdec).
  assert (Hmid : shape mid
                 = [h; wd; if default (media_grayscale v) grayscale then 1%nat else c]).
  { destruct (default (media_grayscale v) grayscale).
    - destruct Hgray as (c0 & Hc0 & ->). simpl.
      rewrite (ellipsis_getitem_shape _ _ _ Hc0), Hd. reflexivity.
    - by subst mid. }
  destruct (media_bgr v).
  - by rewrite (ellipsis_reversed_shape _ _ Hbgr).
  - by subst f.
Qed.

(** A fetch leaves the decoded frames of the reader as they are. *)
Lemma MediaVideo_get_frame_reader (v v' : MediaVideo) (idx : Z)
    (grayscale : option bool) (frame : option ndarray) :
  MediaVideo_get_frame v idx grayscale = Ok (v', frame) →
  cap_frames (media_reader v') = cap_frames (media_reader v).
Proof.
  unfold MediaVideo_get_frame.
  destruct (seek_read (media_reader v) idx) as (r' & Hframes & ->).
  destruct (cap_frames (media_reader v) !! Z.to_nat idx) as [raw|].
  - destruct (if default (media_grayscale v) grayscale
              then subscript (Some raw)
                     (λ a, rmap ellipsis_newaxis (ellipsis_getitem a 0))
              else Ok (Some raw)) as [mid|]; simpl; [|discriminate].
    destruct (if media_bgr v then subscript mid ellipsis_reversed else Ok mid)
      as [out|]; simpl; [|discriminate].
    by intros [= <- _].
  - destruct (if default (media_grayscale v) grayscale
              then subscript None
                     (λ a, rmap ellipsis_newaxis (ellipsis_getitem a 0))
              else Ok None) as [mid|]; simpl; [|discriminate].
    destruct (if media_bgr v then subscript mid ellipsis_reversed else Ok mid)
      as [out|]; simpl; [|discriminate].
    by intros [= <- _].
Qed.

(** A fetch returns [None] only where the reader has no frame. *)
Lemma MediaVideo_get_frame_none (v v' : MediaVideo) (idx : Z)
    (grayscale : option bool) :
  MediaVideo_get_frame v idx grayscale = Ok (v', None) →
  0 ≤ idx →
  cap_frames (media_reader v) !! Z.to_nat idx = None.
Proof.
  unfold MediaVideo_get_frame.
  destruct (seek_read (media_reader v) idx) as (r' & Hframes & ->).
  intros H Hidx. revert H.
  destruct (cap_frames (media_reader v) !! Z.to_nat idx) as [decoded|];
    [|done].
  destruct (default (media_grayscale v) grayscale); simpl.
  - destruct (ellipsis_getitem decoded 0); simpl; [|discriminate].
    destruct (media_bgr v); simpl; [|discriminate].
    destruct (ellipsis_reversed _); simpl; discriminate.
  - destruct (media_bgr v); simpl; [|discriminate].
    destruct (ellipsis_reversed decoded); simpl; discriminate.
Qed.

(** What the constructor of a media video leaves in the object. *)
Lemma MediaVideo_new_inv (w : world) (p : pystr) (grayscale : option bool)
    (bgr : bool) (v : MediaVideo) :
  outcome (MediaVideo_new (VStr p) grayscale bgr) w = Ok v →
  cap_frames (media_reader v) = cv2_VideoCapture w p
  ∧ ∃ v1, MediaVideo_get_frame
            (MkMediaVideo p (default false grayscale) bgr
               (bool_decide (grayscale = None))
               (Capture (cv2_VideoCapture w p) 0) None) 0 (Some false)
          = Ok (v1, media_test_frame v).
Proof.
  unfold MediaVideo_new, isfile. rewrite outcome_bind, outcome_call.
  destruct (os_path_isfile w p); [|discriminate]. cbn [negb].
  rewrite outcome_bind, outcome_call, outcome_bind.
  change (outcome (io_lift ?r) w) with r.
  set (v0 := MkMediaVideo p (default false grayscale) bgr
               (bool_decide (grayscale = None))
               (Capture (cv2_VideoCapture w p) 0) None).
  destruct (MediaVideo_get_frame v0 0 (Some false)) as [[v1 tf]|] eqn:Hget;
    [|discriminate].
  pose proof (MediaVideo_get_frame_reader _ _ _ _ _ Hget) as Hreader.
  simpl in Hreader.
  destruct (bool_decide (grayscale = None)).
  - rewrite outcome_bind. change (outcome (io_lift ?r) w) with r.
    destruct (subscript tf (λ a, ellipsis_getitem a 0)); [|discriminate].
    rewrite outcome_bind. change (outcome (io_lift ?r) w) with r.
    destruct (subscript tf (λ a, ellipsis_getitem a (-1))); [|discriminate].
    intros [= <-]. simpl. split; [exact Hreader|]. by exists v1.
  - intros [= <-]. simpl. split; [exact Hreader|]. by exists v1.
Qed.

(** A media video whose decoded frames all have one shape keeps the
    contract. *)
Lemma MediaVideo_frame_shape (w w' : world) (p : pystr) (grayscale : option bool)
    (bgr : bool) (v : MediaVideo) (idx : Z) (h wd c : nat) :
  outcome (MediaVideo_new (VStr p) grayscale bgr) w = Ok v →
  (∀ decoded, decoded ∈ cv2_VideoCapture w p → shape decoded = [h; wd; c]) →
  frame_shape_as_specified v w' idx.
Proof.
  intros Hnew Hsame b' f Hget.
  apply MediaVideo_new_inv in Hnew as (Hreader & v1 & Htest).
  change (outcome (get_frame v idx) w') with (MediaVideo_get_frame v idx None)
    in Hget.
  rewrite <- Hreader in Hsame.
  pose proof (MediaVideo_get_frame_shape _ _ _ _ _ _ _ _ Hsame Hget) as Hf.
  apply MediaVideo_get_frame_inv in Hget as (decoded & _ & Hdec & _).
  assert (Hfirst : is_Some (cv2_VideoCapture w p !! 0%nat)).
  { apply lookup_lt_is_Some. rewrite <- Hreader.
    apply lookup_lt_Some in Hdec. lia. }
  destruct (media_test_frame v) as [tf|] eqn:Htf.
  - assert (Htfs : shape tf = [h; wd; c]).
    { eapply (MediaVideo_get_frame_shape _ _ _ (Some false) _ h wd c);
        [|exact Htest].
      simpl. by rewrite <- Hreader. }
    simpl in Hf. simpl.
    unfold MediaVideo_height, MediaVideo_width, MediaVideo_channels,
      MediaVideo_test_shape, shape_at.
    rewrite Htf, Htfs. simpl.
    destruct (media_grayscale v); simpl in *; eauto 10.
  - exfalso. destruct Hfirst as [first Hfirst].
    apply MediaVideo_get_frame_none in Htest; [|done].
    cbn [media_reader cap_frames] in Htest.
    change (Z.to_nat 0) with 0%nat in Htest.
    rewrite Hfirst in Htest. discriminate Htest.
Qed.

Lemma store_get_next_image_stored (s s' : imgstore) (num : Z) (img : ndarray) :
  store_get_next_image s = Ok (s', (img, num)) →
  store_images s' = store_images s ∧ (num, img) ∈ store_images s.
Proof.
  unfold store_get_next_image.
  destruct (store_images s !! store_pos s) as [[k a]|] eqn:Hi; [|discriminate].
  intros [= <- <- <-]. split; [reflexivity|].
  eapply list_elem_of_lookup_2. exact Hi.
Qed.

(** An image store video whose images all have one shape, of two or three
    axes, keeps the contract. *)
Lemma ImgStoreVideo_frame_shape (w w' : world) (filename : pyval)
    (index_by_original : bool) (v : ImgStoreVideo) (idx : Z) (shp : list nat) :
  outcome (ImgStoreVideo_new filename index_by_original) w = Ok v →
  (∀ s num img, imgstore_new_for_filename w (imgstore_filename v) = Some s →
                (num, img) ∈ store_images s → shape img = shp) →
  (length shp = 2 ∨ length shp = 3)%nat →
  frame_shape_as_specified v w' idx.
Proof.
  intros Hnew Hsame Hdim b' f Hget.
  assert (Hv : ∃ s s0 first num,
             imgstore_store v = Some s ∧ imgstore_img v = Some first
             ∧ imgstore_new_for_filename w (imgstore_filename v) = Some s0
             ∧ store_images s = store_images s0
             ∧ (num, first) ∈ store_images s0).
  { destruct filename as [name| | | | | |]; try discriminate.
    revert Hnew. unfold ImgStoreVideo_new. rewrite outcome_bind.
    destruct (outcome (os_path_abspath _) w) as [absname|]; [|discriminate].
    unfold ImgStoreVideo_open. cbn [imgstore_store imgstore_filename
                                    imgstore_index_by_original].
    rewrite outcome_bind, outcome_call.
    destruct (imgstore_new_for_filename w absname) as [s0|] eqn:Hopen;
      [|discriminate].
    rewrite outcome_bind. change (outcome (io_lift ?r) w) with r.
    destruct (store_get_next_image s0) as [[s1 [first num]]|] eqn:Hnext;
      [|discriminate].
    intros [= <-]. simpl.
    apply store_get_next_image_stored in Hnext as [Himages Hin].
    by exists s1, s0, first, num. }
  destruct Hv as (s & s0 & first & num & Hstore & Himg & Hopen & Himages & Hfirst).
  pose proof (Hsame s0 num first Hopen Hfirst) as Hfirst_shape.
  revert Hget. simpl. unfold ImgStoreVideo_get_frame, ImgStoreVideo_open.
  rewrite outcome_bind, Hstore. change (outcome (mret v) w') with (Ok v).
  cbn iota beta. rewrite Hstore, outcome_bind.
  change (outcome (io_lift ?r) w') with r.
  destruct (if imgstore_index_by_original v
            then store_get_image_by_number s idx
            else store_get_image_by_index s idx)
    as [[s' [img n]]|] eqn:Hfetch; [|discriminate].
  assert (Hin : (n, img) ∈ store_images s0).
  { rewrite <- Himages. destruct (imgstore_index_by_original v).
    - by apply store_get_image_by_number_stored in Hfetch as [_ ?].
    - by apply store_get_image_by_index_stored in Hfetch as [_ ?]. }
  pose proof (Hsame s0 n img Hopen Hin) as Himg_shape.
  rewrite outcome_bind. change (outcome (io_lift ?r) w') with r.
  unfold ImgStoreVideo_height, ImgStoreVideo_width, ImgStoreVideo_channels,
    ImgStoreVideo_img_shape, shape_at, ndim.
  rewrite Himg, Hfirst_shape, Himg_shape.
  destruct Hdim as [Hdim | Hdim].
  - destruct shp as [|h [|wd [|]]]; try discriminate Hdim.
    rewrite bool_decide_eq_true_2 by reflexivity.
    destruct (newaxis_2 img) as [img'|] eqn:Hnew2; [|discriminate].
    intros [= _ <-]. rewrite (newaxis_2_shape _ _ _ _ Himg_shape Hnew2).
    simpl. eauto 10.
  - destruct shp as [|h [|wd [|c [|]]]]; try discriminate Hdim.
    rewrite bool_decide_eq_false_2 by (simpl; lia).
    intros [= _ <-]. rewrite Himg_shape. simpl. eauto 10.
Qed.


(** The element-wise product of the model is the one the statement
    spells out. *)
Lemma times_255_astype_int_scaled (t : dtype) (frame : ndarray) :
  scaled_to_255 t frame (times_255_astype_int t frame).
Proof.
  split; [reflexivity|]. unfold times_255_astype_int. cbn [data].
  apply map_ext. intros q. by destruct t.
Qed.

(** C2, amended.  The range is converted in the HDF5 backend alone.
    When [convert_range] is true, the fetched frame has a value and all
    its values are at most 1, [HDF5Video.get_frame] returns a frame of the
    same shape whose values are the integer parts of the products of the
    values with 255, the products taken in the element type of the
    dataset: rounded to the format of a floating type, modulo 256 for
    bytes.  When [convert_range] is false it returns the fetched frame as
    it is.  Every value of a frame that [NumpyVideo.get_frame],
    [MediaVideo.get_frame] or [ImgStoreVideo.get_frame] returns is a value
    of the stored array, of the decoded frame, or of the stored image. *)
Theorem range_conversion_hdf5_only :
  (∀ v idx frame,
     HDF5Video_fetched_frame v idx = Ok frame →
     hdf5_convert_range v = true →
     data frame ≠ [] →
     all_at_most_1 frame →
     ∃ t out,
       HDF5Video_dtype v = Ok t
       ∧ HDF5Video_get_frame v idx = Ok out
       ∧ shape out = shape frame
       ∧ data out
         = map (λ q, inject_Z
                       match t with
                       | Float16 =>
                           float_astype_int
                             (SpecFloat.SFmul 11 16 (float_of_Q 11 16 q)
                                (float_of_Q 11 16 255))
                       | Float32 =>
                           float_astype_int
                             (SpecFloat.SFmul 24 128 (float_of_Q 24 128 q)
                                (float_of_Q 24 128 255))
                       | Float64 =>
                           float_astype_int
                             (SpecFloat.SFmul 53 1024 (float_of_Q 53 1024 q)
                                (float_of_Q 53 1024 255))
                       | UInt8 => (Qtruncate q * 255) mod 256
                       end)
             (data frame))
  ∧ (∀ v idx,
       hdf5_convert_range v = false →
       HDF5Video_get_frame v idx = HDF5Video_fetched_frame v idx)
  ∧ (∀ v idx f,
       NumpyVideo_get_frame v idx = Ok f →
       ∃ a, numpy_data v = Some a ∧ values_from f a)
  ∧ (∀ v idx grayscale v' f,
       MediaVideo_get_frame v idx grayscale = Ok (v', Some f) →
       ∃ decoded, cap_frames (media_reader v) !! Z.to_nat idx = Some decoded
                  ∧ values_from f decoded)
  ∧ (∀ w v frame_number v' f,
       outcome (ImgStoreVideo_get_frame v frame_number) w = Ok (v', Some f) →
       ∃ s num img, imgstore_store v' = Some s ∧ (num, img) ∈ store_images s
                    ∧ data f = data img).
Proof.
  split; [|split; [|split; [|split]]].
  - intros v idx frame Hfetch Hconv Hdata Hall.
    assert (Htype : ∃ t, HDF5Video_dtype v = Ok t).
    { unfold HDF5Video_fetched_frame in Hfetch. unfold HDF5Video_dtype.
      destruct (hdf5_dataset_h5 v) as [d|]; [by eexists | discriminate]. }
    destruct Htype as [t Htype].
    exists t, (times_255_astype_int t frame).
    split; [exact Htype|].
    split; [|exact (times_255_astype_int_scaled t frame)].
    unfold HDF5Video_fetched_frame in Hfetch. unfold HDF5Video_get_frame.
    destruct (match hdf5_dataset_h5 v with
              | Some d => getitem (ds_array d) idx
              | None => Raise TypeError
              end) as [raw|]; simpl in *; [|discriminate].
    rewrite Hfetch, Hconv. simpl.
    destruct (amax_at_most_1 frame Hdata Hall) as (m & Hm & Hle).
    rewrite Hm. simpl. rewrite Hle, Htype. reflexivity.
  - intros v idx Hconv.
    unfold HDF5Video_fetched_frame, HDF5Video_get_frame.
    destruct (match hdf5_dataset_h5 v with
              | Some d => getitem (ds_array d) idx
              | None => Raise TypeError
              end) as [raw|]; simpl; [|reflexivity].
    rewrite Hconv.
    destruct (if bool_decide (hdf5_input_format v = channels_first)
              then transpose_210 raw else Ok raw); reflexivity.
  - intros v idx f. unfold NumpyVideo_get_frame.
    destruct (numpy_data v) as [a|]; [|discriminate].
    intros H. exists a. split; [reflexivity|]. by eapply getitem_values.
  - intros v idx grayscale v' f. apply MediaVideo_get_frame_values.
  - intros w v frame_number v' f. apply ImgStoreVideo_get_frame_values.
Qed.

Lemma range_conversion_hdf5_only_witness :
  (HDF5Video_fetched_frame shade_video 0
   = Ok (NdArray [1; 3; 1]%nat [double_0_6; 1 # 2; 1]%Q)
   ∧ hdf5_convert_range shade_video = true
   ∧ data (NdArray [1; 3; 1]%nat [double_0_6; 1 # 2; 1]%Q) ≠ []
   ∧ all_at_most_1 (NdArray [1; 3; 1]%nat [double_0_6; 1 # 2; 1]%Q))
  ∧ HDF5Video_dtype shade_video = Ok Float64
  ∧ HDF5Video_get_frame shade_video 0
    = Ok (NdArray [1; 3; 1]%nat [153; 127; 255]%Q).
Proof.
  assert (Hall : all_at_most_1 (NdArray [1; 3; 1]%nat [double_0_6; 1 # 2; 1]%Q)).
  { repeat constructor; simpl; intros H; discriminate H. }
  split; [repeat split; [discriminate | exact Hall]|].
  destruct range_conversion_hdf5_only as [Hconv _].
  destruct (Hconv shade_video 0 (NdArray [1; 3; 1]%nat [double_0_6; 1 # 2; 1]%Q)
              eq_refl eq_refl ltac:(discriminate) Hall)
    as (t & out & Htype & -> & Hshape & Hvalues).
  split; [reflexivity|].
  injection Htype as <-.
  destruct out as [out_shape out_data]. cbn [shape data] in Hshape, Hvalues.
  rewrite Hshape, Hvalues. vm_compute. reflexivity.
Defined.

End Frames.

(** ** The name of an image store *)

Module StoreName.
Import Np Ext PosixPath VideoIO Claims Samples IOFacts StrFacts.
















End StoreName.

(** ** Slices, splits and shuffles *)

Module SliceFacts.
Import Augmentation.

Lemma slice_from {A} (l : list A) (offset size : nat) :
  slice l offset (offset + size) = take size (drop offset l).
Proof. unfold slice. f_equal. lia. Qed.

Lemma length_slices {A} (l : list A) (sizes : list nat) (offset : nat) :
  length (slices l offset sizes) = length sizes.
Proof.
  revert offset. induction sizes as [|s sizes IH]; intros offset; simpl;
    [reflexivity|]. by rewrite IH.
Qed.

Lemma slices_lengths {A} (l : list A) (sizes : list nat) (offset : nat) :
  (offset + sum_list sizes ≤ length l)%nat →
  map length (slices l offset sizes) = sizes.
Proof.
  revert offset. induction sizes as [|s sizes IH]; intros offset H; simpl in *;
    [reflexivity|].
  rewrite slice_from, length_take_le by (rewrite length_drop; lia).
  rewrite IH by lia. reflexivity.
Qed.

Lemma slices_concat {A} (l : list A) (sizes : list nat) (offset : nat) :
  concat (slices l offset sizes) = take (sum_list sizes) (drop offset l).
Proof.
  revert offset. induction sizes as [|s sizes IH]; intros offset; simpl;
    [reflexivity|].
  rewrite slice_from, IH, <- take_take_drop, drop_drop. reflexivity.
Qed.

Lemma split_frame_slices (frame : list point) (counts : list nat) (offset : nat) :
  split_frame frame offset counts = slices frame offset counts.
Proof.
  revert offset. induction counts as [|c counts IH]; intros offset; simpl;
    [reflexivity|]. by rewrite IH.
Qed.

Lemma array_split_positive {A} (ary : list A) (sections : Z) (b : list (list A)) :
  array_split ary sections = Ok b → 0 < sections.
Proof. unfold array_split. case_bool_decide; [discriminate|]. lia. Qed.

(** The pieces of [array_split] are as many as asked for, and put one
    after the other they are the array. *)
Lemma array_split_pieces {A} (ary : list A) (sections : Z) :
  0 < sections →
  ∃ b, array_split ary sections = Ok b
       ∧ length b = Z.to_nat sections
       ∧ concat b = ary.
Proof.
  intros Hpos. unfold array_split. rewrite bool_decide_eq_false_2 by lia.
  set (k := Z.to_nat sections). set (n := length ary).
  assert (Hk : (k ≠ 0)%nat) by (unfold k; lia).
  pose proof (Nat.mod_upper_bound n k Hk) as Hextras.
  pose proof (Nat.div_mod n k Hk) as Hdiv.
  eexists. split; [reflexivity|]. split.
  - rewrite length_slices, length_app, !length_replicate. lia.
  - rewrite slices_concat, drop_0. apply take_ge.
    rewrite sum_list_with_app, !sum_list_replicate. fold n. nia.
Qed.

Lemma lookup_perm_delete {A} (l : list A) (i : nat) (x : A) :
  l !! i = Some x → l ≡ₚ x :: delete i l.
Proof.
  intros H. rewrite delete_take_drop.
  rewrite <- (take_drop_middle l i x H) at 1.
  symmetry. apply Permutation_middle.
Qed.

Lemma insert_perm_delete {A} (l : list A) (i : nat) (y : A) :
  (i < length l)%nat → <[i:=y]> l ≡ₚ y :: delete i l.
Proof.
  intros H. rewrite insert_take_drop, delete_take_drop by done.
  symmetry. apply Permutation_middle.
Qed.

Lemma swap_perm {A} (x : list A) (i j : nat) : swap x i j ≡ₚ x.
Proof.
  unfold swap.
  destruct (x !! i) as [xi|] eqn:Hi; [|reflexivity].
  destruct (x !! j) as [xj|] eqn:Hj; [|reflexivity].
  pose proof (lookup_lt_Some _ _ _ Hi) as Hilt.
  pose proof (lookup_lt_Some _ _ _ Hj) as Hjlt.
  destruct (decide (i = j)) as [-> | Hne].
  - assert (xi = xj) as -> by congruence.
    by rewrite !(list_insert_id x j xj Hj).
  - set (x' := <[j:=xi]> x).
    assert (Hi' : x' !! i = Some xi)
      by (unfold x'; rewrite list_lookup_insert_ne; done).
    assert (Hrest : delete i x' ≡ₚ delete j x).
    { apply (Permutation_cons_inv (a := xi)).
      rewrite <- (lookup_perm_delete x' i xi Hi').
      unfold x'. by apply insert_perm_delete. }
    rewrite insert_perm_delete by (unfold x'; rewrite length_insert; done).
    rewrite Hrest. symmetry. by apply lookup_perm_delete.
Qed.

Lemma shuffle_down_perm {A} (i : nat) (x : list A) (g : rng) :
  (shuffle_down i x g).1 ≡ₚ x.
Proof.
  revert x g. induction i as [|i IH]; intros x g; simpl; [reflexivity|].
  destruct g as [|d g]; simpl; rewrite IH; apply swap_perm.
Qed.

Lemma np_random_shuffle_perm {A} (x : list A) (g : rng) :
  (np_random_shuffle x g).1 ≡ₚ x.
Proof. apply shuffle_down_perm. Qed.

Lemma concat_perm {A} (l l' : list (list A)) : l ≡ₚ l' → concat l ≡ₚ concat l'.
Proof.
  induction 1 as [|x l l' _ IH|x y l|l l' l'' _ IH1 _ IH2]; simpl.
  - reflexivity.
  - by rewrite IH.
  - rewrite !app_assoc. f_equiv. apply Permutation_app_comm.
  - by rewrite IH1.
Qed.

End SliceFacts.

(** ** Batches *)

Module Batching.
Import Np Augmentation Claims Samples SliceFacts.

Lemma ceil_div_is_ceil (n d k : Z) :
  0 ≤ n → ceil_div n d = Ok k → 0 < k → 0 < d ∧ is_ceil n d k.
Proof.
  unfold ceil_div, is_ceil. case_bool_decide as Hd; [discriminate|].
  intros Hn [= <-] Hk.
  pose proof (Z.div_mod (- n) d Hd) as Hdiv.
  destruct (Z_lt_le_dec 0 d) as [Hpos | Hneg].
  - pose proof (Z.mod_pos_bound (- n) d Hpos). split; [done|]. nia.
  - pose proof (Z.mod_neg_bound (- n) d ltac:(lia)). nia.
Qed.

Lemma ceil_div_total (n d : Z) :
  0 < n → 0 < d → ∃ k, ceil_div n d = Ok k ∧ 0 < k.
Proof.
  intros Hn Hd. unfold ceil_div. rewrite bool_decide_eq_false_2 by lia.
  eexists. split; [reflexivity|].
  pose proof (Z.div_mod (- n) d ltac:(lia)).
  pose proof (Z.mod_pos_bound (- n) d Hd). nia.
Qed.

(** The batches that [array_split] cuts from a permutation of the sample
    indices. *)
Lemma split_batches (n : nat) (d k : Z) (all_idx : list nat) (b : list (list nat)) :
  all_idx ≡ₚ seq 0 n →
  ceil_div (Z.of_nat n) d = Ok k →
  array_split all_idx k = Ok b →
  (0 < d ∧ 0 < Z.of_nat n)
  ∧ is_ceil (Z.of_nat n) d (Z.of_nat (length b)) ∧ concat b ≡ₚ seq 0 n.
Proof.
  intros Hperm Hceil Hsplit.
  pose proof (array_split_positive _ _ _ Hsplit) as Hk.
  destruct (array_split_pieces all_idx k Hk) as (b' & Hb' & Hlen & Hcat).
  rewrite Hsplit in Hb'. injection Hb' as <-.
  destruct (ceil_div_is_ceil _ _ _ (Zle_0_nat n) Hceil Hk) as [Hd Hc].
  rewrite Hlen, Z2Nat.id by lia. rewrite Hcat.
  split; [split; [done | unfold is_ceil in Hc; nia] | done].
Qed.

Lemma shuffle_rebatch_invariant (a a' : Augmenter) (g g' : rng) :
  shuffle a false g = Ok (a', g') →
  sound_sizes a' ∧ batching_invariant a'.
Proof.
  unfold shuffle.
  destruct (np_random_shuffle (seq 0 (num_samples a)) g) as [all_idx g1] eqn:Hsh.
  pose proof (np_random_shuffle_perm (seq 0 (num_samples a)) g) as Hperm.
  rewrite Hsh in Hperm. simpl in Hperm.
  destruct (ceil_div (Z.of_nat (num_samples a)) (batch_size a)) as [k|] eqn:Hceil;
    cbn [rbind]; [|discriminate].
  destruct (array_split all_idx k) as [b|] eqn:Hsplit; cbn [rbind]; [|discriminate].
  intros [= <- <-].
  destruct (split_batches _ _ _ _ _ Hperm Hceil Hsplit) as (Hd & Hc & Hcat).
  unfold batching_invariant, sound_sizes. simpl. done.
Qed.

Lemma shuffle_batches_invariant (a a' : Augmenter) (g g' : rng) :
  batching_invariant a →
  shuffle a true g = Ok (a', g') →
  batching_invariant a'.
Proof.
  unfold shuffle. intros (Hc & Hcat & _).
  destruct (np_random_shuffle (batches a) g) as [b g1] eqn:Hsh.
  pose proof (np_random_shuffle_perm (batches a) g) as Hperm.
  rewrite Hsh in Hperm. simpl in Hperm.
  intros [= <- <-]. unfold batching_invariant, len, num_samples. simpl.
  rewrite (Permutation_length Hperm), (concat_perm _ _ Hperm). done.
Qed.

Lemma Augmenter_new_invariant X Y points datagen output_names batch_size
    shuffle_initially (g g' : rng) (a : Augmenter) :
  Augmenter_new X Y points datagen output_names batch_size shuffle_initially g
  = Ok (a, g') →
  sound_sizes a ∧ batching_invariant a.
Proof.
  unfold Augmenter_new, num_samples. cbn [Augmentation.X].
  destruct (ceil_div (Z.of_nat (length X)) batch_size) as [k|] eqn:Hceil;
    cbn [rbind]; [|discriminate].
  destruct (array_split (seq 0 (length X)) k) as [b|] eqn:Hsplit;
    cbn [rbind]; [|discriminate].
  destruct shuffle_initially.
  - apply shuffle_rebatch_invariant.
  - intros [= <- <-].
    destruct (split_batches _ _ _ _ _ (reflexivity _) Hceil Hsplit)
      as (Hd & Hc & Hcat).
    unfold batching_invariant, sound_sizes. simpl. done.
Qed.

Lemma reachable_invariant (a : Augmenter) :
  reachable a → sound_sizes a ∧ batching_invariant a.
Proof.
  induction 1 as [X Y points datagen output_names batch_size shuffle_initially
                    g a g' Hnew | a batches_only g a' g' _ [Hd IH] Hshuffle].
  - by eapply Augmenter_new_invariant.
  - destruct batches_only.
    + split; [|by eapply shuffle_batches_invariant].
      unfold shuffle in Hshuffle.
      destruct (np_random_shuffle (batches a) g). by injection Hshuffle as <- <-.
    + by eapply shuffle_rebatch_invariant.
Qed.

(** Construction succeeds on at least one sample and a positive batch
    size, and [shuffle] succeeds on every augmenter that exists. *)
Lemma Augmenter_new_total X Y points datagen output_names batch_size
    shuffle_initially (g : rng) :
  X ≠ [] → 0 < batch_size →
  ∃ a g', Augmenter_new X Y points datagen output_names batch_size
            shuffle_initially g = Ok (a, g').
Proof.
  intros HX Hd.
  assert (Hn : 0 < Z.of_nat (length X)) by (destruct X; [done | simpl; lia]).
  destruct (ceil_div_total _ _ Hn Hd) as (k & Hceil & Hk).
  unfold Augmenter_new, shuffle, num_samples. cbn [Augmentation.X with_batches].
  destruct (array_split_pieces (seq 0 (length X)) k Hk) as (b & Hsplit & _).
  destruct (np_random_shuffle (seq 0 (length X)) g) as [all_idx g1].
  destruct (array_split_pieces all_idx k Hk) as (b' & Hsplit' & _).
  destruct shuffle_initially; do 2 eexists;
    rewrite Hceil; cbn [rbind]; rewrite Hsplit; cbn [rbind]; [|reflexivity].
  unfold with_batches. cbn [Augmentation.batch_size].
  rewrite Hceil. cbn [rbind]. rewrite Hsplit'. reflexivity.
Qed.

Lemma shuffle_total (a : Augmenter) (batches_only : bool) (g : rng) :
  reachable a → ∃ a' g', shuffle a batches_only g = Ok (a', g').
Proof.
  intros Hreach. destruct (reachable_invariant a Hreach) as ([Hd Hn] & _).
  unfold shuffle. destruct batches_only.
  - destruct (np_random_shuffle (batches a) g). by eauto.
  - destruct (np_random_shuffle (seq 0 (num_samples a)) g) as [all_idx g1].
    destruct (ceil_div_total _ _ Hn Hd) as (k & Hceil & Hk).
    destruct (array_split_pieces all_idx k Hk) as (b' & Hsplit & _).
    do 2 eexists. rewrite Hceil. cbn [rbind]. rewrite Hsplit. reflexivity.
Qed.

(** C9. After construction and after every call of [shuffle], with
    [batches_only] true or false, the batches are
    [ceil(num_samples / batch_size)] in number, their concatenation is a
    permutation of the sample indices [0 .. num_samples - 1], and
    [__len__] is the number of batches. *)
Theorem batching_invariant_holds (a : Augmenter) :
  reachable a → batching_invariant a.
Proof.
  induction 1 as [X Y points datagen output_names batch_size shuffle_initially
                    g a g' Hnew | a batches_only g a' g' Hreach IH Hshuffle].
  - by eapply Augmenter_new_invariant.
  - destruct batches_only.
    + by eapply shuffle_batches_invariant.
    + by eapply shuffle_rebatch_invariant.
Qed.

Lemma batching_invariant_holds_witness :
  reachable shuffled_augmenter ∧ batching_invariant shuffled_augmenter.
Proof.
  assert (Hreach : reachable shuffled_augmenter).
  { eapply (reach_shuffle _ true [5%nat] shuffled_augmenter []).
    - eapply (reach_new five_images None None None None 2 true
                [3; 1; 4; 1; 5]%nat).
      vm_compute. reflexivity.
    - vm_compute. reflexivity. }
  split; [exact Hreach|].
  apply (batching_invariant_holds shuffled_augmenter). exact Hreach.
Defined.

End Batching.

(** ** Keypoints *)

Module Realign.
Import Np Augmentation Claims Samples SliceFacts.

Lemma lookup_map {A B} (f : A → B) (l : list A) (i : nat) :
  map f l !! i = f <$> (l !! i).
Proof.
  revert i. induction l as [|x l IH]; intros [|i]; simpl; try reflexivity.
  apply IH.
Qed.

Lemma length_concat_sum {A} (ls : list (list A)) :
  length (concat ls) = sum_list (map length ls).
Proof.
  induction ls as [|l ls IH]; simpl; [reflexivity|].
  by rewrite length_app, IH.
Qed.

Lemma take_indices_total {A} (l : list A) (idx : list nat) :
  (∀ i, i ∈ idx → (i < length l)%nat) →
  ∃ out, take_indices l idx = Ok out ∧ length out = length idx.
Proof.
  induction idx as [|i idx IH]; intros Hidx; simpl.
  - by exists [].
  - destruct (lookup_lt_is_Some_2 l i) as [x Hx];
      [apply Hidx, list_elem_of_here|].
    rewrite Hx.
    destruct IH as (out & -> & Hlen);
      [intros j Hj; by apply Hidx, list_elem_of_further|].
    exists (x :: out). simpl. by rewrite Hlen.
Qed.

(** The combined keypoints of a frame are as many as the points of its
    instances together. *)
Lemma koi_from_total (frames : list frame_points) (Xb : list ndarray) (i : nat) :
  (i + length frames ≤ length Xb)%nat →
  ∃ kois, koi_from i frames Xb = Ok kois
          ∧ map (λ k, length (keypoints k)) kois
            = map (λ frame : frame_points, sum_list (map length frame)) frames.
Proof.
  revert i. induction frames as [|frame frames IH]; intros i Hlen; simpl in *.
  - by exists [].
  - destruct (lookup_lt_is_Some_2 Xb i) as [img Himg]; [lia|]. rewrite Himg.
    destruct (IH (S i)) as (kois & -> & Hk); [lia|]. simpl.
    eexists. split; [reflexivity|]. simpl. rewrite Hk. f_equal.
    case_bool_decide as Hframe; simpl.
    + apply length_concat_sum.
    + destruct frame; [reflexivity | discriminate Hframe].
Qed.

(** Cutting each combined array at the point counts of its frame. *)
Lemma split_frames_cut (aug_points : list (list point)) (counts : list (list nat))
    (i : nat) :
  (∀ j a, aug_points !! j = Some a →
          ∃ cs, counts !! (i + j)%nat = Some cs ∧ length a = sum_list cs) →
  ∃ out, split_frames i aug_points counts = Ok out
         ∧ length out = length aug_points
         ∧ ∀ j a cs, aug_points !! j = Some a → counts !! (i + j)%nat = Some cs →
                     ∃ o, out !! j = Some o ∧ map length o = cs ∧ concat o = a.
Proof.
  revert i. induction aug_points as [|frame frames IH]; intros i Hcounts; simpl.
  - exists []. repeat split. intros j a cs Hj. by rewrite lookup_nil in Hj.
  - destruct (Hcounts 0%nat frame eq_refl) as (cs0 & Hcs0 & Hlen0).
    rewrite Nat.add_0_r in Hcs0. rewrite Hcs0.
    destruct (IH (S i)) as (rest & -> & Hlen & Hrest).
    { intros j a Hj. destruct (Hcounts (S j) a Hj) as (cs & Hcs & Hl).
      exists cs. split; [|done]. by rewrite Nat.add_succ_comm. }
    eexists. split; [reflexivity|]. simpl. split; [by rewrite Hlen|].
    intros [|j] a cs Ha Hcs; simpl in *.
    + injection Ha as <-. rewrite Nat.add_0_r, Hcs0 in Hcs. injection Hcs as <-.
      eexists. split; [reflexivity|]. rewrite split_frame_slices. split.
      * apply slices_lengths. lia.
      * rewrite slices_concat, drop_0. apply take_ge. lia.
    + apply (Hrest j a cs Ha). rewrite <- Hcs. f_equal. lia.
Qed.

(** The points branch on the indices of a batch and the augmented images:
    it returns, for every frame, as many point arrays as the frame has
    instances, each with the point count of its instance, and the arrays
    of a frame put one after the other are the augmented combined array of
    that frame. *)
Lemma getitem_points_realigned (aug_det : deterministic)
    (all_points : list frame_points) (idx : list nat) (Xb : list ndarray) :
  keeps_keypoints aug_det →
  (∀ i, i ∈ idx → (i < length all_points)%nat) →
  (length idx ≤ length Xb)%nat →
  ∃ frames_in_batch kois split_points,
    take_indices all_points idx = Ok frames_in_batch
    ∧ koi_in_frame frames_in_batch Xb = Ok kois
    ∧ getitem_points aug_det all_points idx Xb = Ok split_points
    ∧ length split_points = length frames_in_batch
    ∧ ∀ i frame_in, frames_in_batch !! i = Some frame_in →
        ∃ aug_koi frame_out,
          augment_keypoints aug_det kois !! i = Some aug_koi
          ∧ split_points !! i = Some frame_out
          ∧ realigned frame_in (keypoints aug_koi) frame_out.
Proof.
  intros Hkeep Hidx HX.
  destruct (take_indices_total all_points idx Hidx) as (frames & Hframes & Hlen).
  destruct (koi_from_total frames Xb 0) as (kois & Hkois & Hk); [simpl; lia|].
  set (aug := augment_keypoints aug_det kois).
  set (counts := map (λ frame : frame_points, map (λ pa, length pa) frame) frames).
  assert (Hsizes : map length (map keypoints aug) = map sum_list counts).
  { unfold counts, aug. rewrite !map_map.
    etransitivity; [apply Hkeep | exact Hk]. }
  assert (Haug_len : length aug = length frames).
  { apply (f_equal length) in Hsizes. unfold counts in Hsizes.
    by rewrite !length_map in Hsizes. }
  destruct (split_frames_cut (map keypoints aug) counts 0) as (out & Hout & Hout_len & Hcut).
  { intros j a Ha. change (0 + j)%nat with j.
    apply (f_equal (λ l, l !! j)) in Hsizes.
    rewrite lookup_map, Ha, lookup_map in Hsizes. simpl in Hsizes.
    destruct (counts !! j) as [cs|]; [|discriminate].
    exists cs. split; [reflexivity|]. simpl in Hsizes. by injection Hsizes. }
  exists frames, kois, out.
  split; [exact Hframes|]. split; [exact Hkois|].
  split.
  { unfold getitem_points. rewrite Hframes. simpl.
    unfold koi_in_frame. rewrite Hkois. simpl. exact Hout. }
  split; [by rewrite Hout_len, length_map|].
  intros i frame_in Hin.
  destruct (lookup_lt_is_Some_2 aug i) as [aug_koi Haug];
    [rewrite Haug_len; by eapply lookup_lt_Some|].
  destruct (Hcut i (keypoints aug_koi) (map length frame_in)) as (o & Ho & Hlens & Hcat).
  { by rewrite lookup_map, Haug. }
  { unfold counts. change (0 + i)%nat with i. by rewrite lookup_map, Hin. }
  exists aug_koi, o. split; [exact Haug|]. split; [exact Ho|].
  unfold realigned. split; [|done].
  apply (f_equal length) in Hlens. by rewrite !length_map in Hlens.
Qed.

(** The indices of the batches of an augmenter are indices of samples. *)
Lemma batch_indices_valid (a : Augmenter) (idx : list nat) (i : nat) :
  reachable a → idx ∈ batches a → i ∈ idx → (i < num_samples a)%nat.
Proof.
  intros Hreach Hidx Hi.
  destruct (Batching.reachable_invariant a Hreach) as (_ & _ & Hcat & _).
  assert (Hin : i ∈ concat (batches a)) by (apply ListFacts.elem_of_concat; eauto).
  rewrite Hcat in Hin. apply elem_of_seq in Hin. lia.
Qed.

Lemma seq_getitem_in_range {A} (l : list A) (i : Z) :
  - Z.of_nat (length l) ≤ i < Z.of_nat (length l) →
  ∃ x, seq_getitem l i = Ok x ∧ x ∈ l.
Proof.
  intros Hi. unfold seq_getitem. rewrite bool_decide_eq_true_2 by done.
  destruct (lookup_lt_is_Some_2 l
              (Z.to_nat (if bool_decide (i < 0)
                         then i + Z.of_nat (length l) else i))) as [x Hx].
  { case_bool_decide; lia. }
  rewrite Hx. exists x. split; [reflexivity|]. by eapply list_elem_of_lookup_2.
Qed.

Lemma pointed_augmenter_reachable : reachable pointed_augmenter.
Proof.
  eapply (reach_new five_images None (Some five_frames) None None 2 false []
            pointed_augmenter []).
  vm_compute. reflexivity.
Qed.

Lemma shift_right_keeps_keypoints : keeps_keypoints shift_right.
Proof.
  intros kois. simpl. rewrite map_map. apply map_ext. intros k. simpl.
  apply length_map.
Qed.

(** C7. On an augmenter that holds points and no target images,
    [__getitem__] takes the points branch for every batch index from
    [-len] to [len - 1]: it returns the augmented images of the batch
    together with [split_points], passed through the generator and put
    under the output names where these are set.  [split_points] has one
    entry for every frame of the batch; the entry of a frame has as many
    point arrays as the frame has instances, each with the point count of
    its instance, and these arrays put one after the other are the
    augmented combined array of the frame. *)
Theorem split_points_realigned (a : Augmenter) (aug_det : deterministic)
    (pts : list frame_points) (batch_idx : Z) :
  reachable a →
  Y a = None →
  points a = Some pts →
  (num_samples a ≤ length pts)%nat →
  keeps_keypoints aug_det →
  keeps_images aug_det →
  - Z.of_nat (len a) ≤ batch_idx < Z.of_nat (len a) →
  ∃ idx Xb frames_in_batch kois split_points,
    seq_getitem (batches a) batch_idx = Ok idx
    ∧ take_indices (X a) idx = Ok Xb
    ∧ take_indices pts idx = Ok frames_in_batch
    ∧ koi_in_frame frames_in_batch (augment_images aug_det Xb) = Ok kois
    ∧ getitem a aug_det batch_idx
      = Ok (augment_images aug_det Xb,
            let Yb := match datagen a with
                      | Some gen => TGenerated (gen split_points)
                      | None => TPoints split_points
                      end in
            match output_names a with
            | Some names => inr (map (λ output_name, (output_name, Yb)) names)
            | None => inl Yb
            end)
    ∧ length split_points = length frames_in_batch
    ∧ ∀ i frame_in, frames_in_batch !! i = Some frame_in →
        ∃ aug_koi frame_out,
          augment_keypoints aug_det kois !! i = Some aug_koi
          ∧ split_points !! i = Some frame_out
          ∧ realigned frame_in (keypoints aug_koi) frame_out.
Proof.
  intros Hreach HY Hpts Hlen Hkeep Himages Hidx.
  destruct (seq_getitem_in_range (batches a) batch_idx Hidx) as (idx & Hget & Hin).
  destruct (take_indices_total (X a) idx) as (Xb & HXb & HXlen).
  { intros i Hi. by eapply batch_indices_valid. }
  destruct (getitem_points_realigned aug_det pts idx (augment_images aug_det Xb))
    as (frames & kois & split_points & Hframes & Hkois & Hsplit & Hcount & Hcut).
  { exact Hkeep. }
  { intros i Hi. pose proof (batch_indices_valid a idx i Hreach Hin Hi). lia. }
  { rewrite Himages, HXlen. lia. }
  exists idx, Xb, frames, kois, split_points.
  do 4 (split; [done|]). split; [|by split].
  unfold getitem. rewrite Hget. cbn [rbind]. rewrite HXb. cbn [rbind].
  rewrite HY, Hpts, Hsplit. cbn [rbind].
  destruct (datagen a), (output_names a) as [[|name names]|]; reflexivity.
Qed.

Lemma split_points_realigned_witness :
  (reachable pointed_augmenter
   ∧ Y pointed_augmenter = None
   ∧ points pointed_augmenter = Some five_frames
   ∧ (num_samples pointed_augmenter ≤ length five_frames)%nat
   ∧ keeps_keypoints shift_right
   ∧ keeps_images shift_right
   ∧ - Z.of_nat (len pointed_augmenter) ≤ 1 < Z.of_nat (len pointed_augmenter))
  ∧ getitem pointed_augmenter shift_right 1
    = Ok (take 2 five_images,
          inl (TPoints [[[(5, 4)]]; [[(6, 5)]; [(7, 6); (8, 7)]]]%Q)).
Proof.
  assert (Hlen : (num_samples pointed_augmenter ≤ length five_frames)%nat)
    by (change (5 ≤ 5)%nat; lia).
  assert (Himages : keeps_images shift_right) by (intros images; reflexivity).
  assert (Hidx : - Z.of_nat (len pointed_augmenter) ≤ 1
                 < Z.of_nat (len pointed_augmenter))
    by (change (- 3 ≤ 1 < 3); lia).
  split.
  { split; [exact pointed_augmenter_reachable|].
    split; [reflexivity|]. split; [reflexivity|]. split; [exact Hlen|].
    split; [exact shift_right_keeps_keypoints|]. split; [exact Himages | exact Hidx]. }
  destruct (split_points_realigned pointed_augmenter shift_right five_frames 1
              pointed_augmenter_reachable eq_refl eq_refl Hlen
              shift_right_keeps_keypoints Himages Hidx)
    as (idx & Xb & frames & kois & split_points & _ & _ & _ & _ & Hget & _).
  rewrite Hget. vm_compute in Hget. injection Hget as <- <-.
  vm_compute. reflexivity.
Defined.

End Realign.

(** ** Form defaults *)

Module FormDefaults.
Import FormBuilder Claims Samples.

(** C6, at an input where it fails.  The form with a double field of
    default 150 and an int field of default -1 is built without error; read
    back untouched it gives 99.99 and 0, the nearest values in the ranges
    of fresh spin boxes.  Only an int default above 99 has its range
    widened. *)
Theorem spin_box_defaults_clamped :
  well_formed_items rate_and_offset
  ∧ (∃ l, FormBuilderLayout rate_and_offset = Ok l
          ∧ get_form_data l !! str "rate" = Some (FDouble (9999 # 100))
          ∧ get_form_data l !! str "offset" = Some (FInt 0))
  ∧ ¬ defaults_round_trip rate_and_offset.
Proof.
  split; [|split].
  - split.
    + repeat constructor; rewrite ?elem_of_cons, ?elem_of_nil; intros H;
        repeat destruct H as [H|H]; discriminate || done.
    + repeat constructor; try discriminate; unfold supported_type;
        rewrite !elem_of_cons; auto 10.
  - eexists. split; [vm_compute; reflexivity|]. split; vm_compute; reflexivity.
  - intros (l & Hl & Hdefaults).
    vm_compute in Hl. injection Hl as <-.
    specialize (Hdefaults _ (list_elem_of_here _ _)).
    vm_compute in Hdefaults. discriminate Hdefaults.
Qed.

(** *** Defaults that fit their widget *)

Lemma foldl_addItem (opts items : list pystr) (idx : Z) :
  foldl (λ acc opt, let? f := acc in addItem f opt) (Ok (QComboBox items idx)) opts
  = Ok (QComboBox (items ++ opts)
          (if bool_decide (items = [])
           then if bool_decide (opts = []) then idx else 0
           else idx)).
Proof.
  revert items idx. induction opts as [|opt opts IH]; intros items idx; simpl.
  - rewrite app_nil_r. by case_bool_decide.
  - rewrite IH, <- app_assoc. simpl.
    rewrite (bool_decide_eq_false_2 (items ++ [opt] = [])) by (by destruct items).
    reflexivity.
Qed.

Lemma list_index_elem (opts : list pystr) (d : pystr) :
  d ∈ opts → ∃ idx, list_index opts d = Some idx ∧ opts !! idx = Some d.
Proof.
  intros Hd. unfold list_index.
  destruct (list_find_elem_of (λ y, y = d) opts d Hd eq_refl) as [[idx y] Hfind].
  rewrite Hfind. exists idx. split; [reflexivity|].
  by apply list_find_Some in Hfind as (Hidx & -> & _).
Qed.

(** The widget made for a default that fits holds the default. *)
Lemma build_field_fits (it : item) :
  default_fits it →
  ∃ w, build_field it = Ok w
       ∧ get_widget_value w = item_default it
       ∧ is_label_or_button w = false.
Proof.
  unfold default_fits, build_field.
  case_bool_decide as Hdouble.
  { intros (q & -> & Hq). eexists. split; [reflexivity|]. simpl.
    by rewrite Hq. }
  case_bool_decide as Hint.
  { intros (z & -> & Hz). cbn [default_gt_99 default_times_10 rbind].
    unfold new_QSpinBox, setRange, setValue, as_int, INT_MIN, INT_MAX.
    case_bool_decide as Hbig; cbn [rbind].
    - rewrite (bool_decide_eq_true_2 (-2147483648 ≤ 0 ≤ 2147483647)) by lia.
      cbn [rbind].
      rewrite (bool_decide_eq_true_2 (-2147483648 ≤ z * 10 ≤ 2147483647)) by lia.
      cbn [rbind].
      rewrite (bool_decide_eq_true_2 (-2147483648 ≤ z ≤ 2147483647)) by lia.
      cbn [rbind].
      eexists. split; [reflexivity|]. simpl. split; [|reflexivity].
      f_equal. lia.
    - rewrite (bool_decide_eq_true_2 (-2147483648 ≤ z ≤ 2147483647)) by lia.
      cbn [rbind].
      eexists. split; [reflexivity|]. simpl. split; [|reflexivity].
      f_equal. lia. }
  case_bool_decide as Hbool.
  { intros (b & ->). exists (QCheckBox b). by destruct b. }
  case_bool_decide as Hlist.
  { intros (d & options & -> & -> & Hd).
    unfold new_QComboBox. rewrite foldl_addItem. cbn [rbind app].
    destruct (list_index_elem _ _ Hd) as (idx & -> & Hidx).
    unfold setCurrentIndex.
    rewrite bool_decide_eq_true_2 by (by eapply lookup_lt_Some).
    eexists. split; [reflexivity|]. simpl.
    rewrite bool_decide_eq_true_2 by lia. by rewrite Nat2Z.id, Hidx. }
  intros (s & -> & Hs). unfold new_QLineEdit, setText. cbn [as_QString rbind].
  rewrite (bool_decide_eq_true_2 _ Hs). cbn [rbind].
  case_bool_decide; eexists; by split.
Qed.

(** One step of [get_form_data] over the widgets. *)
Lemma get_form_data_app (l extra : layout) :
  get_form_data (l ++ extra)
  = foldl (λ data w,
             if bool_decide (length (objectName w) ≠ 0%nat)
                && negb (is_label_or_button (kind w))
             then <[objectName w := get_widget_value (kind w)]> data
             else data)
          (get_form_data l) extra.
Proof. unfold get_form_data. apply foldl_app. Qed.

Lemma get_form_data_addRow (l : layout) (label name : pystr) (w : widget) :
  get_form_data (addRow l label (QWidget name w))
  = if bool_decide (length name ≠ 0%nat) && negb (is_label_or_button w)
    then <[name := get_widget_value w]> (get_form_data l)
    else get_form_data l.
Proof.
  unfold addRow. rewrite get_form_data_app.
  case_bool_decide; reflexivity.
Qed.

(** A row for a default that fits adds the default under the name of the
    field. *)
Lemma build_row_fits (l : layout) (it : item) :
  item_name it ≠ [] → default_fits it →
  ∃ l', build_row l it = Ok l'
        ∧ get_form_data l' = <[item_name it := item_default it]> (get_form_data l).
Proof.
  intros Hname Hfits. unfold build_row.
  destruct (build_field_fits it Hfits) as (w & -> & Hvalue & Hkind).
  cbn [rbind].
  assert (Hrow : get_form_data (addRow l (item_label it ++ str ":")
                                  (QWidget (item_name it) w))
                 = <[item_name it := item_default it]> (get_form_data l)).
  { rewrite get_form_data_addRow, Hkind, Hvalue.
    rewrite bool_decide_eq_true_2; [reflexivity|].
    by destruct (item_name it). }
  case_bool_decide; eexists; (split; [reflexivity|]); [|exact Hrow].
  by rewrite get_form_data_addRow.
Qed.

Lemma build_form_raise (e : exn) (items : list item) :
  foldl (λ acc it, let? l := acc in build_row l it) (Raise e) items = Raise e.
Proof. induction items as [|it items IH]; simpl; [reflexivity | exact IH]. Qed.

Lemma build_form_fits (items : list item) (l : layout) :
  Forall (λ it, item_name it ≠ []) items →
  Forall default_fits items →
  ∃ l', build_form l items = Ok l'
        ∧ get_form_data l'
          = foldl (λ data it, <[item_name it := item_default it]> data)
              (get_form_data l) items.
Proof.
  revert l. induction items as [|it items IH]; intros l Hnames Hfits.
  - by exists l.
  - apply Forall_cons in Hnames as [Hname Hnames].
    apply Forall_cons in Hfits as [Hfit Hfits].
    destruct (build_row_fits l it Hname Hfit) as (l1 & Hrow & Hdata).
    destruct (IH l1 Hnames Hfits) as (l' & Hform & Hdata').
    exists l'. unfold build_form in *. simpl. rewrite Hrow.
    split; [exact Hform|]. by rewrite Hdata', Hdata.
Qed.

Lemma foldl_insert_other (items : list item) (data : gmap pystr value)
    (name : pystr) :
  name ∉ map item_name items →
  foldl (λ data it, <[item_name it := item_default it]> data) data items !! name
  = data !! name.
Proof.
  revert data. induction items as [|it items IH]; intros data Hname; simpl;
    [reflexivity|].
  simpl in Hname. apply not_elem_of_cons in Hname as [Hne Hname].
  rewrite IH by done. by apply lookup_insert_ne.
Qed.

Lemma foldl_insert_lookup (items : list item) (data : gmap pystr value)
    (it : item) :
  NoDup (map item_name items) → it ∈ items →
  foldl (λ data it, <[item_name it := item_default it]> data) data items
    !! item_name it
  = Some (item_default it).
Proof.
  revert data. induction items as [|it' items IH]; intros data Hnodup Hin.
  - by apply elem_of_nil in Hin.
  - simpl in *. apply NoDup_cons in Hnodup as [Hfresh Hnodup].
    apply elem_of_cons in Hin as [-> | Hin].
    + rewrite foldl_insert_other by done. apply lookup_insert_eq.
    + by apply IH.
Qed.

(** Where every default fits its widget, the form gives the defaults
    back. *)
Lemma fitting_defaults_round_trip (items : list item) :
  well_formed_items items →
  Forall default_fits items →
  defaults_round_trip items.
Proof.
  intros [Hnodup Hwf] Hfits.
  destruct (build_form_fits items []) as (l & Hl & Hdata); [|done|].
  { eapply Forall_impl; [exact Hwf|]. by intros it [Hname _]. }
  exists l. split; [exact Hl|]. intros it Hin.
  rewrite Hdata. by apply foldl_insert_lookup.
Qed.

Example one_of_each_round_trip : defaults_round_trip one_of_each.
Proof.
  apply fitting_defaults_round_trip.
  - split.
    + repeat constructor; rewrite ?elem_of_cons, ?elem_of_nil; intros H;
        repeat destruct H as [H|H]; discriminate || done.
    + repeat constructor; try discriminate; unfold supported_type;
        rewrite !elem_of_cons; auto 10.
  - repeat constructor; unfold default_fits; simpl.
    + eexists. split; reflexivity.
    + eexists. split; [reflexivity | lia].
    + eexists. reflexivity.
    + eexists _, _. repeat split. vm_compute.
      apply list_elem_of_further, list_elem_of_here.
    + eexists. split; [reflexivity | vm_compute; discriminate].
    + eexists. split; [reflexivity | vm_compute; discriminate].
    + eexists. split; [reflexivity | vm_compute; discriminate].
Qed.

End FormDefaults.

(** ** Repaired paths *)

Module Resolve.
Import Np Ext PosixPath VideoIO Claims Samples IOFacts Construction.

(** A string that [fixup_path] returns names something that exists. *)
Lemma fixup_path_str_exists (w : world) (p : pystr) (found : pyval) :
  outcome (fixup_path (VStr p)) w = Ok found →
  ∃ r, found = VStr r ∧ os_path_exists w r = true.
Proof.
  rewrite PathRepair.fixup_path_outcome.
  destruct (first_existing w (resolution_strategies p)) as [[i r]|] eqn:Hfind;
    [|discriminate].
  intros [= <-]. exists r. split; [reflexivity|].
  by apply list_find_Some in Hfind as (_ & Hr & _).
Qed.

Lemma fixup_path_found_exists (w : world) (path : pyval) (r : pystr) :
  outcome (fixup_path path) w = Ok (VStr r) →
  path = VStr r ∨ os_path_exists w r = true.
Proof.
  destruct path as [p| | | | | |]; try (intros [= <-]; by left).
  intros H. right.
  by destruct (fixup_path_str_exists _ _ _ H) as (r' & [= <-] & Hex).
Qed.

(** X1. What [fixup_path] returns exists, and repairing it again returns
    it after one question. *)
Theorem fixup_path_idempotent (w : world) (path found : pyval) :
  outcome (fixup_path path) w = Ok found →
  (∀ r, found = VStr r → os_path_exists w r = true)
  ∧ run (fixup_path found) w
    = (match found with VStr r => [CallExists r] | _ => [] end, Ok found).
Proof.
  destruct path as [p| | | | | |]; try (by intros [= <-]).
  intros H. destruct (fixup_path_str_exists _ _ _ H) as (r & -> & Hr).
  split; [by intros ? [= <-]|].
  unfold fixup_path, exists_. rewrite run_call_bind, Hr. reflexivity.
Qed.

Lemma repair_key_outcome (w : world) (key : pystr) (y y' : gmap pystr pyval) :
  outcome (repair_key key y) w = Ok y' →
  dom y' = dom y
  ∧ (∀ k, k ≠ key → y' !! k = y !! k)
  ∧ (∀ r, y' !! key = Some (VStr r) →
          y !! key = Some (VStr r) ∨ os_path_exists w r = true).
Proof.
  unfold repair_key. destruct (y !! key) as [path|] eqn:Hkey.
  - rewrite outcome_bind.
    destruct (outcome (fixup_path path) w) as [found|] eqn:Hfix; [|discriminate].
    intros [= <-]. split; [|split].
    + apply set_eq. intros k. rewrite dom_insert, elem_of_union, elem_of_singleton.
      split; [|by right]. intros [-> | Hk]; [|done].
      apply elem_of_dom. by rewrite Hkey.
    + intros k Hk. by apply lookup_insert_ne.
    + intros r. rewrite lookup_insert_eq. intros [= ->].
      destruct (fixup_path_found_exists _ _ _ Hfix) as [-> | Hex]; auto.
  - intros [= <-]. split; [done|]. split; [done|]. intros r Hr.
    rewrite Hkey in Hr. discriminate Hr.
Qed.

(** X2. The dictionary that [fixup_video] hands to the class has the keys
    it was given; only the values under [filename] and [file] can differ,
    and a string under them that was changed names something that
    exists. *)
Theorem fixup_video_repairs {R : Type} (x : gmap pystr pyval)
    (cl : gmap pystr pyval → IO R) (w : world) (res : R) :
  outcome (fixup_video x cl) w = Ok res →
  ∃ x', outcome (cl x') w = Ok res
        ∧ dom x' = dom x
        ∧ (∀ key, key ≠ str "filename" → key ≠ str "file" → x' !! key = x !! key)
        ∧ (∀ key r, key = str "filename" ∨ key = str "file" →
                    x' !! key = Some (VStr r) →
                    x !! key = Some (VStr r) ∨ os_path_exists w r = true).
Proof.
  unfold fixup_video. rewrite outcome_bind.
  destruct (outcome (repair_key (str "filename") x) w) as [x1|] eqn:H1;
    [|discriminate].
  rewrite outcome_bind.
  destruct (outcome (repair_key (str "file") x1) w) as [x2|] eqn:H2;
    [|discriminate].
  intros Hcl. exists x2. split; [exact Hcl|].
  apply repair_key_outcome in H1 as (Hdom1 & Hother1 & Hfixed1).
  apply repair_key_outcome in H2 as (Hdom2 & Hother2 & Hfixed2).
  split; [congruence|]. split.
  - intros key Hn1 Hn2. rewrite Hother2, Hother1; done.
  - intros key r [-> | ->] Hr.
    + rewrite Hother2 in Hr by discriminate. by apply Hfixed1.
    + destruct (Hfixed2 r Hr) as [Hsame | Hex]; [|by right].
      left. rewrite <- Hother1; done.
Qed.

Lemma fixup_path_idempotent_witness :
  outcome (fixup_path (VStr (str "/mnt/rig2/clip.npy"))) lab_world
  = Ok (VStr (str "clip.npy"))
  ∧ os_path_exists lab_world (str "clip.npy") = true
  ∧ run (fixup_path (VStr (str "clip.npy"))) lab_world
    = ([CallExists (str "clip.npy")], Ok (VStr (str "clip.npy"))).
Proof.
  assert (H : outcome (fixup_path (VStr (str "/mnt/rig2/clip.npy"))) lab_world
              = Ok (VStr (str "clip.npy"))) by (vm_compute; reflexivity).
  split; [exact H|].
  destruct (fixup_path_idempotent lab_world _ _ H) as [Hex Hrun].
  split; [by apply Hex | exact Hrun].
Defined.

Lemma fixup_video_repairs_witness :
  outcome (fixup_video saved_video (λ x, mret x)) lab_world
  = Ok (<[str "filename" := VStr (str "clip.npy")]> saved_video)
  ∧ ∃ x', outcome (mret x') lab_world
          = Ok (<[str "filename" := VStr (str "clip.npy")]> saved_video)
          ∧ dom x' = dom saved_video
          ∧ (∀ key, key ≠ str "filename" → key ≠ str "file" →
                    x' !! key = saved_video !! key)
          ∧ (∀ key r, key = str "filename" ∨ key = str "file" →
                      x' !! key = Some (VStr r) →
                      saved_video !! key = Some (VStr r)
                      ∨ os_path_exists lab_world r = true).
Proof.
  assert (H : outcome (fixup_video saved_video (λ x, mret x)) lab_world
              = Ok (<[str "filename" := VStr (str "clip.npy")]> saved_video))
    by (vm_compute; reflexivity).
  split; [exact H|].
  exact (fixup_video_repairs saved_video (λ x, mret x) lab_world _ H).
Defined.

Lemma HDF5Video_new_filename (w : world) (r : pystr) (dataset : pyval)
    (fmt : pystr) (convert_range : bool) (b : HDF5Video) :
  outcome (HDF5Video_new (VStr r) dataset fmt convert_range) w = Ok b →
  hdf5_filename b = VStr r.
Proof.
  unfold HDF5Video_new. rewrite outcome_bind.
  change (outcome (io_lift ?x) w) with x.
  destruct (HDF5Video_check fmt) as [[[c wd] h]|]; [|discriminate].
  rewrite outcome_bind, outcome_bind, outcome_call.
  destruct (h5_File w r) as [f|]; [|discriminate].
  change (outcome (io_ret ?x) w) with (Ok x). cbn iota beta.
  rewrite outcome_bind.
  destruct dataset as [name| | |d| | |];
    try (by intros [= <-]).
  rewrite outcome_bind. change (outcome (io_lift ?x) w) with x.
  destruct (h5_getitem f name); [|discriminate]. by intros [= <-].
Qed.

Lemma NumpyVideo_new_filename (w : world) (r : pystr) (b : NumpyVideo) :
  outcome (NumpyVideo_new (VStr r)) w = Ok b → numpy_filename b = VStr r.
Proof.
  unfold NumpyVideo_new. rewrite outcome_bind, outcome_bind, outcome_call.
  destruct (np_load w r); [|discriminate]. by intros [= <-].
Qed.

Lemma MediaVideo_new_filename (w : world) (r : pystr) (grayscale : option bool)
    (bgr : bool) (b : MediaVideo) :
  outcome (MediaVideo_new (VStr r) grayscale bgr) w = Ok b →
  media_filename b = r.
Proof.
  unfold MediaVideo_new, isfile. rewrite outcome_bind, outcome_call.
  destruct (os_path_isfile w r); [|discriminate]. cbn [negb].
  rewrite outcome_bind, outcome_call, outcome_bind.
  change (outcome (io_lift ?x) w) with x.
  destruct (MediaVideo_get_frame _ 0 (Some false)) as [[v1 tf]|]; [|discriminate].
  destruct (bool_decide (grayscale = None)).
  - rewrite outcome_bind. change (outcome (io_lift ?x) w) with x.
    destruct (subscript tf (λ a, ellipsis_getitem a 0)); [|discriminate].
    rewrite outcome_bind. change (outcome (io_lift ?x) w) with x.
    destruct (subscript tf (λ a, ellipsis_getitem a (-1))); [|discriminate].
    by intros [= <-].
  - by intros [= <-].
Qed.

(** X3. A video that [from_hdf5], [from_numpy] or [from_media] builds
    from a path holds the path that [fixup_path] found, and that path
    exists. *)
Theorem named_constructors_keep_repaired_path (w : world) (p : pystr) :
  (∀ dataset fmt convert_range v,
     outcome (from_hdf5 dataset (VStr p) fmt convert_range) w = Ok v →
     ∃ b r, v = MkVideo (BHDF5 b)
            ∧ outcome (fixup_path (VStr p)) w = Ok (VStr r)
            ∧ hdf5_filename b = VStr r ∧ os_path_exists w r = true)
  ∧ (∀ v, outcome (from_numpy (VStr p)) w = Ok v →
       ∃ b r, v = MkVideo (BNumpy b)
              ∧ outcome (fixup_path (VStr p)) w = Ok (VStr r)
              ∧ numpy_filename b = VStr r ∧ os_path_exists w r = true)
  ∧ (∀ grayscale bgr v,
       outcome (from_media (VStr p) grayscale bgr) w = Ok v →
       ∃ b r, v = MkVideo (BMedia b)
              ∧ outcome (fixup_path (VStr p)) w = Ok (VStr r)
              ∧ media_filename b = r ∧ os_path_exists w r = true).
Proof.
  pose proof (fixup_path_str_exists w p) as Hfix.
  split; [|split].
  - intros dataset fmt cr v. unfold from_hdf5. rewrite outcome_bind.
    destruct (outcome (fixup_path (VStr p)) w) as [found|] eqn:Hf; [|discriminate].
    destruct (Hfix found eq_refl) as (r & -> & Hex).
    rewrite outcome_bind.
    destruct (outcome (HDF5Video_new _ _ _ _) w) as [b|] eqn:Hb; [|discriminate].
    intros [= <-]. exists b, r. repeat split; [|exact Hex].
    by eapply HDF5Video_new_filename.
  - intros v. unfold from_numpy. rewrite outcome_bind.
    destruct (outcome (fixup_path (VStr p)) w) as [found|] eqn:Hf; [|discriminate].
    destruct (Hfix found eq_refl) as (r & -> & Hex).
    rewrite outcome_bind.
    destruct (outcome (NumpyVideo_new _) w) as [b|] eqn:Hb; [|discriminate].
    intros [= <-]. exists b, r. repeat split; [|exact Hex].
    by eapply NumpyVideo_new_filename.
  - intros grayscale bgr v. unfold from_media. rewrite outcome_bind.
    destruct (outcome (fixup_path (VStr p)) w) as [found|] eqn:Hf; [|discriminate].
    destruct (Hfix found eq_refl) as (r & -> & Hex).
    rewrite outcome_bind.
    destruct (outcome (MediaVideo_new _ _ _) w) as [b|] eqn:Hb; [|discriminate].
    intros [= <-]. exists b, r. repeat split; [|exact Hex].
    by eapply MediaVideo_new_filename.
Qed.

End Resolve.

(** ** HDF5 videos from h5py objects *)

Module Datasets.
Import Np Ext PosixPath VideoIO Claims Samples IOFacts Construction NpFacts.

(** X4. [Video.from_hdf5] with a dataset object and a file name that is no
    string makes no call outside the program; the video reads the dataset
    it was given, holds the file of the dataset and the name of the
    dataset, and keeps the file name it was given (the name of the file
    for a file object). *)
Theorem from_hdf5_dataset_object (w : world) (filename : pyval) (d : h5dataset)
    (fmt : pystr) (convert_range : bool) :
  valid_input_format fmt →
  type_is_str filename = false →
  ∃ b, run (from_hdf5 (VH5Dataset d) filename fmt convert_range) w
       = ([], Ok (MkVideo (BHDF5 b)))
       ∧ hdf5_dataset_h5 b = Some d
       ∧ hdf5_file_h5 b = Some (ds_file d)
       ∧ hdf5_dataset b = VStr (ds_name d)
       ∧ hdf5_filename b = match filename with
                           | VH5File f => VStr (h5_filename f)
                           | _ => filename
                           end
       ∧ Video_len (MkVideo (BHDF5 b)) = shape_at (ds_array d) 0.
Proof.
  intros Hfmt Hstr. unfold from_hdf5. rewrite run_bind.
  assert (Hfix : run (fixup_path filename) w = ([], Ok filename))
    by (destruct filename; try discriminate Hstr; reflexivity).
  rewrite Hfix. cbn [fst snd app]. rewrite run_bind.
  unfold HDF5Video_new. rewrite run_lift_bind, (HDF5Video_check_valid _ Hfmt).
  destruct (bool_decide (fmt = channels_first));
    destruct filename; try discriminate Hstr;
    (eexists; split; [reflexivity|]; repeat split).
Qed.

(** [file[name]] is the dataset of the file whose name has the components
    of [name], under its absolute name. *)
Lemma h5_getitem_found (f : h5file) (name key : pystr) (a : ndarray) (t : dtype) :
  h5_components name ≠ [] →
  (key, (a, t)) ∈ h5_datasets f →
  h5_components key = h5_components name →
  (∀ key' a' t', (key', (a', t')) ∈ h5_datasets f →
                 h5_components key' = h5_components name →
                 (a', t') = (a, t)) →
  h5_getitem f name = Ok (H5Dataset f (sep :: join_sep (h5_components name)) a t).
Proof.
  intros Hname Hin Hkey Hone. unfold h5_getitem.
  rewrite bool_decide_eq_false_2 by (by intros ->).
  destruct (list_find_elem_of
              (λ kv : pystr * (ndarray * dtype),
                 h5_components kv.1 = h5_components name)
              (h5_datasets f) (key, (a, t)) Hin Hkey) as [[i [k [a' t']]] Hfind].
  rewrite Hfind. apply list_find_Some in Hfind as (Hi & Hk & _). simpl in Hk.
  apply list_elem_of_lookup_2 in Hi.
  by injection (Hone k a' t' Hi Hk) as -> ->.
Qed.

Lemma h5_getitem_missing (f : h5file) (name : pystr) :
  h5_components name ≠ [] →
  (∀ key, key ∈ (h5_datasets f).*1 →
          ¬ h5_components name `prefix_of` h5_components key) →
  h5_getitem f name = Raise KeyError.
Proof.
  intros Hcomps Hname. unfold h5_getitem.
  rewrite bool_decide_eq_false_2 by (by intros ->).
  destruct (list_find _ (h5_datasets f)) as [[i [k [a t]]]|] eqn:Hfind;
    [|reflexivity].
  exfalso. apply list_find_Some in Hfind as (Hi & Hk & _). simpl in Hk.
  apply (Hname k).
  - apply list_elem_of_fmap. exists (k, (a, t)). split; [done|].
    by eapply list_elem_of_lookup_2.
  - by rewrite Hk.
Qed.

(** X5. An HDF5 video built from a file object and the name of a dataset
    takes its file name from the file and keeps the name of the dataset as
    it was given.  It reads the dataset that the name leads to from the
    root group, with or without a slash in front, and this dataset reports
    its absolute name; a name of which no dataset of the file has even the
    first components raises [KeyError], and a dataset name without a file
    raises [TypeError].  Nothing outside the program is called. *)
Theorem HDF5Video_dataset_by_name (w : world) (name fmt : pystr)
    (convert_range : bool) :
  valid_input_format fmt →
  (∀ f key a t,
     h5_components name ≠ [] →
     (key, (a, t)) ∈ h5_datasets f →
     h5_components key = h5_components name →
     (∀ key' a' t', (key', (a', t')) ∈ h5_datasets f →
                    h5_components key' = h5_components name →
                    (a', t') = (a, t)) →
     run (HDF5Video_new (VH5File f) (VStr name) fmt convert_range) w
     = ([], Ok (MkHDF5Video (VStr (h5_filename f)) (VStr name) fmt convert_range
                  (Some f)
                  (Some (H5Dataset f (sep :: join_sep (h5_components name)) a t))
                  (if bool_decide (fmt = channels_first) then 1 else 3)%nat
                  2%nat
                  (if bool_decide (fmt = channels_first) then 3 else 1)%nat)))
  ∧ (∀ f, h5_components name ≠ [] →
       (∀ key, key ∈ (h5_datasets f).*1 →
               ¬ h5_components name `prefix_of` h5_components key) →
       run (HDF5Video_new (VH5File f) (VStr name) fmt convert_range) w
       = ([], Raise KeyError))
  ∧ (∀ filename, type_is_str filename = false →
       (∀ f, filename ≠ VH5File f) →
       run (HDF5Video_new filename (VStr name) fmt convert_range) w
       = ([], Raise TypeError)).
Proof.
  intros Hfmt. split; [|split].
  - intros f key a t Hname Hin Hkey Hone. unfold HDF5Video_new.
    rewrite run_lift_bind, (HDF5Video_check_valid _ Hfmt).
    pose proof (h5_getitem_found f name key a t Hname Hin Hkey Hone) as Hd.
    destruct (bool_decide (fmt = channels_first)); cbn [mbind IO_bind];
      rewrite run_bind; cbn [run io_ret fst snd app];
      rewrite run_bind, run_lift_bind, Hd; reflexivity.
  - intros f Hcomps Hname. unfold HDF5Video_new.
    rewrite run_lift_bind, (HDF5Video_check_valid _ Hfmt).
    pose proof (h5_getitem_missing f name Hcomps Hname) as Hd.
    destruct (bool_decide (fmt = channels_first));
      rewrite run_bind; cbn [run io_ret fst snd app];
      rewrite run_bind, run_lift_bind, Hd; reflexivity.
  - intros filename Hstr Hfile. unfold HDF5Video_new.
    rewrite run_lift_bind, (HDF5Video_check_valid _ Hfmt).
    destruct (bool_decide (fmt = channels_first));
      destruct filename as [| |f| | | |]; try discriminate Hstr;
      try (by destruct (Hfile f)); reflexivity.
Qed.

(** X6. [Video.from_filename] on an HDF5 file builds a video without a
    dataset: the number of its frames and its shape raise
    [AttributeError], and every fetch of a frame raises [TypeError]. *)
Theorem from_filename_hdf5_without_dataset (w : world) (name r : pystr)
    (v : Video) :
  outcome (fixup_path (VStr name)) w = Ok (VStr r) →
  is_hdf5_name r = true →
  outcome (from_filename (VStr name)) w = Ok v →
  Video_len v = Raise AttributeError
  ∧ Video_shape v = Raise AttributeError
  ∧ ∀ idx w', run (Video_get_frame v idx) w' = ([], Raise TypeError).
Proof.
  intros Hfix Hname. rewrite (Dispatch.from_filename_resolved _ _ _ Hfix), Hname.
  unfold construct. rewrite outcome_bind.
  unfold outcome at 1. unfold HDF5Video_new.
  rewrite run_lift_bind. cbn [HDF5Video_check].
  change (HDF5Video_check channels_last) with (@Ok (nat * nat * nat) (3, 2, 1)%nat).
  cbn iota beta. rewrite run_bind, run_call_bind.
  destruct (h5_File w r) as [f|]; [|discriminate].
  cbn [run io_ret fst snd app mret IO_ret mbind IO_bind io_bind].
  intros [= <-]. repeat split.
Qed.

Lemma from_hdf5_dataset_object_witness :
  (valid_input_format channels_last ∧ type_is_str VNone = false)
  ∧ ∃ b, run (from_hdf5 (VH5Dataset unit_dataset) VNone channels_last true)
           empty_world
         = ([], Ok (MkVideo (BHDF5 b)))
         ∧ hdf5_dataset_h5 b = Some unit_dataset
         ∧ hdf5_file_h5 b = Some (ds_file unit_dataset)
         ∧ hdf5_dataset b = VStr (ds_name unit_dataset)
         ∧ hdf5_filename b = VNone
         ∧ Video_len (MkVideo (BHDF5 b)) = shape_at (ds_array unit_dataset) 0.
Proof.
  assert (Hfmt : valid_input_format channels_last) by (right; reflexivity).
  split; [split; [exact Hfmt | reflexivity]|].
  exact (from_hdf5_dataset_object empty_world VNone unit_dataset channels_last
           true Hfmt eq_refl).
Defined.

Lemma HDF5Video_dataset_by_name_witness :
  valid_input_format channels_last
  ∧ run (HDF5Video_new (VH5File (ds_file unit_dataset)) (VStr (str "box"))
           channels_last true) empty_world
    = ([], Ok (MkHDF5Video (VStr (str "unit.h5")) (VStr (str "box"))
                 channels_last true (Some (ds_file unit_dataset))
                 (Some unit_dataset) 3 2 1))
  ∧ ds_name unit_dataset = str "/box"
  ∧ run (HDF5Video_new (VH5File (ds_file unit_dataset)) (VStr (str "lost"))
           channels_last true) empty_world
    = ([], Raise KeyError)
  ∧ run (HDF5Video_new VNone (VStr (str "box")) channels_last true) empty_world
    = ([], Raise TypeError).
Proof.
  assert (Hfmt : valid_input_format channels_last) by (right; reflexivity).
  split; [exact Hfmt|]. split; [|split; [reflexivity|split]].
  - destruct (HDF5Video_dataset_by_name empty_world (str "box") channels_last
                true Hfmt) as (Hfound & _ & _).
    apply (Hfound (ds_file unit_dataset) (str "/box") (ds_array unit_dataset)
             Float64).
    + discriminate.
    + apply list_elem_of_here.
    + reflexivity.
    + intros key' a' t' Hin _. change (h5_datasets (ds_file unit_dataset))
        with [(str "/box", (ds_array unit_dataset, Float64))] in Hin.
      apply list_elem_of_singleton in Hin. by injection Hin as _ -> ->.
  - destruct (HDF5Video_dataset_by_name empty_world (str "lost") channels_last
                true Hfmt) as (_ & Hkey & _).
    apply Hkey; [discriminate|].
    intros key Hin. change (key ∈ [str "/box"]) in Hin.
    apply list_elem_of_singleton in Hin as ->.
    intros [rest Hrest]. vm_compute in Hrest. discriminate Hrest.
  - destruct (HDF5Video_dataset_by_name empty_world (str "box") channels_last
                true Hfmt) as (_ & _ & Htype).
    apply Htype; [reflexivity | discriminate].
Defined.

Lemma from_filename_hdf5_without_dataset_witness :
  (outcome (fixup_path (VStr (str "/old/box.h5"))) lab_world
   = Ok (VStr (str "box.h5"))
   ∧ is_hdf5_name (str "box.h5") = true)
  ∧ ∃ v, outcome (from_filename (VStr (str "/old/box.h5"))) lab_world = Ok v
         ∧ Video_len v = Raise AttributeError
         ∧ Video_shape v = Raise AttributeError
         ∧ ∀ idx w', run (Video_get_frame v idx) w' = ([], Raise TypeError).
Proof.
  split; [split; vm_compute; reflexivity|].
  eexists. split; [vm_compute; reflexivity|].
  apply (from_filename_hdf5_without_dataset lab_world (str "/old/box.h5")
           (str "box.h5")); vm_compute; reflexivity.
Defined.

(** *** Frames that are not in the range 0 to 1 *)

Lemma Qmax2_upper (a b : Q) : (a <= Qmax2 a b)%Q ∧ (b <= Qmax2 a b)%Q.
Proof.
  unfold Qmax2. destruct (Qle_bool a b) eqn:Hle.
  - apply Qle_bool_iff in Hle. split; [exact Hle | apply Qle_refl].
  - split; [apply Qle_refl|]. apply Qlt_le_weak, Qnot_le_lt.
    intros H. apply Qle_bool_iff in H. congruence.
Qed.

Lemma foldl_Qmax2_upper (l : list Q) (x q : Q) :
  q ∈ x :: l → (q <= foldl Qmax2 x l)%Q.
Proof.
  revert x q. induction l as [|y l IH]; intros x q Hq; simpl.
  - apply elem_of_cons in Hq as [-> | Hq]; [apply Qle_refl|].
    by apply elem_of_nil in Hq.
  - destruct (Qmax2_upper x y) as [Hx Hy].
    apply elem_of_cons in Hq as [-> | Hq].
    + eapply Qle_trans; [exact Hx|]. apply IH, list_elem_of_here.
    + apply elem_of_cons in Hq as [-> | Hq].
      * eapply Qle_trans; [exact Hy|]. apply IH, list_elem_of_here.
      * by apply IH, list_elem_of_further.
Qed.

(** X7. A frame of an HDF5 video with a value above 1 comes back as it was
    fetched, whether [convert_range] is set or not. *)
Theorem HDF5Video_get_frame_keeps_wide_range (v : HDF5Video) (idx : Z)
    (frame : ndarray) (q : Q) :
  HDF5Video_fetched_frame v idx = Ok frame →
  q ∈ data frame →
  (1 < q)%Q →
  HDF5Video_get_frame v idx = Ok frame.
Proof.
  unfold HDF5Video_fetched_frame, HDF5Video_get_frame. intros Hfetch Hq Hwide.
  destruct (match hdf5_dataset_h5 v with
            | Some d => getitem (ds_array d) idx
            | None => Raise TypeError
            end) as [raw|]; simpl in *; [|discriminate].
  rewrite Hfetch. simpl. destruct (hdf5_convert_range v); [|reflexivity].
  unfold amax. destruct (data frame) as [|x l] eqn:Hdata.
  { by apply elem_of_nil in Hq. }
  simpl. pose proof (foldl_Qmax2_upper l x q Hq) as Hmax.
  destruct (Qle_bool (foldl Qmax2 x l) 1) eqn:Hle; [|reflexivity].
  apply Qle_bool_iff in Hle. exfalso.
  apply (Qlt_irrefl 1). eapply Qlt_le_trans; [exact Hwide|].
  eapply Qle_trans; [exact Hmax | exact Hle].
Qed.

Lemma HDF5Video_get_frame_keeps_wide_range_witness :
  (HDF5Video_fetched_frame bright_video 0
   = Ok (NdArray [1; 2; 1]%nat [1 # 2; 200]%Q)
   ∧ (200 : Q) ∈ data (NdArray [1; 2; 1]%nat [1 # 2; 200]%Q)
   ∧ (1 < 200)%Q)
  ∧ HDF5Video_get_frame bright_video 0
    = Ok (NdArray [1; 2; 1]%nat [1 # 2; 200]%Q).
Proof.
  assert (Hin : (200 : Q) ∈ data (NdArray [1; 2; 1]%nat [1 # 2; 200]%Q))
    by (simpl; apply list_elem_of_further, list_elem_of_here).
  split; [split; [reflexivity | split; [exact Hin | reflexivity]]|].
  exact (HDF5Video_get_frame_keeps_wide_range bright_video 0 _ 200
           eq_refl Hin eq_refl).
Defined.

End Datasets.

(** ** Subscripting a video *)

Module Subscripts.
Import Np Ext PosixPath VideoIO Samples IOFacts Construction.

Lemma slice_bound_between (bound : option Z) (size lower upper dflt : Z) :
  lower ≤ 0 → size - 1 ≤ upper → lower ≤ dflt ≤ upper →
  lower ≤ slice_bound bound size lower upper dflt ≤ upper.
Proof.
  intros Hl Hu Hd. unfold slice_bound. destruct bound as [b|]; [|done].
  repeat case_bool_decide; lia.
Qed.

(** The bounds that [slice.indices] returns for a sequence of [size]
    entries. *)
Lemma slice_indices_between (s : pyslice) (size start stop step : Z) :
  0 ≤ size →
  slice_indices s size = Ok (start, stop, step) →
  (0 < step ∧ 0 ≤ start ≤ size ∧ 0 ≤ stop ≤ size)
  ∨ (step < 0 ∧ -1 ≤ start ≤ size - 1 ∧ -1 ≤ stop ≤ size - 1).
Proof.
  intros Hsize. unfold slice_indices.
  case_bool_decide as Hzero; [discriminate|].
  case_bool_decide as Hneg; intros [= <- <- <-].
  - right. split; [done|].
    split; apply slice_bound_between; lia.
  - left. split; [lia|].
    split; apply slice_bound_between; lia.
Qed.

(** The numbers of a range lie between its start and its stop. *)
Lemma py_range_between (start stop step : Z) (l : list Z) (i : Z) :
  py_range start stop step = Ok l → i ∈ l →
  (0 < step ∧ start ≤ i < stop) ∨ (step < 0 ∧ stop < i ≤ start).
Proof.
  unfold py_range. case_bool_decide as Hzero; [discriminate|].
  case_bool_decide as Hpos.
  - case_bool_decide as Hempty; intros [= <-] Hi.
    + by apply elem_of_nil in Hi.
    + apply list_elem_of_fmap in Hi as (k & -> & Hk).
      apply elem_of_seq in Hk. left. split; [done|].
      assert (Hq : Z.of_nat k ≤ (stop - start - 1) / step) by lia.
      pose proof (Z.mul_div_le (stop - start - 1) step Hpos). nia.
  - case_bool_decide as Hempty; intros [= <-] Hi.
    + by apply elem_of_nil in Hi.
    + apply list_elem_of_fmap in Hi as (k & -> & Hk).
      apply elem_of_seq in Hk. right. split; [lia|].
      assert (Hq : Z.of_nat k ≤ (start - stop - 1) / - step) by lia.
      pose proof (Z.mul_div_le (start - stop - 1) (- step) ltac:(lia)). nia.
Qed.

Lemma py_range_total (start stop step : Z) :
  step ≠ 0 → ∃ l, py_range start stop step = Ok l.
Proof.
  intros H. unfold py_range. rewrite bool_decide_eq_false_2 by done.
  destruct (if bool_decide (0 < step) then (start, stop, step)
            else (stop, start, - step)) as [[lo hi] stride].
  by eexists.
Qed.

(** X8. A slice of a video asks only for frames that the video has. *)
Theorem getitem_slice_in_range (v : Video) (s : pyslice) (n : nat) (w : world) :
  Video_num_frames v = Ok n →
  (slice_step s = Some 0 →
   run (Video_getitem v (KeySlice s)) w = ([], Raise ValueError))
  ∧ (slice_step s ≠ Some 0 →
     ∃ idxs, run (Video_getitem v (KeySlice s)) w
             = run (Video_get_frames v (Iterable idxs)) w
             ∧ Forall (λ i, 0 ≤ i < Z.of_nat n) idxs).
Proof.
  intros Hn. unfold Video_getitem. rewrite run_lift_bind, Hn. split.
  - intros Hstep. rewrite run_lift_bind. unfold slice_indices. rewrite Hstep.
    reflexivity.
  - intros Hstep. rewrite run_lift_bind.
    destruct (slice_indices s (Z.of_nat n)) as [[[start stop] step]|] eqn:Hs.
    + pose proof (slice_indices_between _ _ _ _ _ (Zle_0_nat n) Hs) as Hb.
      destruct (py_range_total start stop step) as [l Hl]; [lia|].
      exists l. rewrite run_lift_bind, Hl. split; [reflexivity|].
      apply Forall_forall. intros i Hi.
      pose proof (py_range_between _ _ _ _ _ Hl Hi). lia.
    + exfalso. revert Hs. unfold slice_indices.
      case_bool_decide as Hzero; [|discriminate].
      destruct (slice_step s) as [c|]; simpl in Hzero; [|discriminate].
      by subst c.
Qed.

Lemma getitem_slice_in_range_witness :
  Video_num_frames pair_video = Ok 2%nat
  ∧ ∃ idxs, run (Video_getitem pair_video
                   (KeySlice (PySlice (Some (-1)) None None))) empty_world
            = run (Video_get_frames pair_video (Iterable idxs)) empty_world
            ∧ Forall (λ i, 0 ≤ i < Z.of_nat 2) idxs.
Proof.
  split; [reflexivity|].
  destruct (getitem_slice_in_range pair_video (PySlice (Some (-1)) None None)
              2 empty_world eq_refl) as [_ H].
  apply H. discriminate.
Defined.

Lemma fetch_frames_length (v v' : Video) (idxs : list Z) (w : world)
    (fs : list (option ndarray)) :
  outcome (fetch_frames v idxs) w = Ok (v', fs) → length fs = length idxs.
Proof.
  revert v fs. induction idxs as [|idx idxs IH]; intros v fs; simpl.
  - change (outcome (mret (v, [])) w) with (Ok (v, @nil (option ndarray))).
    by intros [= _ <-].
  - rewrite outcome_bind.
    destruct (outcome (Video_get_frame v idx) w) as [[v1 f]|]; [|discriminate].
    rewrite outcome_bind.
    destruct (outcome (fetch_frames v1 idxs) w) as [[v2 fs']|] eqn:Hrest;
      [|discriminate].
    intros [= <- <-]. simpl. f_equal. by eapply IH.
Qed.

Lemma all_arrays_Some (fs : list (option ndarray)) (numeric : list ndarray) :
  all_arrays fs = Some numeric → fs = map Some numeric.
Proof.
  revert numeric. induction fs as [|[a|] fs IH]; intros numeric; simpl.
  - by intros [= <-].
  - destruct (all_arrays fs) as [rest|]; [|discriminate].
    intros [= <-]. simpl. f_equal. by apply IH.
  - discriminate.
Qed.

(** A stack of numbers is made of frames of one shape, laid one after the
    other along a new first axis. *)
Lemma stack_Stacked (fs : list (option ndarray)) (r : ndarray) :
  stack fs = Ok (Stacked r) →
  ∃ frames s, fs = map Some frames
              ∧ Forall (λ f, shape f = s) frames
              ∧ r = NdArray (length frames :: s) (concat (map data frames)).
Proof.
  unfold stack. destruct fs as [|first rest]; [discriminate|].
  destruct (forallb _ rest) eqn:Hsame; [|discriminate].
  destruct (all_arrays (first :: rest)) as [numeric|] eqn:Hall; [|discriminate].
  intros [= <-]. apply all_arrays_Some in Hall.
  exists numeric, (asanyarray_shape first). split; [exact Hall|].
  destruct numeric as [|a numeric]; [discriminate|].
  injection Hall as -> ->. split; [|by rewrite length_map].
  constructor; [reflexivity|].
  apply Forall_forall. intros f Hf.
  rewrite forallb_forall in Hsame.
  specialize (Hsame (Some f)). rewrite bool_decide_eq_true in Hsame.
  apply Hsame. apply list_elem_of_In. by apply list_elem_of_fmap_2.
Qed.

(** X9. [get_frames] gives one frame per index, in the order of the
    indices, as one array with a new first axis. *)
Theorem get_frames_one_per_index (v v' : Video) (idxs : indices) (w : world)
    (r : ndarray) :
  outcome (Video_get_frames v idxs) w = Ok (v', Stacked r) →
  ∃ frames s,
    outcome (fetch_frames v (match idxs with
                             | Scalar idx => [idx]
                             | Iterable idxs => idxs
                             end)) w = Ok (v', map Some frames)
    ∧ length frames = match idxs with
                      | Scalar _ => 1%nat
                      | Iterable idxs => length idxs
                      end
    ∧ Forall (λ f, shape f = s) frames
    ∧ shape r = length frames :: s
    ∧ data r = concat (map data frames).
Proof.
  unfold Video_get_frames.
  set (l := match idxs with Scalar idx => [idx] | Iterable idxs => idxs end).
  assert (Hl : length l = match idxs with
                          | Scalar _ => 1%nat
                          | Iterable idxs => length idxs
                          end) by (by destruct idxs).
  rewrite outcome_bind.
  destruct (outcome (fetch_frames v l) w) as [[v1 fs]|] eqn:Hfetch; [|discriminate].
  rewrite outcome_bind. change (outcome (io_lift ?x) w) with x.
  destruct (stack fs) as [[a|items]|] eqn:Hstack; try discriminate.
  intros [= <- <-].
  apply stack_Stacked in Hstack as (frames & s & -> & Hshape & ->).
  exists frames, s. split; [reflexivity|].
  apply fetch_frames_length in Hfetch. rewrite length_map in Hfetch.
  split; [congruence|]. done.
Qed.

Lemma get_frames_one_per_index_witness :
  outcome (Video_get_frames pair_video (Iterable [1; 0])) empty_world
  = Ok (pair_video, Stacked (NdArray [2; 1; 1; 1]%nat [7; 3]%Q))
  ∧ ∃ frames s,
      outcome (fetch_frames pair_video [1; 0]) empty_world
      = Ok (pair_video, map Some frames)
      ∧ length frames = 2%nat
      ∧ Forall (λ f, shape f = s) frames
      ∧ shape (NdArray [2; 1; 1; 1]%nat [7; 3]%Q) = length frames :: s
      ∧ data (NdArray [2; 1; 1; 1]%nat [7; 3]%Q) = concat (map data frames).
Proof.
  assert (H : outcome (Video_get_frames pair_video (Iterable [1; 0])) empty_world
              = Ok (pair_video, Stacked (NdArray [2; 1; 1; 1]%nat [7; 3]%Q)))
    by reflexivity.
  split; [exact H|].
  exact (get_frames_one_per_index pair_video pair_video (Iterable [1; 0])
           empty_world _ H).
Defined.

(** X10. A slice without entries raises [ValueError], and no frame is
    asked for. *)
Theorem getitem_empty_slice (v : Video) (s : pyslice) (n : nat) (w : world)
    (start stop step : Z) :
  Video_num_frames v = Ok n →
  slice_indices s (Z.of_nat n) = Ok (start, stop, step) →
  (0 < step ∧ stop ≤ start) ∨ (step < 0 ∧ start ≤ stop) →
  run (Video_getitem v (KeySlice s)) w = ([], Raise ValueError).
Proof.
  intros Hn Hs Hempty. unfold Video_getitem.
  rewrite run_lift_bind, Hn, run_lift_bind, Hs, run_lift_bind.
  unfold py_range. rewrite bool_decide_eq_false_2 by lia.
  destruct Hempty as [[Hpos Hle] | [Hneg Hle]].
  - rewrite (bool_decide_eq_true_2 (0 < step)) by done.
    rewrite bool_decide_eq_true_2 by done. reflexivity.
  - rewrite (bool_decide_eq_false_2 (0 < step)) by lia.
    rewrite bool_decide_eq_true_2 by done. reflexivity.
Qed.

Lemma getitem_empty_slice_witness :
  (Video_num_frames pair_video = Ok 2%nat
   ∧ slice_indices (PySlice (Some 5) None None) (Z.of_nat 2) = Ok (2, 2, 1)
   ∧ ((0 < 1 ∧ 2 ≤ 2) ∨ (1 < 0 ∧ 2 ≤ 2)))
  ∧ run (Video_getitem pair_video (KeySlice (PySlice (Some 5) None None)))
      empty_world
    = ([], Raise ValueError).
Proof.
  assert (Hempty : (0 < 1 ∧ 2 ≤ 2) ∨ (1 < 0 ∧ 2 ≤ 2)) by (left; lia).
  split; [split; [reflexivity | split; [reflexivity | exact Hempty]]|].
  exact (getitem_empty_slice pair_video (PySlice (Some 5) None None) 2
           empty_world 2 2 1 eq_refl eq_refl Hempty).
Defined.

(** *** The frames of an array *)

Lemma slice_indices_whole (size : Z) :
  slice_indices (PySlice None None None) size = Ok (0, size, 1).
Proof. reflexivity. Qed.

Lemma py_range_whole (n : nat) :
  py_range 0 (Z.of_nat n) 1 = Ok (map Z.of_nat (seq 0 n)).
Proof.
  unfold py_range. simpl. case_bool_decide as Hn.
  - assert (n = 0%nat) as -> by lia. reflexivity.
  - f_equal. rewrite Z.div_1_r.
    replace (Z.to_nat (Z.of_nat n - 0 - 1 + 1)) with n by lia.
    apply map_ext. intros i. lia.
Qed.

(** The rows of an array, one after the other, are its first rows. *)
Lemma concat_rows (d : list Q) (sz k : nat) :
  concat (map (λ i, take sz (drop (i * sz) d)) (seq 0 k)) = take (k * sz) d.
Proof.
  induction k as [|k IH]; [reflexivity|].
  rewrite seq_S, map_app, concat_app, IH. simpl.
  rewrite app_nil_r, take_take_drop. f_equal. lia.
Qed.

Lemma fetch_frames_numpy (nv : NumpyVideo) (a : ndarray) (n : nat)
    (rest : list nat) (w : world) (idxs : list nat) :
  numpy_data nv = Some a → shape a = n :: rest →
  Forall (λ i, (i < n)%nat) idxs →
  run (fetch_frames (MkVideo (BNumpy nv)) (map Z.of_nat idxs)) w
  = ([], Ok (MkVideo (BNumpy nv),
             map (λ i, Some (NdArray rest
                               (take (size_of rest)
                                  (drop (i * size_of rest) (data a))))) idxs)).
Proof.
  intros Hdata Hshape. induction 1 as [|i idxs Hi _ IH]; [reflexivity|].
  cbn [map fetch_frames]. rewrite run_bind.
  assert (Hget : run (Video_get_frame (MkVideo (BNumpy nv)) (Z.of_nat i)) w
                 = ([], Ok (MkVideo (BNumpy nv),
                            Some (NdArray rest
                                    (take (size_of rest)
                                       (drop (i * size_of rest) (data a))))))).
  { unfold Video_get_frame. cbn [video_backend get_frame NumpyVideo_backend].
    rewrite run_lift_bind. unfold NumpyVideo_get_frame, getitem.
    rewrite Hdata, Hshape.
    rewrite bool_decide_eq_true_2 by lia.
    rewrite (bool_decide_eq_false_2 (Z.of_nat i < 0)) by lia.
    rewrite Nat2Z.id. reflexivity. }
  rewrite Hget. cbn [fst snd app]. rewrite run_bind, IH. reflexivity.
Qed.

(** X11. The whole slice of a video over an array is the array. *)
Theorem from_numpy_whole_slice (a : ndarray) (w : world) (n : nat)
    (rest : list nat) :
  shape a = S n :: rest →
  length (data a) = (S n * size_of rest)%nat →
  ∃ v, run (from_numpy (VArray a)) w = ([], Ok v)
       ∧ Video_len v = Ok (S n)
       ∧ run (Video_getitem v (KeySlice (PySlice None None None))) w
         = ([], Ok (v, Stacked a)).
Proof.
  intros Hshape Hlen.
  set (nv := MkNumpyVideo (VStr (str "Raw Video Data")) 0 1 2 3 (Some a)).
  exists (MkVideo (BNumpy nv)). split; [reflexivity|].
  assert (Hn : Video_num_frames (MkVideo (BNumpy nv)) = Ok (S n)).
  { unfold Video_num_frames, Video_frames, getattr. simpl.
    unfold NumpyVideo_frames, NumpyVideo_data_shape, shape_at. simpl.
    by rewrite Hshape. }
  split; [exact Hn|].
  unfold Video_getitem.
  rewrite run_lift_bind, Hn, run_lift_bind, slice_indices_whole.
  rewrite run_lift_bind, py_range_whole.
  unfold Video_get_frames. rewrite run_bind.
  rewrite (fetch_frames_numpy nv a (S n) rest w (seq 0 (S n)) eq_refl Hshape)
    by (apply Forall_forall; intros i Hi; apply elem_of_seq in Hi; lia).
  cbn [fst snd app]. rewrite run_lift_bind.
  set (row := λ i, NdArray rest (take (size_of rest)
                                   (drop (i * size_of rest) (data a)))).
  assert (Hstack : stack (map (λ i, Some (row i)) (seq 0 (S n))) = Ok (Stacked a)).
  { assert (Hall : ∀ l, all_arrays (map (λ i, Some (row i)) l) = Some (map row l)).
    { induction l as [|i l IH]; simpl; [reflexivity|]. by rewrite IH. }
    unfold stack. cbn [seq map].
    rewrite (proj2 (forallb_forall _ _)).
    2:{ intros f Hf. apply list_elem_of_In, list_elem_of_fmap in Hf as (i & -> & _).
        by apply bool_decide_eq_true_2. }
    change (Some (row 0%nat) :: map (λ i, Some (row i)) (seq 1 n))
      with (map (λ i, Some (row i)) (seq 0 (S n))).
    rewrite Hall. f_equal. f_equal.
    destruct a as [sh d]. cbn [shape data] in *. subst sh.
    rewrite length_map, length_seq. f_equal. rewrite map_map.
    etransitivity; [exact (concat_rows d (size_of rest) (S n))|].
    apply take_ge. lia. }
  unfold row in Hstack. cbv beta in Hstack. rewrite Hstack. reflexivity.
Qed.

Lemma from_numpy_whole_slice_witness :
  (shape pair_array = 2%nat :: [1; 1; 1]%nat
   ∧ length (data pair_array) = (2 * size_of [1; 1; 1])%nat)
  ∧ ∃ v, run (from_numpy (VArray pair_array)) empty_world = ([], Ok v)
         ∧ Video_len v = Ok 2%nat
         ∧ run (Video_getitem v (KeySlice (PySlice None None None))) empty_world
           = ([], Ok (v, Stacked pair_array)).
Proof.
  split; [split; reflexivity|].
  exact (from_numpy_whole_slice pair_array empty_world 1 [1; 1; 1]%nat
           eq_refl eq_refl).
Defined.

End Subscripts.

(** ** Readers and stores *)

Module Readers.
Import Np Ext PosixPath VideoIO Claims Samples IOFacts Construction StrFacts.

(** The frame of a fetch is decided by the decoded frames, the two flags
    and the index. *)
Lemma MediaVideo_get_frame_congr (v v' : MediaVideo) (idx : Z)
    (grayscale : option bool) :
  cap_frames (media_reader v) = cap_frames (media_reader v') →
  media_grayscale v = media_grayscale v' →
  media_bgr v = media_bgr v' →
  rmap snd (MediaVideo_get_frame v idx grayscale)
  = rmap snd (MediaVideo_get_frame v' idx grayscale).
Proof.
  intros Hframes Hgray Hbgr. unfold MediaVideo_get_frame.
  destruct (Frames.seek_read (media_reader v) idx) as (r & _ & ->).
  destruct (Frames.seek_read (media_reader v') idx) as (r' & _ & ->).
  rewrite <- Hframes, <- Hgray, <- Hbgr.
  destruct (match cap_frames (media_reader v) !! Z.to_nat idx with
            | Some f => (true, Some f)
            | None => (false, None)
            end) as [ret frame].
  destruct (if default (media_grayscale v) grayscale
            then subscript frame
                   (λ a, rmap ellipsis_newaxis (ellipsis_getitem a 0))
            else Ok frame) as [mid|]; [|reflexivity].
  cbn [rbind].
  destruct (if media_bgr v then subscript mid ellipsis_reversed else Ok mid);
    reflexivity.
Qed.

Lemma MediaVideo_get_frame_keeps (v v' : MediaVideo) (idx : Z)
    (grayscale : option bool) (frame : option ndarray) :
  MediaVideo_get_frame v idx grayscale = Ok (v', frame) →
  media_filename v' = media_filename v
  ∧ media_grayscale v' = media_grayscale v
  ∧ media_bgr v' = media_bgr v
  ∧ media_test_frame v' = media_test_frame v.
Proof.
  unfold MediaVideo_get_frame.
  destruct (cap_read _) as [r [ret raw]].
  destruct (if default (media_grayscale v) grayscale
            then subscript raw (λ a, rmap ellipsis_newaxis (ellipsis_getitem a 0))
            else Ok raw) as [mid|]; [|discriminate].
  cbn [rbind].
  destruct (if media_bgr v then subscript mid ellipsis_reversed else Ok mid)
    as [out|]; [|discriminate].
  by intros [= <- _].
Qed.

(** X12. The frame that a media video returns for an index does not depend
    on the frames that were fetched before; a fetch leaves the name and
    the two flags of the video as they are. *)
Theorem MediaVideo_get_frame_any_order (v v1 : MediaVideo) (i j : Z)
    (g1 g2 : option bool) (f1 : option ndarray) :
  MediaVideo_get_frame v i g1 = Ok (v1, f1) →
  MediaVideo_matches v1 v = true
  ∧ rmap snd (MediaVideo_get_frame v1 j g2)
    = rmap snd (MediaVideo_get_frame v j g2).
Proof.
  intros Hget.
  pose proof (Frames.MediaVideo_get_frame_reader _ _ _ _ _ Hget) as Hframes.
  destruct (MediaVideo_get_frame_keeps _ _ _ _ _ Hget) as (Hn & Hg & Hb & _).
  split.
  - unfold MediaVideo_matches. rewrite Hn, Hg, Hb.
    by rewrite !bool_decide_eq_true_2.
  - by apply MediaVideo_get_frame_congr.
Qed.

Lemma MediaVideo_get_frame_any_order_witness :
  ∃ v1 f1,
    MediaVideo_get_frame colour_video 1 None = Ok (v1, f1)
    ∧ MediaVideo_matches v1 colour_video = true
    ∧ rmap snd (MediaVideo_get_frame v1 0 None)
      = rmap snd (MediaVideo_get_frame colour_video 0 None).
Proof.
  eexists _, _. split; [reflexivity|].
  eapply (MediaVideo_get_frame_any_order colour_video _ 1 0 None None).
  reflexivity.
Defined.

(** X13. An index at or past the number of decoded frames gives no frame:
    the fetch raises [TypeError] when the frame is to be made grey or its
    channels are to be reversed, and returns [None] otherwise. *)
Theorem MediaVideo_get_frame_past_end (v : MediaVideo) (idx : Z)
    (grayscale : option bool) :
  Z.of_nat (length (cap_frames (media_reader v))) ≤ idx →
  match MediaVideo_get_frame v idx grayscale with
  | Ok (v', frame) =>
      default (media_grayscale v) grayscale = false ∧ media_bgr v = false
      ∧ frame = None ∧ MediaVideo_matches v' v = true
  | Raise e =>
      (default (media_grayscale v) grayscale = true ∨ media_bgr v = true)
      ∧ e = TypeError
  end.
Proof.
  intros Hidx. unfold MediaVideo_get_frame.
  destruct (Frames.seek_read (media_reader v) idx) as (r & _ & ->).
  rewrite (lookup_ge_None_2 (cap_frames (media_reader v))) by lia.
  destruct (default (media_grayscale v) grayscale); cbn [subscript rbind].
  - split; [by left | reflexivity].
  - destruct (media_bgr v) eqn:Hbgr; cbn [subscript rbind].
    + split; [by right | reflexivity].
    + repeat split. unfold MediaVideo_matches.
      cbn [media_filename media_grayscale media_bgr]. rewrite Hbgr.
      rewrite !bool_decide_eq_true_2 by reflexivity. reflexivity.
Qed.

Lemma MediaVideo_get_frame_past_end_witness :
  Z.of_nat (length (cap_frames (media_reader colour_video))) ≤ 2
  ∧ match MediaVideo_get_frame colour_video 2 None with
    | Ok (v', frame) =>
        default (media_grayscale colour_video) None = false
        ∧ media_bgr colour_video = false
        ∧ frame = None ∧ MediaVideo_matches v' colour_video = true
    | Raise e =>
        (default (media_grayscale colour_video) None = true
         ∨ media_bgr colour_video = true)
        ∧ e = TypeError
    end.
Proof.
  assert (H : Z.of_nat (length (cap_frames (media_reader colour_video))) ≤ 2)
    by (simpl; lia).
  split; [exact H|].
  exact (MediaVideo_get_frame_past_end colour_video 2 None H).
Defined.

(** *** Image stores *)

Lemma contains_infix (sub pre post : pystr) :
  contains sub (pre ++ sub ++ post) = true.
Proof.
  assert (Hunfold : ∀ s, contains sub s
                         = startswith s sub
                           || match s with
                              | [] => false
                              | _ :: s' => contains sub s'
                              end) by (by intros []).
  induction pre as [|x pre IH]; rewrite Hunfold; simpl.
  - unfold startswith. rewrite take_app_length.
    by rewrite bool_decide_eq_true_2.
  - rewrite IH. apply orb_true_r.
Qed.

Lemma contains_join_metadata (dir : pystr) :
  contains metadata_yaml (join dir metadata_yaml) = true.
Proof.
  unfold join. change (startswith metadata_yaml [sep]) with false. cbn iota.
  destruct (bool_decide (dir = []) || endswith dir [sep]).
  - rewrite <- (app_nil_r metadata_yaml) at 2. apply contains_infix.
  - change (dir ++ sep :: metadata_yaml)
      with (dir ++ [sep] ++ metadata_yaml).
    rewrite app_assoc, <- (app_nil_r metadata_yaml) at 1.
    rewrite <- (app_nil_r metadata_yaml) at 2.
    apply contains_infix.
Qed.

(** X14. The store of a directory and the store of the [metadata.yaml]
    inside that directory are opened the same way, and the two videos
    match. *)
Theorem ImgStoreVideo_directory_matches_metadata (w : world) (dir : pystr)
    (index_by_original : bool) (v : ImgStoreVideo) :
  contains metadata_yaml dir = false →
  outcome (ImgStoreVideo_new (VStr dir) index_by_original) w = Ok v →
  ∃ v', run (ImgStoreVideo_new (VStr (join dir metadata_yaml)) index_by_original) w
        = run (ImgStoreVideo_new (VStr dir) index_by_original) w
        ∧ outcome (ImgStoreVideo_new (VStr (join dir metadata_yaml))
                     index_by_original) w = Ok v'
        ∧ ImgStoreVideo_matches v v' = true
        ∧ ImgStoreVideo_matches v' v = true.
Proof.
  intros Hdir Hv.
  assert (Hsame : run (ImgStoreVideo_new (VStr (join dir metadata_yaml))
                         index_by_original) w
                  = run (ImgStoreVideo_new (VStr dir) index_by_original) w).
  { unfold ImgStoreVideo_new. by rewrite contains_join_metadata, Hdir. }
  exists v. split; [exact Hsame|].
  split; [unfold outcome in *; by rewrite Hsame|].
  unfold ImgStoreVideo_matches. by rewrite !bool_decide_eq_true_2.
Qed.

Lemma ImgStoreVideo_directory_matches_metadata_witness :
  contains metadata_yaml (str "session1") = false
  ∧ ∃ v, outcome (ImgStoreVideo_new (VStr (str "session1")) true) lab_world = Ok v
         ∧ ∃ v', run (ImgStoreVideo_new
                        (VStr (join (str "session1") metadata_yaml)) true) lab_world
                 = run (ImgStoreVideo_new (VStr (str "session1")) true) lab_world
                 ∧ outcome (ImgStoreVideo_new
                              (VStr (join (str "session1") metadata_yaml)) true)
                     lab_world = Ok v'
                 ∧ ImgStoreVideo_matches v v' = true
                 ∧ ImgStoreVideo_matches v' v = true.
Proof.
  split; [reflexivity|].
  eexists. split; [vm_compute; reflexivity|].
  apply (ImgStoreVideo_directory_matches_metadata lab_world (str "session1") true);
    reflexivity.
Defined.

(** What the constructor of an image store video leaves in the object. *)
Lemma ImgStoreVideo_new_inv (w : world) (filename : pystr)
    (index_by_original : bool) (v : ImgStoreVideo) :
  outcome (ImgStoreVideo_new (VStr filename) index_by_original) w = Ok v →
  ∃ s0 s1 first num,
    imgstore_new_for_filename w (imgstore_filename v) = Some s0
    ∧ store_get_next_image s0 = Ok (s1, (first, num))
    ∧ v = MkImgStoreVideo (imgstore_filename v) index_by_original
            (Some s1) (Some first).
Proof.
  unfold ImgStoreVideo_new. rewrite outcome_bind.
  destruct (outcome (os_path_abspath _) w) as [absname|]; [|discriminate].
  unfold ImgStoreVideo_open.
  cbn [imgstore_store imgstore_filename imgstore_index_by_original].
  rewrite outcome_bind, outcome_call.
  destruct (imgstore_new_for_filename w absname) as [s0|] eqn:Hopen;
    [|discriminate].
  rewrite outcome_bind. change (outcome (io_lift ?r) w) with r.
  destruct (store_get_next_image s0) as [[s1 [first num]]|] eqn:Hnext;
    [|discriminate].
  intros [= <-]. simpl. by exists s0, s1, first, num.
Qed.

(** X15. After [close] the number of frames of an image store video raises
    [AttributeError], while its height, width and channels are still those
    of the first image; the next fetch opens the store again, once, and
    gives what the fetch gives on the open video. *)
Theorem ImgStoreVideo_reopens_after_close (w : world) (filename : pystr)
    (index_by_original : bool) (v : ImgStoreVideo) (frame_number : Z) :
  outcome (ImgStoreVideo_new (VStr filename) index_by_original) w = Ok v →
  ImgStoreVideo_frames (ImgStoreVideo_close v) = Raise AttributeError
  ∧ ImgStoreVideo_height (ImgStoreVideo_close v) = ImgStoreVideo_height v
  ∧ ImgStoreVideo_width (ImgStoreVideo_close v) = ImgStoreVideo_width v
  ∧ ImgStoreVideo_channels (ImgStoreVideo_close v) = ImgStoreVideo_channels v
  ∧ ImgStoreVideo_close (ImgStoreVideo_close v) = ImgStoreVideo_close v
  ∧ trace (ImgStoreVideo_get_frame v frame_number) w = []
  ∧ trace (ImgStoreVideo_get_frame (ImgStoreVideo_close v) frame_number) w
    = [CallImgstoreOpen (imgstore_filename v)]
  ∧ outcome (ImgStoreVideo_get_frame (ImgStoreVideo_close v) frame_number) w
    = outcome (ImgStoreVideo_get_frame v frame_number) w.
Proof.
  intros Hnew.
  apply ImgStoreVideo_new_inv in Hnew as (s0 & s1 & first & num & Hopen & Hnext & Hv).
  set (name := imgstore_filename v) in *. rewrite Hv.
  do 5 (split; [reflexivity|]).
  assert (Hreopen : run (ImgStoreVideo_open
                           (ImgStoreVideo_close
                              (MkImgStoreVideo name index_by_original
                                 (Some s1) (Some first)))) w
                    = ([CallImgstoreOpen name],
                       Ok (MkImgStoreVideo name index_by_original
                             (Some s1) (Some first)))).
  { unfold ImgStoreVideo_open, ImgStoreVideo_close.
    cbn [imgstore_store imgstore_filename imgstore_index_by_original imgstore_img].
    rewrite run_call_bind, Hopen, run_lift_bind, Hnext. reflexivity. }
  assert (Hopened : run (ImgStoreVideo_open
                           (MkImgStoreVideo name index_by_original
                              (Some s1) (Some first))) w
                    = ([], Ok (MkImgStoreVideo name index_by_original
                                 (Some s1) (Some first))))
    by reflexivity.
  unfold trace, outcome, ImgStoreVideo_get_frame.
  rewrite !run_bind, Hreopen, Hopened. cbn [fst snd app].
  cbn [imgstore_store].
  clear Hreopen Hopened.
  match goal with
  | |- context [run ?m w] => destruct (run m w) as [t res] eqn:Hrest
  end.
  assert (Ht : t = []).
  { revert Hrest. rewrite run_lift_bind.
    destruct (if imgstore_index_by_original _ then _ else _) as [[s' [img n]]|];
      [|by intros [= <- _]].
    rewrite run_lift_bind.
    destruct (if bool_decide (ndim img = 2%nat) then newaxis_2 img else Ok img);
      by intros [= <- _]. }
  subst t. simpl. repeat split.
Qed.

Lemma ImgStoreVideo_reopens_after_close_witness :
  ∃ v, outcome (ImgStoreVideo_new (VStr (str "session1")) true) lab_world = Ok v
       ∧ ImgStoreVideo_frames (ImgStoreVideo_close v) = Raise AttributeError
       ∧ trace (ImgStoreVideo_get_frame (ImgStoreVideo_close v) 0) lab_world
         = [CallImgstoreOpen (imgstore_filename v)]
       ∧ outcome (ImgStoreVideo_get_frame (ImgStoreVideo_close v) 0) lab_world
         = outcome (ImgStoreVideo_get_frame v 0) lab_world.
Proof.
  eexists. split; [vm_compute; reflexivity|].
  destruct (ImgStoreVideo_reopens_after_close lab_world (str "session1") true
              _ 0 eq_refl)
    as (Hframes & _ & _ & _ & _ & _ & Htrace & Hsame).
  split; [exact Hframes|]. split; [exact Htrace | exact Hsame].
Defined.

End Readers.

(** ** Reading a form back *)

Module FormReadback.
Import FormBuilder Claims Samples FormDefaults.

(** Conditional insertions, folded over a list. *)
Lemma foldl_insert_keys {A V} (cond : A → bool) (key : A → pystr) (val : A → V)
    (items : list A) (data : gmap pystr V) (k : pystr) :
  is_Some (foldl (λ data it, if cond it then <[key it := val it]> data else data)
             data items !! k)
  ↔ is_Some (data !! k) ∨ ∃ it, it ∈ items ∧ cond it = true ∧ key it = k.
Proof.
  revert data. induction items as [|it items IH]; intros data; simpl.
  - split; [by left|]. intros [H | (it & Hin & _)]; [done|].
    by apply elem_of_nil in Hin.
  - rewrite IH. split.
    + intros [H | (it' & Hin & Hc & Hk)].
      * destruct (cond it) eqn:Hc; [|by left].
        destruct (decide (key it = k)) as [<- | Hne].
        -- right. exists it. split; [apply list_elem_of_here | done].
        -- rewrite lookup_insert_ne in H by done. by left.
      * right. exists it'. split; [by apply list_elem_of_further | done].
    + intros [H | (it' & Hin & Hc & Hk)].
      * left. destruct (cond it); [|done].
        destruct (decide (key it = k)) as [<- | Hne].
        -- rewrite lookup_insert_eq. by eexists.
        -- by rewrite lookup_insert_ne.
      * apply elem_of_cons in Hin as [-> | Hin].
        -- left. rewrite Hc, <- Hk, lookup_insert_eq. by eexists.
        -- right. by exists it'.
Qed.

Lemma foldl_insert_skip {A V} (cond : A → bool) (key : A → pystr) (val : A → V)
    (items : list A) (data : gmap pystr V) (k : pystr) :
  k ∉ map key items →
  foldl (λ data it, if cond it then <[key it := val it]> data else data)
    data items !! k
  = data !! k.
Proof.
  revert data. induction items as [|it items IH]; intros data Hk; simpl;
    [reflexivity|].
  simpl in Hk. apply not_elem_of_cons in Hk as [Hne Hk].
  rewrite IH by done. destruct (cond it); [|done]. by apply lookup_insert_ne.
Qed.

(** The setters make no label and no button. *)
Lemma setValue_kind (w w' : widget) (v : value) :
  setValue w v = Ok w' → is_label_or_button w' = false.
Proof.
  destruct w; try discriminate; simpl.
  - destruct (as_double v); [|discriminate]. by intros [= <-].
  - destruct (as_int v); [|discriminate]. by intros [= <-].
Qed.

Lemma setChecked_kind (w w' : widget) (v : value) :
  setChecked w v = Ok w' → is_label_or_button w' = false.
Proof.
  destruct w; try discriminate; simpl.
  destruct (as_bool v); [|discriminate]. by intros [= <-].
Qed.

Lemma setText_kind (w w' : widget) (v : value) :
  setText w v = Ok w' → ∃ text enabled, w' = QLineEdit text enabled.
Proof.
  destruct w; try discriminate; simpl.
  destruct (as_QString v); [|discriminate]. intros [= <-]. eauto.
Qed.

(** A field is never a label or a button. *)
Lemma build_field_kind (it : item) (w : widget) :
  build_field it = Ok w → is_label_or_button w = false.
Proof.
  unfold build_field.
  case_bool_decide; [apply setValue_kind|].
  case_bool_decide.
  { destruct (default_gt_99 (item_default it)) as [big|]; cbn [rbind];
      [|discriminate].
    destruct (if big
              then let? hi := default_times_10 (item_default it) in
                   setRange new_QSpinBox (FInt 0) hi
              else Ok new_QSpinBox) as [field|]; cbn [rbind]; [|discriminate].
    apply setValue_kind. }
  case_bool_decide; [apply setChecked_kind|].
  case_bool_decide.
  { destruct (item_options it) as [options|]; [|discriminate].
    unfold new_QComboBox. rewrite foldl_addItem. cbn [rbind].
    destruct (item_default it) as [| | |d|]; try (by intros [= <-]).
    destruct (list_index _ d) as [idx|]; [|by intros [= <-]].
    unfold setCurrentIndex. case_bool_decide; by intros [= <-]. }
  destruct (setText new_QLineEdit (item_default it)) as [field|] eqn:Hfield;
    cbn [rbind]; [|discriminate].
  apply setText_kind in Hfield as (text & enabled & ->).
  case_bool_decide; by intros [= <-].
Qed.

(** What one row adds to the data of the form. *)
Lemma build_row_data (l l' : layout) (it : item) :
  build_row l it = Ok l' →
  ∃ w, build_field it = Ok w
       ∧ get_form_data l'
         = if bool_decide (item_name it ≠ [])
           then <[item_name it := get_widget_value w]> (get_form_data l)
           else get_form_data l.
Proof.
  unfold build_row. destruct (build_field it) as [w|] eqn:Hw; [|discriminate].
  cbn [rbind]. pose proof (build_field_kind _ _ Hw) as Hkind.
  assert (Hrow : get_form_data (addRow l (item_label it ++ str ":")
                                  (QWidget (item_name it) w))
                 = if bool_decide (item_name it ≠ [])
                   then <[item_name it := get_widget_value w]> (get_form_data l)
                   else get_form_data l).
  { rewrite get_form_data_addRow, Hkind, andb_true_r.
    destruct (item_name it); reflexivity. }
  destruct (bool_decide (type_prefix (item_type it) = str "file"));
    intros [= <-]; exists w; (split; [reflexivity|]); [|exact Hrow].
  by rewrite get_form_data_addRow.
Qed.

(** The data of a form that was built: every item whose name is not empty
    put the value of its field under its name, in the order of the
    items. *)
Lemma build_form_data (items : list item) (l l' : layout) :
  build_form l items = Ok l' →
  Forall (λ it, ∃ w, build_field it = Ok w) items
  ∧ get_form_data l'
    = foldl (λ data it,
               if bool_decide (item_name it ≠ [])
               then <[item_name it := match build_field it with
                                      | Ok w => get_widget_value w
                                      | Raise _ => FNone
                                      end]> data
               else data)
        (get_form_data l) items.
Proof.
  revert l. induction items as [|it items IH]; intros l.
  - intros [= <-]. by split.
  - unfold build_form. simpl.
    destruct (build_row l it) as [l1|] eqn:Hrow;
      [|by rewrite build_form_raise].
    intros Hrest. apply build_row_data in Hrow as (w & Hw & Hdata).
    destruct (IH l1 Hrest) as [Hall Hfold]. split.
    + constructor; [by exists w | exact Hall].
    + rewrite Hfold, Hdata, Hw. reflexivity.
Qed.

(** X16. The keys of the data of a form are the names of its items that
    are not empty: no label and no button is among them, and no field is
    left out. *)
Theorem form_data_keys (items : list item) (l : layout) (name : pystr) :
  FormBuilderLayout items = Ok l →
  is_Some (get_form_data l !! name)
  ↔ name ≠ [] ∧ name ∈ map item_name items.
Proof.
  intros Hl. apply build_form_data in Hl as [_ ->].
  rewrite foldl_insert_keys. change (get_form_data []) with (∅ : gmap pystr value).
  rewrite lookup_empty. split.
  - intros [H | (it & Hin & Hc & <-)]; [by destruct H|].
    apply bool_decide_eq_true in Hc. split; [done|].
    by apply list_elem_of_fmap_2.
  - intros [Hname Hin]. right.
    apply list_elem_of_fmap in Hin as (it & -> & Hin).
    exists it. split; [done|]. split; [|done]. by apply bool_decide_eq_true_2.
Qed.

Lemma form_data_keys_witness :
  ∃ l, FormBuilderLayout one_of_each = Ok l
       ∧ (is_Some (get_form_data l !! str "arch")
          ↔ str "arch" ≠ [] ∧ str "arch" ∈ map item_name one_of_each).
Proof.
  eexists. split; [vm_compute; reflexivity|].
  apply (form_data_keys one_of_each). vm_compute. reflexivity.
Defined.

(** X17. Where several items have one name, the data of the form holds
    the value of the field of the last of them. *)
Theorem form_data_last_wins (pre post : list item) (it : item) (l : layout) :
  FormBuilderLayout (pre ++ it :: post) = Ok l →
  item_name it ≠ [] →
  item_name it ∉ map item_name post →
  ∃ w, build_field it = Ok w
       ∧ get_form_data l !! item_name it = Some (get_widget_value w).
Proof.
  intros Hl Hname Hpost. apply build_form_data in Hl as [Hall ->].
  apply Forall_app in Hall as [_ Hall]. apply Forall_cons in Hall as [[w Hw] _].
  exists w. split; [exact Hw|].
  rewrite foldl_app. simpl. rewrite foldl_insert_skip by done.
  rewrite bool_decide_eq_true_2 by done. by rewrite lookup_insert_eq, Hw.
Qed.

Lemma form_data_last_wins_witness :
  ∃ l, FormBuilderLayout named_twice = Ok l
       ∧ str "epochs" ≠ []
       ∧ (str "epochs" ∉ map item_name [])
       ∧ get_form_data l !! str "epochs" = Some (FInt 5).
Proof.
  assert (Hname : str "epochs" ≠ []) by discriminate.
  assert (Hpost : str "epochs" ∉ map item_name []) by apply not_elem_of_nil.
  eexists. split; [vm_compute; reflexivity|].
  split; [exact Hname|]. split; [exact Hpost|].
  match goal with
  | |- get_form_data ?l !! _ = _ =>
      destruct (form_data_last_wins
                  [Item (str "epochs") (str "Epochs") (str "int") (FInt 3) None]
                  []
                  (Item (str "epochs") (str "Epochs again") (str "int")
                     (FInt 5) None)
                  l) as (w & Hw & Hdata)
  end; [vm_compute; reflexivity | exact Hname | exact Hpost|].
  etransitivity; [exact Hdata|].
  vm_compute in Hw. by injection Hw as <-.
Defined.

Lemma split_char_first (c : ascii) (s : pystr) :
  ∃ piece pieces, split_char c s = piece :: pieces.
Proof.
  induction s as [|x s (piece & pieces & IH)]; simpl; [by eexists _, _|].
  destruct (decide (x = c)); [by eexists _, _|]. rewrite IH. by eexists _, _.
Qed.

(** X18. A list field shows its default when the default is one of the
    options, and its first option otherwise. *)
Theorem list_field_selection (it : item) (options : pystr) :
  item_type it = str "list" →
  item_options it = Some options →
  ∃ w, build_field it = Ok w
       ∧ get_widget_value w
         = FStr (match item_default it with
                 | FStr d =>
                     if bool_decide (d ∈ split_char "," options) then d
                     else default [] (head (split_char "," options))
                 | _ => default [] (head (split_char "," options))
                 end).
Proof.
  intros Htype Hopts. unfold build_field. rewrite Htype, Hopts.
  rewrite (bool_decide_eq_false_2 (str "list" = str "double")) by discriminate.
  rewrite (bool_decide_eq_false_2 (str "list" = str "int")) by discriminate.
  rewrite (bool_decide_eq_false_2 (str "list" = str "bool")) by discriminate.
  rewrite (bool_decide_eq_true_2 (str "list" = str "list")) by reflexivity.
  unfold new_QComboBox. rewrite foldl_addItem. cbn [rbind app].
  destruct (split_char_first "," options) as (piece & pieces & Hsplit).
  rewrite Hsplit.
  rewrite (bool_decide_eq_true_2 ([] = [])) by reflexivity.
  rewrite (bool_decide_eq_false_2 (piece :: pieces = [])) by discriminate.
  assert (Hfirst : get_widget_value (QComboBox (piece :: pieces) 0) = FStr piece)
    by reflexivity.
  destruct (item_default it) as [| | |d|]; try by eexists.
  case_bool_decide as Hd.
  - destruct (list_index_elem _ _ Hd) as (idx & -> & Hidx).
    unfold setCurrentIndex.
    rewrite bool_decide_eq_true_2 by (by eapply lookup_lt_Some).
    eexists. split; [reflexivity|]. simpl.
    rewrite bool_decide_eq_true_2 by lia. by rewrite Nat2Z.id, Hidx.
  - assert (Hnone : list_index (piece :: pieces) d = None).
    { unfold list_index.
      destruct (list_find _ (piece :: pieces)) as [[i y]|] eqn:Hfind;
        [|reflexivity].
      apply list_find_Some in Hfind as (Hi & -> & _).
      destruct Hd. by eapply list_elem_of_lookup_2. }
    rewrite Hnone. by eexists.
Qed.

Lemma list_field_selection_witness :
  (item_type unlisted_default = str "list"
   ∧ item_options unlisted_default = Some (str "leap,unet"))
  ∧ ∃ w, build_field unlisted_default = Ok w
         ∧ get_widget_value w = FStr (str "leap").
Proof.
  split; [split; reflexivity|].
  destruct (list_field_selection unlisted_default (str "leap,unet")
              eq_refl eq_refl) as (w & Hw & Hvalue).
  exists w. split; [exact Hw|]. rewrite Hvalue. reflexivity.
Defined.

(** X19. An int field reads back its default when the default is not
    negative, and 0 otherwise: the range of the box is widened for a
    default above 99. *)
Theorem int_field_reads_back (it : item) (z : Z) :
  item_type it = str "int" →
  item_default it = FInt z →
  -2147483648 ≤ z ≤ 214748364 →
  ∃ w, build_field it = Ok w ∧ get_widget_value w = FInt (Z.max 0 z).
Proof.
  intros Htype Hdefault Hz. unfold build_field. rewrite Htype, Hdefault.
  rewrite (bool_decide_eq_false_2 (str "int" = str "double")) by discriminate.
  rewrite (bool_decide_eq_true_2 (str "int" = str "int")) by reflexivity.
  cbn [default_gt_99 default_times_10 rbind].
  unfold new_QSpinBox, setRange, setValue, as_int, INT_MIN, INT_MAX.
  case_bool_decide as Hbig; cbn [rbind].
  - rewrite (bool_decide_eq_true_2 (-2147483648 ≤ 0 ≤ 2147483647)) by lia.
    cbn [rbind].
    rewrite (bool_decide_eq_true_2 (-2147483648 ≤ z * 10 ≤ 2147483647)) by lia.
    cbn [rbind].
    rewrite (bool_decide_eq_true_2 (-2147483648 ≤ z ≤ 2147483647)) by lia.
    cbn [rbind].
    eexists. split; [reflexivity|]. simpl. f_equal. lia.
  - rewrite (bool_decide_eq_true_2 (-2147483648 ≤ z ≤ 2147483647)) by lia.
    cbn [rbind].
    eexists. split; [reflexivity|]. simpl. f_equal. lia.
Qed.

Lemma int_field_reads_back_witness :
  (item_type many_epochs = str "int"
   ∧ item_default many_epochs = FInt 500
   ∧ -2147483648 ≤ 500 ≤ 214748364)
  ∧ ∃ w, build_field many_epochs = Ok w ∧ get_widget_value w = FInt 500.
Proof.
  assert (Hz : -2147483648 ≤ 500 ≤ 214748364) by lia.
  split; [split; [reflexivity | split; [reflexivity | exact Hz]]|].
  exact (int_field_reads_back many_epochs 500 eq_refl eq_refl Hz).
Defined.

End FormReadback.

(** ** One pass over the batches *)

Module Epochs.
Import Np Augmentation Claims Samples SliceFacts Batching Realign ListFacts.

(** X21. Construction of an augmenter returns exactly when the batch size
    is positive and there is at least one image; it raises
    [ZeroDivisionError] for the batch size 0 and [ValueError] for no image
    or a negative batch size. *)
Theorem Augmenter_new_outcome X Y points datagen output_names batch_size
    shuffle_initially (g : rng) :
  match Augmenter_new X Y points datagen output_names batch_size
          shuffle_initially g with
  | Ok _ => 0 < batch_size ∧ X ≠ []
  | Raise e =>
      (batch_size = 0 ∧ e = ZeroDivisionError)
      ∨ (batch_size ≠ 0 ∧ (X = [] ∨ batch_size < 0) ∧ e = ValueError)
  end.
Proof.
  destruct (decide (batch_size = 0)) as [-> | Hd].
  { left. by split. }
  destruct (decide (X = [] ∨ batch_size < 0)) as [Hbad | Hgood].
  - assert (Hraise : Augmenter_new X Y points datagen output_names batch_size
                       shuffle_initially g = Raise ValueError).
    { unfold Augmenter_new, num_samples, ceil_div. cbn [Augmentation.X].
      rewrite bool_decide_eq_false_2 by done. cbn [rbind].
      unfold array_split. rewrite bool_decide_eq_true_2; [reflexivity|].
      destruct Hbad as [-> | Hneg]; [simpl; rewrite Zdiv_0_l; lia|].
      pose proof (Z.div_pos (Z.of_nat (length X)) (- batch_size)
                    (Zle_0_nat _) ltac:(lia)) as Hq.
      rewrite <- Z.div_opp_opp in Hq by lia. rewrite Z.opp_involutive in Hq.
      lia. }
    rewrite Hraise. right. done.
  - assert (HX : X ≠ []) by tauto.
    assert (Hpos : 0 < batch_size) by lia.
    destruct (Augmenter_new_total X Y points datagen output_names batch_size
                shuffle_initially g HX Hpos) as (a & g' & ->).
    done.
Qed.

(** *** The sizes of the batches *)

Lemma shuffled_augmenter_reachable : reachable shuffled_augmenter.
Proof.
  eapply (reach_shuffle _ true [5%nat] shuffled_augmenter []).
  - eapply (reach_new five_images None None None None 2 true [3; 1; 4; 1; 5]%nat).
    vm_compute. reflexivity.
  - vm_compute. reflexivity.
Qed.

Lemma paired_augmenter_reachable : reachable paired_augmenter.
Proof.
  eapply (reach_new five_images (Some five_images) None None
            (Some [str "confmaps"]) 2 false [] paired_augmenter []).
  vm_compute. reflexivity.
Qed.

(** The sizes of the pieces of [array_split]. *)
Lemma array_split_sizes {A} (ary : list A) (sections : Z) (b : list (list A)) :
  array_split ary sections = Ok b →
  map length b
  = replicate (length ary mod Z.to_nat sections)
      (length ary / Z.to_nat sections + 1)%nat
    ++ replicate (Z.to_nat sections - length ary mod Z.to_nat sections)
         (length ary / Z.to_nat sections)%nat.
Proof.
  unfold array_split. case_bool_decide as Hk; [discriminate|].
  intros [= <-]. apply slices_lengths.
  set (k := Z.to_nat sections). set (n := length ary).
  assert (Hk' : (k ≠ 0)%nat) by (unfold k; lia).
  pose proof (Nat.mod_upper_bound n k Hk').
  pose proof (Nat.div_mod n k Hk').
  rewrite sum_list_with_app, !sum_list_replicate. nia.
Qed.

(** No batch is empty, none has more than [batch_size] samples, and the
    batches differ by at most one sample. *)
Lemma split_sizes_bounded (n : nat) (d k : Z) (all_idx : list nat)
    (b : list (list nat)) :
  length all_idx = n →
  ceil_div (Z.of_nat n) d = Ok k →
  array_split all_idx k = Ok b →
  Forall (λ batch, (1 ≤ length batch)%nat
                   ∧ Z.of_nat (length batch) ≤ d
                   ∧ (n / length b ≤ length batch ≤ n / length b + 1)%nat) b.
Proof.
  intros Hn Hceil Hsplit.
  pose proof (array_split_positive _ _ _ Hsplit) as Hk.
  destruct (ceil_div_is_ceil _ _ _ (Zle_0_nat n) Hceil Hk) as [Hd [Hlo Hhi]].
  destruct (array_split_pieces all_idx k Hk) as (b' & Hb' & Hlen & _).
  rewrite Hsplit in Hb'. injection Hb' as <-.
  pose proof (array_split_sizes _ _ _ Hsplit) as Hsizes.
  rewrite Hn in Hsizes. rewrite Hlen.
  set (m := Z.to_nat k) in *.
  assert (Hm : (m ≠ 0)%nat) by (unfold m; lia).
  pose proof (Nat.mod_upper_bound n m Hm) as Hmod.
  pose proof (Nat.div_mod n m Hm) as Hdiv.
  assert (Hk_m : k = Z.of_nat m) by (unfold m; lia).
  assert (Heach : (1 ≤ n / m)%nat).
  { apply Nat.div_le_lower_bound; [done|]. nia. }
  assert (Hsize : ∀ s, s ∈ map length b →
            (1 ≤ s)%nat ∧ Z.of_nat s ≤ d ∧ (n / m ≤ s ≤ n / m + 1)%nat).
  { intros s. rewrite Hsizes, elem_of_app. intros [Hs | Hs];
      apply elem_of_replicate in Hs as [-> Hcount].
    - split; [lia|]. split; [|lia].
      destruct (decide (n mod m = 0)%nat) as [Hz | Hnz]; [lia|]. nia.
    - split; [lia|]. split; [|lia]. nia. }
  apply Forall_forall. intros batch Hbatch.
  apply Hsize. by apply list_elem_of_fmap_2.
Qed.

Lemma shuffle_keeps (a a' : Augmenter) (batches_only : bool) (g g' : rng) :
  shuffle a batches_only g = Ok (a', g') →
  X a' = X a ∧ Y a' = Y a ∧ points a' = points a ∧ datagen a' = datagen a
  ∧ output_names a' = output_names a ∧ batch_size a' = batch_size a.
Proof.
  unfold shuffle. destruct batches_only.
  - destruct (np_random_shuffle (batches a) g). by intros [= <- _].
  - destruct (np_random_shuffle (seq 0 (num_samples a)) g) as [all_idx g1].
    destruct (ceil_div _ _) as [k|]; [|discriminate]. cbn [rbind].
    destruct (array_split all_idx k) as [b|]; [|discriminate].
    by intros [= <- _].
Qed.

Lemma shuffle_rebatch_sizes (a a' : Augmenter) (g g' : rng) :
  shuffle a false g = Ok (a', g') →
  Forall (λ batch, (1 ≤ length batch)%nat
                   ∧ Z.of_nat (length batch) ≤ batch_size a'
                   ∧ (num_samples a' / len a' ≤ length batch
                      ≤ num_samples a' / len a' + 1)%nat) (batches a').
Proof.
  unfold shuffle.
  destruct (np_random_shuffle (seq 0 (num_samples a)) g) as [all_idx g1] eqn:Hsh.
  pose proof (np_random_shuffle_perm (seq 0 (num_samples a)) g) as Hperm.
  rewrite Hsh in Hperm. simpl in Hperm.
  destruct (ceil_div (Z.of_nat (num_samples a)) (batch_size a)) as [k|] eqn:Hceil;
    cbn [rbind]; [|discriminate].
  destruct (array_split all_idx k) as [b|] eqn:Hsplit; cbn [rbind]; [|discriminate].
  intros [= <- <-]. unfold len, num_samples. simpl.
  eapply split_sizes_bounded; [|exact Hceil|exact Hsplit].
  by rewrite (Permutation_length Hperm), length_seq.
Qed.

(** X22. On every augmenter that exists, no batch is empty, no batch has
    more than [batch_size] samples, and two batches differ by at most one
    sample. *)
Theorem batches_balanced (a : Augmenter) :
  reachable a →
  Forall (λ batch, (1 ≤ length batch)%nat
                   ∧ Z.of_nat (length batch) ≤ batch_size a
                   ∧ (num_samples a / len a ≤ length batch
                      ≤ num_samples a / len a + 1)%nat) (batches a).
Proof.
  induction 1 as [X Y points datagen output_names batch_size shuffle_initially
                    g a g' Hnew | a batches_only g a' g' _ IH Hshuffle].
  - revert Hnew. unfold Augmenter_new, num_samples. cbn [Augmentation.X].
    destruct (ceil_div (Z.of_nat (length X)) batch_size) as [k|] eqn:Hceil;
      cbn [rbind]; [|discriminate].
    destruct (array_split (seq 0 (length X)) k) as [b|] eqn:Hsplit;
      cbn [rbind]; [|discriminate].
    destruct shuffle_initially.
    + apply shuffle_rebatch_sizes.
    + intros [= <- <-]. unfold len, num_samples. simpl.
      eapply split_sizes_bounded; [|exact Hceil|exact Hsplit].
      apply length_seq.
  - destruct batches_only; [|by eapply shuffle_rebatch_sizes].
    destruct (shuffle_keeps _ _ _ _ _ Hshuffle) as (HX & _ & _ & _ & _ & Hd).
    revert Hshuffle. unfold shuffle.
    destruct (np_random_shuffle (batches a) g) as [b g1] eqn:Hsh.
    pose proof (np_random_shuffle_perm (batches a) g) as Hperm.
    rewrite Hsh in Hperm. simpl in Hperm.
    intros [= <- <-]. unfold len, num_samples in *. simpl in *.
    rewrite Hperm, (Permutation_length Hperm). exact IH.
Qed.

Lemma batches_balanced_witness :
  reachable shuffled_augmenter
  ∧ Forall (λ batch, (1 ≤ length batch)%nat
                     ∧ Z.of_nat (length batch) ≤ batch_size shuffled_augmenter
                     ∧ (num_samples shuffled_augmenter / len shuffled_augmenter
                        ≤ length batch
                        ≤ num_samples shuffled_augmenter / len shuffled_augmenter
                          + 1)%nat)
      (batches shuffled_augmenter).
Proof.
  split; [exact shuffled_augmenter_reachable|].
  exact (batches_balanced shuffled_augmenter shuffled_augmenter_reachable).
Defined.

(** X23. A shuffle of the batches alone always returns; it reorders the
    batches and moves no sample from one batch to another. *)
Theorem shuffle_batches_only_keeps_batches (a : Augmenter) (g : rng) :
  ∃ a' g', shuffle a true g = Ok (a', g')
           ∧ batches a' ≡ₚ batches a
           ∧ len a' = len a
           ∧ X a' = X a ∧ Y a' = Y a ∧ points a' = points a
           ∧ batch_size a' = batch_size a.
Proof.
  unfold shuffle.
  pose proof (np_random_shuffle_perm (batches a) g) as Hperm.
  destruct (np_random_shuffle (batches a) g) as [b g1]. simpl in Hperm.
  exists (with_batches a b), g1. split; [reflexivity|].
  split; [exact Hperm|]. split; [|done].
  unfold len. simpl. by rewrite Hperm.
Qed.

(** *** Batches of images *)

(** X24. On an augmenter with target images, [__getitem__] returns for
    every batch index from [-len] to [len - 1]; the images and the targets
    of the batch are taken at the same sample indices and changed by the
    same augmentation, and under every output name stands the same
    target. *)
Theorem getitem_pairs_images_and_targets (a : Augmenter) (aug_det : deterministic)
    (y : list ndarray) (batch_idx : Z) :
  reachable a →
  Y a = Some y →
  (num_samples a ≤ length y)%nat →
  - Z.of_nat (len a) ≤ batch_idx < Z.of_nat (len a) →
  ∃ idx Xb Yb,
    seq_getitem (batches a) batch_idx = Ok idx
    ∧ take_indices (X a) idx = Ok Xb
    ∧ take_indices y idx = Ok Yb
    ∧ length Xb = length idx ∧ length Yb = length idx
    ∧ getitem a aug_det batch_idx
      = Ok (augment_images aug_det Xb,
            match output_names a with
            | Some names =>
                inr (map (λ output_name,
                            (output_name, TImages (augment_images aug_det Yb)))
                       names)
            | None => inl (TImages (augment_images aug_det Yb))
            end).
Proof.
  intros Hreach HY Hlen Hidx.
  destruct (seq_getitem_in_range (batches a) batch_idx Hidx) as (idx & Hget & Hin).
  destruct (take_indices_total (X a) idx) as (Xb & HXb & HXlen).
  { intros i Hi. by eapply batch_indices_valid. }
  destruct (take_indices_total y idx) as (Yb & HYb & HYlen).
  { intros i Hi. pose proof (batch_indices_valid a idx i Hreach Hin Hi). lia. }
  exists idx, Xb, Yb. do 5 (split; [done|]).
  unfold getitem. rewrite Hget. cbn [rbind]. rewrite HXb. cbn [rbind].
  rewrite HY, HYb. cbn [rbind].
  destruct (output_names a) as [[|name names]|]; reflexivity.
Qed.

Lemma getitem_pairs_images_and_targets_witness :
  (reachable paired_augmenter
   ∧ Y paired_augmenter = Some five_images
   ∧ (num_samples paired_augmenter ≤ length five_images)%nat
   ∧ - Z.of_nat (len paired_augmenter) ≤ -1 < Z.of_nat (len paired_augmenter))
  ∧ ∃ idx Xb Yb,
      seq_getitem (batches paired_augmenter) (-1) = Ok idx
      ∧ take_indices (X paired_augmenter) idx = Ok Xb
      ∧ take_indices five_images idx = Ok Yb
      ∧ length Xb = length idx ∧ length Yb = length idx
      ∧ getitem paired_augmenter shift_right (-1)
        = Ok (augment_images shift_right Xb,
              match output_names paired_augmenter with
              | Some names =>
                  inr (map (λ output_name,
                              (output_name,
                               TImages (augment_images shift_right Yb)))
                         names)
              | None => inl (TImages (augment_images shift_right Yb))
              end).
Proof.
  assert (Hlen : (num_samples paired_augmenter ≤ length five_images)%nat)
    by (change (5 ≤ 5)%nat; lia).
  assert (Hidx : - Z.of_nat (len paired_augmenter) ≤ -1
                 < Z.of_nat (len paired_augmenter))
    by (change (- 3 ≤ -1 < 3); lia).
  split; [split; [exact paired_augmenter_reachable
                 | split; [reflexivity | split; [exact Hlen | exact Hidx]]]|].
  exact (getitem_pairs_images_and_targets paired_augmenter shift_right
           five_images (-1) paired_augmenter_reachable eq_refl Hlen Hidx).
Defined.

(** What [take_indices] returns, entry by entry. *)
Lemma take_indices_lookup {A} (l : list A) (idx : list nat) (out : list A) :
  take_indices l idx = Ok out → map Some out = map (λ i, l !! i) idx.
Proof.
  revert out. induction idx as [|i idx IH]; intros out; simpl.
  - by intros [= <-].
  - destruct (l !! i) as [x|] eqn:Hx; [|discriminate].
    destruct (take_indices l idx) as [rest|]; [|discriminate].
    intros [= <-]. simpl. by rewrite (IH rest).
Qed.

Lemma take_indices_batches {A} (l : list A) (bs : list (list nat)) :
  (∀ idx i, idx ∈ bs → i ∈ idx → (i < length l)%nat) →
  ∃ outs, Forall2 (λ idx out, take_indices l idx = Ok out) bs outs
          ∧ map Some (concat outs) = map (λ i, l !! i) (concat bs).
Proof.
  induction bs as [|idx bs IH]; intros Hvalid.
  - exists []. by split.
  - destruct (take_indices_total l idx) as (out & Hout & _).
    { intros i Hi. eapply Hvalid; [apply list_elem_of_here | done]. }
    destruct IH as (outs & Houts & Hcat).
    { intros idx' i Hidx' Hi. eapply Hvalid; [by apply list_elem_of_further | done]. }
    exists (out :: outs). split; [by constructor|].
    simpl. rewrite !map_app, Hcat. f_equal. by apply take_indices_lookup.
Qed.

(** X25. One pass over the batches of an augmenter takes every image
    once. *)
Theorem epoch_takes_every_image (a : Augmenter) :
  reachable a →
  ∃ Xbs, Forall2 (λ idx Xb, take_indices (X a) idx = Ok Xb) (batches a) Xbs
         ∧ concat Xbs ≡ₚ X a.
Proof.
  intros Hreach.
  destruct (take_indices_batches (X a) (batches a)) as (Xbs & Htake & Hcat).
  { intros idx i Hidx Hi. by eapply batch_indices_valid. }
  exists Xbs. split; [exact Htake|].
  destruct (reachable_invariant a Hreach) as (_ & _ & Hperm & _).
  assert (Hall : map (λ i, X a !! i) (seq 0 (num_samples a)) = map Some (X a)).
  { unfold num_samples. generalize (X a). intros l.
    induction l as [|x l IH] using rev_ind; [reflexivity|].
    rewrite length_app, Nat.add_1_r, seq_S, !map_app, <- IH. simpl.
    f_equal.
    - apply map_ext_in. intros i Hi. apply in_seq in Hi.
      by rewrite lookup_app_l by lia.
    - by rewrite list_lookup_middle. }
  assert (Hsome : map Some (concat Xbs) ≡ₚ map Some (X a)).
  { rewrite Hcat, <- Hall. by apply Permutation_map. }
  apply Permutation_map_inv in Hsome as (l3 & Heq & Hperm3).
  assert (concat Xbs = l3) as <-; [|by symmetry].
  clear -Heq. revert l3 Heq. generalize (concat Xbs).
  induction l as [|x l IH]; intros [|z l3] Heq; try discriminate; [done|].
  injection Heq as -> Heq. f_equal. by apply IH.
Qed.

Lemma epoch_takes_every_image_witness :
  reachable shuffled_augmenter
  ∧ ∃ Xbs, Forall2 (λ idx Xb, take_indices (X shuffled_augmenter) idx = Ok Xb)
             (batches shuffled_augmenter) Xbs
           ∧ concat Xbs ≡ₚ X shuffled_augmenter.
Proof.
  split; [exact shuffled_augmenter_reachable|].
  exact (epoch_takes_every_image shuffled_augmenter shuffled_augmenter_reachable).
Defined.

End Epochs.
